(** * react-native-gemma: model acquisition and engine lifecycle

    A shallow embedding of the TypeScript application code
    ([App.tsx], [src/inference/GemmaInference.ts],
    [src/utils/messageUtils.ts]) and of the Android
    native module ([GemmaModule.kt]), with the properties of the
    specification stated over it.

    Conventions.
    - A JavaScript string is the list of its UTF-16 code units.
    - [async]/[await] and Kotlin coroutines are sequenced: the program has
      a single logical thread of control, so an awaited call is run to its
      settlement before the caller continues.
    - The file system, the network, the clock and the MediaPipe engine are
      outside the repository.  Their behaviour is supplied by an
      environment record [Env]; the calls the program makes to them are
      recorded in an event log.
    - [console.log]/[android.util.Log] output is not modelled. *)

From Stdlib Require Import ZArith NArith QArith String Ascii List Sorted Lia.
From Stdlib Require Import DecimalString DecimalN DecimalFacts SpecFloat.
From stdpp Require Import gmap.

Local Open Scope N_scope.

(** ** JavaScript strings *)

Module Js.

Abbreviation str := (list N).

(** A string literal of the source, as code units. *)
Fixpoint lit (s : string) : str :=
  match s with
  | EmptyString => []
  | String c s' => N_of_ascii c :: lit s'
  end.

(** ECMAScript [WhiteSpace] and [LineTerminator] code points, the ones
    [String.prototype.trim] strips. *)
Definition isWhiteSpace (c : N) : bool :=
  (c =? 0x09) || (c =? 0x0A) || (c =? 0x0B) || (c =? 0x0C) || (c =? 0x0D)
  || (c =? 0x20) || (c =? 0xA0) || (c =? 0x1680)
  || ((0x2000 <=? c) && (c <=? 0x200A))
  || (c =? 0x2028) || (c =? 0x2029) || (c =? 0x202F) || (c =? 0x205F)
  || (c =? 0x3000) || (c =? 0xFEFF).

Fixpoint trimStart (s : str) : str :=
  match s with
  | [] => []
  | c :: s' => if isWhiteSpace c then trimStart s' else s
  end.

Definition trimEnd (s : str) : str := rev (trimStart (rev s)).

(** [s.trim()] *)
Definition trim (s : str) : str := trimEnd (trimStart s).

(** Truthiness of a string value: only the empty string is falsy. *)
Definition truthy (s : str) : bool :=
  match s with [] => false | _ :: _ => true end.

(** [s?.trim()] on a value that may be [null]/[undefined], then coerced
    to a boolean. *)
Definition truthyTrim (s : option str) : bool :=
  match s with None => false | Some s => truthy (trim s) end.

Fixpoint startsWith (p s : str) : bool :=
  match p, s with
  | [], _ => true
  | _ :: _, [] => false
  | a :: p', b :: s' => (a =? b) && startsWith p' s'
  end.

(** [s.substring(n)] for [0 <= n]. *)
Definition substringFrom (n : nat) (s : str) : str := skipn n s.

(** [n.toString()] for a non-negative integer below 10^21: its decimal
    digits. *)
Definition toString (n : N) : str :=
  lit (NilEmpty.string_of_uint (N.to_uint n)).

(** [`${z}`] for an integer. *)
Definition toStringZ (z : Z) : str :=
  match z with
  | Zneg p => lit "-" ++ toString (Npos p)
  | _ => toString (Z.to_N z)
  end.

(** A JavaScript number: an IEEE 754 binary64 value.  A finite value is
    kept as the rational it denotes, in lowest terms; the two zeros are
    not told apart. *)
Inductive num :=
| Fin (q : Q)
| PosInf
| NegInf
| NaN.

(** An integer that is a number already: a byte count, a status code, a
    literal.  Integers of magnitude up to 2^53 are binary64 values. *)
Definition ofZ (z : Z) : num := Fin (inject_Z z).

(** [a / b] rounded to the nearest integer, a tie to the even one
    ([0 < b]). *)
Definition nearestEven (a b : Z) : Z :=
  let f := (a / b)%Z in
  match (2 * (a mod b) ?= b)%Z with
  | Lt => f
  | Gt => (f + 1)%Z
  | Eq => if Z.even f then f else (f + 1)%Z
  end.

(** The integer part of the binary logarithm of [n / d]. *)
Definition floorLog2 (n d : positive) : Z :=
  let k := (Z.log2 (Zpos n) - Z.log2 (Zpos d))%Z in
  if (Zpos d * 2 ^ Z.max k 0 <=? Zpos n * 2 ^ Z.max (- k) 0)%Z
  then k else (k - 1)%Z.

(** The exponent of the last bit of a binary64 significand, which has 53
    bits, for a value of the magnitude of [n / d]; it is -1074 for the
    subnormal numbers. *)
Definition lastBit (n d : positive) : Z :=
  Z.max (-1074) (floorLog2 n d - 52).

(** The significand of the binary64 number nearest to [n / d], in units
    of the last bit. *)
Definition significand (n d : positive) : Z :=
  let e := lastBit n d in
  nearestEven (Zpos n * 2 ^ Z.max (- e) 0) (Zpos d * 2 ^ Z.max e 0).

(** [m * 2^e] in lowest terms. *)
Definition dyadic (m e : Z) : Q :=
  if (0 <=? e)%Z then inject_Z (m * 2 ^ e)
  else Qred (m # Z.to_pos (2 ^ (- e))).

(** The rounding every arithmetic operation applies to its exact result:
    to the nearest binary64 value, a tie to the even significand; a
    result of magnitude 2^1024 or more is infinite. *)
Definition round (q : Q) : num :=
  match Qnum q with
  | Z0 => Fin 0
  | Zpos n =>
      let m := significand n (Qden q) in
      let e := lastBit n (Qden q) in
      if (1024 <=? Z.log2 m + e)%Z then PosInf else Fin (dyadic m e)
  | Zneg n =>
      let m := significand n (Qden q) in
      let e := lastBit n (Qden q) in
      if (1024 <=? Z.log2 m + e)%Z then NegInf else Fin (dyadic (- m) e)
  end.

(** [x / y] on numbers; division by zero follows IEEE 754. *)
Definition div (x y : num) : num :=
  match x, y with
  | NaN, _ | _, NaN => NaN
  | Fin a, Fin b =>
      if Qeq_bool b 0 then
        match (a ?= 0)%Q with
        | Eq => NaN
        | Gt => PosInf
        | Lt => NegInf
        end
      else round (a / b)
  | Fin _, (PosInf | NegInf) => Fin 0
  | (PosInf | NegInf), (PosInf | NegInf) => NaN
  | PosInf, Fin b => if Qle_bool 0 b then PosInf else NegInf
  | NegInf, Fin b => if Qle_bool 0 b then NegInf else PosInf
  end.

(** [x * y] on numbers. *)
Definition mul (x y : num) : num :=
  match x, y with
  | NaN, _ | _, NaN => NaN
  | Fin a, Fin b => round (a * b)
  | Fin a, PosInf | PosInf, Fin a =>
      match (a ?= 0)%Q with Eq => NaN | Gt => PosInf | Lt => NegInf end
  | Fin a, NegInf | NegInf, Fin a =>
      match (a ?= 0)%Q with Eq => NaN | Gt => NegInf | Lt => PosInf end
  | PosInf, PosInf | NegInf, NegInf => PosInf
  | PosInf, NegInf | NegInf, PosInf => NaN
  end.

(** The number that a binary64 datum of the Standard Library's IEEE 754
    formalization denotes, and the datum of an integer; they serve to
    compare [div] and [mul] with the operations of that formalization. *)
Definition ofBinary64 (x : spec_float) : num :=
  match x with
  | S754_zero _ => Fin 0
  | S754_infinity false => PosInf
  | S754_infinity true => NegInf
  | S754_nan => NaN
  | S754_finite s m e => Fin (dyadic (if s then Zneg m else Zpos m) e)
  end.

Definition binary64 (z : Z) : spec_float :=
  binary_normalize 53 1024 z 0 false.


End Js.

(** ** Values thrown and promise rejections *)

Inductive exn :=
| JsError (message : Js.str)             (* [new Error(message)] *)
| NativeError (code message : Js.str)    (* [promise.reject(code, message)], an [Error] carrying [code] *)
| Thrown (repr : Js.str).                (* any other thrown value; [String(v) = repr] *)

(** [error instanceof Error ? error.message : String(error)] *)
Definition message_of (e : exn) : Js.str :=
  match e with
  | JsError m => m
  | NativeError _ m => m
  | Thrown r => r
  end.

(** [error instanceof Error ? error.message : dflt] *)
Definition message_or (dflt : Js.str) (e : exn) : Js.str :=
  match e with
  | JsError m => m
  | NativeError _ m => m
  | Thrown _ => dflt
  end.

(** ** The data model of the application *)

Inductive Sender := user | ai.

Record Message := mkMessage {
  id : Js.str;
  text : Js.str;
  sender : Sender;
  image : option Js.str
}.

(** The value handed to the progress callback of [downloadModel] in the
    current [App.tsx]. *)
Record DownloadProgress := mkProgress {
  progress : Js.num;
  p_bytesWritten : Z;
  p_totalBytes : Z
}.

(** The [useState] cells of the [App] component. *)
Record AppState := mkApp {
  messages : list Message;
  input : Js.str;
  selectedImage : option Js.str;
  loading : bool;
  modelReady : bool;
  downloading : bool;
  downloadProgress : Js.num;
  bytesWritten : Z;
  totalBytes : Z;
  downloadError : option Js.str
}.

(** ** The device: file system, native module, static fields *)

Inductive node :=
| Dir
| File (size : N).

Record Device := mkDevice {
  fs : gmap (list N) node;          (* path -> directory or file of a given length *)
  gi_modelPath : Js.str;            (* [GemmaInference.modelPath] *)
  gi_isInitialized : bool;          (* [GemmaInference.isInitialized] *)
  km_model : option nat;            (* [GemmaModule.model : LlmInference?] *)
  nextEngine : nat;                 (* allocation counter of engine instances *)
  liveBitmaps : gset nat;           (* decoded bitmaps not yet recycled *)
  nextBitmap : nat;                 (* allocation counter of bitmaps *)
  clockReads : nat;                 (* number of [Date.now()] calls so far *)
  transfers : nat;                  (* number of [RNFS.downloadFile] calls so far *)
  stored : option (list Message)    (* the persisted message log *)
}.

Record World := mkWorld {
  app : AppState;
  dev : Device
}.

(** ** The environment *)

Inductive transfer_end :=
| Resolves                 (* the promise of [downloadFile] resolves *)
| Rejects (e : exn).       (* the transfer breaks off: the promise rejects *)

(** One HTTP transfer as the network delivers it: the response status, the
    declared [Content-Length], the sizes of the chunks received in order,
    and how the transfer ends after them. *)
Record transfer := mkTransfer {
  status : Z;
  contentLength : Z;
  chunks : list N;
  ending : transfer_end
}.

Inductive reply :=
| Reply (response : Js.str)
| Fault (message : Js.str).     (* the engine throws an exception with this message *)

Inductive vreply :=
| VReply (response : Js.str)
| VCreateFault (message : Js.str)     (* [LlmInferenceSession.createFromOptions] throws *)
| VGenerateFault (message : Js.str).  (* a call on the open session throws *)

Record Env := mkEnv {
  DocumentDirectoryPath : Js.str;        (* [RNFS.DocumentDirectoryPath] *)
  existsFault : Js.str -> option exn;    (* [RNFS.exists(p)] rejects with this value *)
  mkdirFault : Js.str -> option exn;     (* [RNFS.mkdir(p)] rejects with this value *)
  dirLength : N;                         (* what [File.length()] answers for a directory *)
  transferOf : nat -> transfer;          (* the n-th transfer started by [RNFS.downloadFile] *)
  now : nat -> N;                        (* the n-th reading of [Date.now()] *)
  engineLoad : Js.str -> option Js.str;  (* [LlmInference.createFromOptions] throws with this message *)
  engineText : Js.str -> reply;          (* [model.generateResponse(prompt)] *)
  engineVision : Js.str -> vreply;       (* the image session run on [prompt] *)
  decodes : Js.str -> bool;              (* [BitmapFactory.decodeFile(p)] is not null *)
  closeFault : option Js.str             (* [model.close()] throws with this message *)
}.

(** ** What the program does to its surroundings *)

Inductive event :=
(* orchestration *)
| CallCheckModelExists
| CallDownload
| CallInitialize (path : Js.str)
| SetModelReady (b : bool)
| SetDownloadError (e : option Js.str)
| SetDownloadProgress (p : Js.num)
(* react-native-fs *)
| RnfsMkdir (path : Js.str)
| RnfsDownloadFile (toFile : Js.str)
(* the bridge to GemmaModule *)
| NativeLoadModel (path : Js.str)
| NativeGenerate (prompt : Js.str)
| NativeGenerateWithImage (prompt path : Js.str)
| NativeUnloadModel
(* MediaPipe and Android *)
| CreateFromOptions (path : Js.str)
| GenerateResponse (prompt : Js.str)
| SessionCreate
| SessionAddQueryChunk (prompt : Js.str)
| SessionAddImage (bitmap : nat)
| SessionGenerateResponse
| SessionClose
| ModelClose (engine : nat)
| DecodeFile (path : Js.str)
| BitmapRecycle (bitmap : nat).

(** ** Field updates *)

Definition with_fs (f : gmap (list N) node -> gmap (list N) node) (d : Device) : Device :=
  mkDevice (f (fs d)) (gi_modelPath d) (gi_isInitialized d) (km_model d)
           (nextEngine d) (liveBitmaps d) (nextBitmap d) (clockReads d)
           (transfers d) (stored d).

Definition with_gi_modelPath (p : Js.str) (d : Device) : Device :=
  mkDevice (fs d) p (gi_isInitialized d) (km_model d)
           (nextEngine d) (liveBitmaps d) (nextBitmap d) (clockReads d)
           (transfers d) (stored d).

Definition with_gi_isInitialized (b : bool) (d : Device) : Device :=
  mkDevice (fs d) (gi_modelPath d) b (km_model d)
           (nextEngine d) (liveBitmaps d) (nextBitmap d) (clockReads d)
           (transfers d) (stored d).

Definition with_km_model (m : option nat) (d : Device) : Device :=
  mkDevice (fs d) (gi_modelPath d) (gi_isInitialized d) m
           (nextEngine d) (liveBitmaps d) (nextBitmap d) (clockReads d)
           (transfers d) (stored d).

(** A fresh engine instance is created and stored in [model]. *)
Definition with_new_engine (d : Device) : Device :=
  mkDevice (fs d) (gi_modelPath d) (gi_isInitialized d) (Some (nextEngine d))
           (S (nextEngine d)) (liveBitmaps d) (nextBitmap d) (clockReads d)
           (transfers d) (stored d).

(** A fresh bitmap is allocated. *)
Definition with_new_bitmap (d : Device) : Device :=
  mkDevice (fs d) (gi_modelPath d) (gi_isInitialized d) (km_model d)
           (nextEngine d) ({[ nextBitmap d ]} ∪ liveBitmaps d) (S (nextBitmap d))
           (clockReads d) (transfers d) (stored d).

Definition with_recycled (b : nat) (d : Device) : Device :=
  mkDevice (fs d) (gi_modelPath d) (gi_isInitialized d) (km_model d)
           (nextEngine d) (liveBitmaps d ∖ {[ b ]}) (nextBitmap d)
           (clockReads d) (transfers d) (stored d).

Definition with_clock_read (d : Device) : Device :=
  mkDevice (fs d) (gi_modelPath d) (gi_isInitialized d) (km_model d)
           (nextEngine d) (liveBitmaps d) (nextBitmap d) (S (clockReads d))
           (transfers d) (stored d).

Definition with_transfer_started (d : Device) : Device :=
  mkDevice (fs d) (gi_modelPath d) (gi_isInitialized d) (km_model d)
           (nextEngine d) (liveBitmaps d) (nextBitmap d) (clockReads d)
           (S (transfers d)) (stored d).

Definition setMessages (v : list Message) (a : AppState) : AppState :=
  mkApp v (input a) (selectedImage a) (loading a) (modelReady a)
        (downloading a) (downloadProgress a) (bytesWritten a) (totalBytes a)
        (downloadError a).

Definition setInput (v : Js.str) (a : AppState) : AppState :=
  mkApp (messages a) v (selectedImage a) (loading a) (modelReady a)
        (downloading a) (downloadProgress a) (bytesWritten a) (totalBytes a)
        (downloadError a).

Definition setSelectedImage (v : option Js.str) (a : AppState) : AppState :=
  mkApp (messages a) (input a) v (loading a) (modelReady a)
        (downloading a) (downloadProgress a) (bytesWritten a) (totalBytes a)
        (downloadError a).

Definition setLoading (v : bool) (a : AppState) : AppState :=
  mkApp (messages a) (input a) (selectedImage a) v (modelReady a)
        (downloading a) (downloadProgress a) (bytesWritten a) (totalBytes a)
        (downloadError a).

Definition setModelReady (v : bool) (a : AppState) : AppState :=
  mkApp (messages a) (input a) (selectedImage a) (loading a) v
        (downloading a) (downloadProgress a) (bytesWritten a) (totalBytes a)
        (downloadError a).

Definition setDownloading (v : bool) (a : AppState) : AppState :=
  mkApp (messages a) (input a) (selectedImage a) (loading a) (modelReady a)
        v (downloadProgress a) (bytesWritten a) (totalBytes a)
        (downloadError a).

Definition setDownloadProgress (v : Js.num) (a : AppState) : AppState :=
  mkApp (messages a) (input a) (selectedImage a) (loading a) (modelReady a)
        (downloading a) v (bytesWritten a) (totalBytes a)
        (downloadError a).

Definition setBytesWritten (v : Z) (a : AppState) : AppState :=
  mkApp (messages a) (input a) (selectedImage a) (loading a) (modelReady a)
        (downloading a) (downloadProgress a) v (totalBytes a)
        (downloadError a).

Definition setTotalBytes (v : Z) (a : AppState) : AppState :=
  mkApp (messages a) (input a) (selectedImage a) (loading a) (modelReady a)
        (downloading a) (downloadProgress a) (bytesWritten a) v
        (downloadError a).

Definition setDownloadError (v : option Js.str) (a : AppState) : AppState :=
  mkApp (messages a) (input a) (selectedImage a) (loading a) (modelReady a)
        (downloading a) (downloadProgress a) (bytesWritten a) (totalBytes a)
        v.

Definition with_stored (v : option (list Message)) (d : Device) : Device :=
  mkDevice (fs d) (gi_modelPath d) (gi_isInitialized d) (km_model d)
           (nextEngine d) (liveBitmaps d) (nextBitmap d) (clockReads d)
           (transfers d) v.

(** ** The monad of the embedding: state, exceptions and the event log *)

Inductive outcome (A : Type) :=
| Ok (a : A)
| Throw (e : exn).
Arguments Ok {A} a.
Arguments Throw {A} e.

Definition M (A : Type) : Type := World -> outcome A * World * list event.

Definition ret {A} (a : A) : M A := fun w => (Ok a, w, []).

Definition bind {A B} (m : M A) (k : A -> M B) : M B :=
  fun w =>
    match m w with
    | (Ok a, w1, t1) => let '(r, w2, t2) := k a w1 in (r, w2, t1 ++ t2)
    | (Throw e, w1, t1) => (Throw e, w1, t1)
    end.

Definition throw {A} (e : exn) : M A := fun w => (Throw e, w, []).

(** [try { m } catch (error) { h error }] *)
Definition try_catch {A} (m : M A) (h : exn -> M A) : M A :=
  fun w =>
    match m w with
    | (Ok a, w1, t1) => (Ok a, w1, t1)
    | (Throw e, w1, t1) => let '(r, w2, t2) := h e w1 in (r, w2, t1 ++ t2)
    end.

(** [try { m } finally { f }] *)
Definition try_finally {A} (m : M A) (f : M unit) : M A :=
  fun w =>
    let '(r, w1, t1) := m w in
    match f w1 with
    | (Ok _, w2, t2) => (r, w2, t1 ++ t2)
    | (Throw e, w2, t2) => (Throw e, w2, t1 ++ t2)
    end.

Definition emit (ev : event) : M unit := fun w => (Ok tt, w, [ev]).

Definition getApp : M AppState := fun w => (Ok (app w), w, []).
Definition getDev : M Device := fun w => (Ok (dev w), w, []).
Definition modApp (f : AppState -> AppState) : M unit :=
  fun w => (Ok tt, mkWorld (f (app w)) (dev w), []).
Definition modDev (f : Device -> Device) : M unit :=
  fun w => (Ok tt, mkWorld (app w) (f (dev w)), []).

(** A computation of the message store module: it runs on the persisted
    log alone. *)
Definition onStorage {A}
  (f : option (list Message) -> outcome A * option (list Message)) : M A :=
  fun w =>
    let '(r, s) := f (stored (dev w)) in
    (r, mkWorld (app w) (with_stored s (dev w)), []).

Declare Scope prog_scope.
Delimit Scope prog_scope with prog.
Notation "x <- m ;; k" := (bind m (fun x => k))
  (at level 100, m at next level, right associativity) : prog_scope.
Notation "m ;;; k" := (bind m (fun _ => k))
  (at level 100, right associativity) : prog_scope.
Local Open Scope prog_scope.

Definition when (b : bool) (m : M unit) : M unit :=
  if b then m else ret tt.

(** ** react-native-fs, the clock *)

Module RNFS.
Section WithEnv.
Variable E : Env.

(** [RNFS.exists(p)] *)
Definition exists_ (p : Js.str) : M bool :=
  match existsFault E p with
  | Some e => throw e
  | None =>
      d <- getDev ;;
      ret (match fs d !! p with Some _ => true | None => false end)
  end.

(** [RNFS.mkdir(p)] *)
Definition mkdir (p : Js.str) : M unit :=
  emit (RnfsMkdir p) ;;;
  match mkdirFault E p with
  | Some e => throw e
  | None =>
      modDev (with_fs (fun m => match m !! p with
                                | Some _ => m
                                | None => <[p := Dir]> m
                                end))
  end.

Definition is2xx (code : Z) : bool := ((200 <=? code) && (code <? 300))%Z.

(** Modelled from the spec: the body of a transfer is written to [toFile]
    chunk by chunk; the progress callback sees the running total and the
    declared length. *)
Fixpoint stream (toFile : Js.str) (len : Z) (onProgress : Z -> Z -> M unit)
         (total : N) (cs : list N) : M N :=
  match cs with
  | [] => ret total
  | c :: cs' =>
      let total' := total + c in
      onProgress (Z.of_N total') len ;;;
      modDev (with_fs (fun m => <[toFile := File total']> m)) ;;;
      stream toFile len onProgress total' cs'
  end.

(** Modelled from the spec: [react-native-fs] is a dependency of the
    application and not among its sources.  This is
    [RNFS.downloadFile({toFile, progress, ...}).promise], resolved to
    [(statusCode, bytesWritten)], as the direct-destination writer that
    section 4.3 and the design notes of the specification describe (and
    as the library behaves on Android, the platform of [GemmaModule.kt]):
    on a 2xx response the destination is opened, which creates or
    truncates it, and the body is streamed into it; any other response
    writes nothing. *)
Definition downloadFile (toFile : Js.str) (onProgress : Z -> Z -> M unit)
  : M (Z * N) :=
  d <- getDev ;;
  let tr := transferOf E (transfers d) in
  modDev with_transfer_started ;;;
  emit (RnfsDownloadFile toFile) ;;;
  written <-
    (if is2xx (status tr) then
       modDev (with_fs (fun m => <[toFile := File 0]> m)) ;;;
       stream toFile (contentLength tr) onProgress 0 (chunks tr)
     else ret 0) ;;
  match ending tr with
  | Resolves => ret (status tr, written)
  | Rejects e => throw e
  end.

End WithEnv.
End RNFS.

(** [Date.now()] *)
Definition dateNow (E : Env) : M N :=
  d <- getDev ;;
  modDev with_clock_read ;;;
  ret (now E (clockReads d)).

(** ** GemmaModule.kt *)

(** How a [@ReactMethod] settles its promise. *)
Inductive settle :=
| Resolve (v : Js.str)
| Reject (code message : Js.str).

(** A Kotlin exception with its [message].  The failures of the engine,
    of the decoder and of the file system are [Exception]s, which is what
    the methods below catch; a [java.lang.Error] (memory exhausted, a
    native library missing) is not caught by [catch (e: Exception)] and
    is not modelled. *)
Definition ktException (m : Js.str) : exn := Thrown m.

Module GemmaModule.
Section WithEnv.
Variable E : Env.

(** [java.io.File(p).length()] *)
Definition fileLength (d : Device) (p : Js.str) : N :=
  match fs d !! p with
  | Some (File n) => n
  | Some Dir => dirLength E
  | None => 0
  end.

Definition loadModel (modelPath : Js.str) : M settle :=
  try_catch
    (d <- getDev ;;
     match fs d !! modelPath with
     | None =>
         ret (Reject (Js.lit "LOAD_ERROR")
                     (Js.lit "Model file not found at: " ++ modelPath))
     | Some _ =>
         if fileLength d modelPath =? 0 then
           ret (Reject (Js.lit "LOAD_ERROR")
                       (Js.lit "Model file is empty: " ++ modelPath))
         else
           emit (CreateFromOptions modelPath) ;;;
           match engineLoad E modelPath with
           | Some m => throw (ktException m)
           | None =>
               modDev with_new_engine ;;;
               ret (Resolve (Js.lit "Model loaded successfully"))
           end
     end)
    (fun e => ret (Reject (Js.lit "LOAD_ERROR") (message_of e))).

Definition generate (prompt : Js.str) : M settle :=
  d <- getDev ;;
  match km_model d with
  | None => ret (Reject (Js.lit "NO_MODEL") (Js.lit "Model not loaded"))
  | Some _ =>
      try_catch
        (emit (GenerateResponse prompt) ;;;
         match engineText E prompt with
         | Reply r => ret (Resolve r)
         | Fault m => throw (ktException m)
         end)
        (fun e => ret (Reject (Js.lit "GENERATE_ERROR") (message_of e)))
  end.

(** [BitmapFactory.decodeFile(p)]: a fresh bitmap, or [null]. *)
Definition decodeFile (p : Js.str) : M (option nat) :=
  emit (DecodeFile p) ;;;
  if decodes E p then
    d <- getDev ;;
    modDev with_new_bitmap ;;;
    ret (Some (nextBitmap d))
  else ret None.

(** [bitmap.recycle()] *)
Definition recycle (b : nat) : M unit :=
  emit (BitmapRecycle b) ;;;
  modDev (with_recycled b).

(** [LlmInferenceSession.createFromOptions(model, opts).use { ... }]:
    [use] closes the session whether or not the block throws. *)
Definition visionSession (prompt : Js.str) (mpImage : nat) : M Js.str :=
  emit SessionCreate ;;;
  match engineVision E prompt with
  | VCreateFault m => throw (ktException m)
  | r =>
      try_finally
        (emit (SessionAddQueryChunk prompt) ;;;
         emit (SessionAddImage mpImage) ;;;
         emit SessionGenerateResponse ;;;
         match r with
         | VReply s => ret s
         | VGenerateFault m | VCreateFault m => throw (ktException m)
         end)
        (emit SessionClose)
  end.

Definition generateWithImage (prompt imagePath : Js.str) : M settle :=
  d <- getDev ;;
  match km_model d with
  | None => ret (Reject (Js.lit "NO_MODEL") (Js.lit "Model not loaded"))
  | Some _ =>
      try_catch
        (d <- getDev ;;
         match fs d !! imagePath with
         | None =>
             ret (Reject (Js.lit "FILE_NOT_FOUND")
                         (Js.lit "Image file does not exist at " ++ imagePath))
         | Some _ =>
             bitmap <- decodeFile imagePath ;;
             match bitmap with
             | None =>
                 ret (Reject (Js.lit "INVALID_IMAGE")
                             (Js.lit "Failed to decode image"))
             | Some bitmap =>
                 let mpImage := bitmap in
                 response <- visionSession prompt mpImage ;;
                 recycle bitmap ;;;
                 ret (Resolve response)
             end
         end)
        (fun e => ret (Reject (Js.lit "GENERATE_ERROR") (message_of e)))
  end.

Definition unloadModel : M settle :=
  try_catch
    (d <- getDev ;;
     match km_model d with
     | Some h =>
         emit (ModelClose h) ;;;
         match closeFault E with
         | Some m => throw (ktException m)
         | None => ret tt
         end
     | None => ret tt
     end ;;;
     modDev (with_km_model None) ;;;
     ret (Resolve (Js.lit "Model unloaded")))
    (fun e => ret (Reject (Js.lit "UNLOAD_ERROR") (message_of e))).

End WithEnv.
End GemmaModule.

(** Calling a [@ReactMethod] from JavaScript: a rejected promise is a
    thrown [Error] at the [await]. *)
Definition native (ev : event) (m : M settle) : M Js.str :=
  emit ev ;;;
  r <- m ;;
  match r with
  | Resolve v => ret v
  | Reject c msg => throw (NativeError c msg)
  end.

(** ** src/inference/GemmaInference.ts *)

Module GemmaInference.
Section WithEnv.
Variable E : Env.

(** [path.startsWith('file:///') ? path.substring(7) : path] *)
Definition normalizePath (path : Js.str) : Js.str :=
  if Js.startsWith (Js.lit "file:///") path then Js.substringFrom 7 path
  else path.

Definition initialize (modelPath : Js.str) : M unit :=
  try_catch
    (fileExists <- RNFS.exists_ E modelPath ;;
     (if negb fileExists then
        throw (JsError (Js.lit "Model file not found at: " ++ modelPath))
      else ret tt) ;;;
     modDev (with_gi_modelPath modelPath) ;;;
     native (NativeLoadModel modelPath) (GemmaModule.loadModel E modelPath) ;;;
     modDev (with_gi_isInitialized true))
    (fun error =>
       modDev (with_gi_isInitialized false) ;;;
       let message := message_of error in
       throw (JsError (Js.lit "Failed to initialize Gemma model: " ++ message))).

(** [prompt] has type [string]: the optional chaining in [prompt?.trim()]
    only matters for a value outside that type.  [imagePath] may be
    [null] or [undefined]. *)
Definition generate (prompt : Js.str) (imagePath : option Js.str) : M Js.str :=
  d <- getDev ;;
  if negb (gi_isInitialized d) then
    throw (JsError (Js.lit "Model not initialized. Call initialize() first."))
  else if negb (Js.truthy (Js.trim prompt)) then
    throw (JsError (Js.lit "Prompt cannot be empty"))
  else
    try_catch
      (match imagePath with
       | Some path =>
           if Js.truthy (Js.trim path) then
             imageExists <- RNFS.exists_ E path ;;
             if negb imageExists then
               throw (JsError (Js.lit "Image not found at: " ++ path))
             else
               let cleanPath := normalizePath path in
               native (NativeGenerateWithImage prompt cleanPath)
                      (GemmaModule.generateWithImage E prompt cleanPath)
           else
             native (NativeGenerate prompt) (GemmaModule.generate E prompt)
       | None =>
           native (NativeGenerate prompt) (GemmaModule.generate E prompt)
       end)
      (fun error =>
         let message := message_of error in
         throw (JsError (Js.lit "Generation failed: " ++ message))).

Definition unload : M unit :=
  d <- getDev ;;
  if negb (gi_isInitialized d) then ret tt
  else
    try_catch
      (native NativeUnloadModel (GemmaModule.unloadModel E) ;;;
       modDev (with_gi_isInitialized false))
      (fun error => throw error).

Definition isModelLoaded : M bool :=
  d <- getDev ;; ret (gi_isInitialized d).

Definition getModelPath : M Js.str :=
  d <- getDev ;; ret (gi_modelPath d).

End WithEnv.
End GemmaInference.

(** State setters whose calls are observable from outside the component. *)
Definition setModelReadyM (b : bool) : M unit :=
  modApp (setModelReady b) ;;; emit (SetModelReady b).

Definition setDownloadErrorM (e : option Js.str) : M unit :=
  modApp (setDownloadError e) ;;; emit (SetDownloadError e).

Definition setDownloadProgressM (p : Js.num) : M unit :=
  modApp (setDownloadProgress p) ;;; emit (SetDownloadProgress p).

(** ** The App component with the model utilities inline

    This is the component as it stands after [GemmaInference.ts] in the
    sources: [MODEL_PATH], [checkModelExists] and [downloadModel] are
    defined in the component itself. *)

Module InlineApp.
Section WithEnv.
Variable E : Env.

Definition MODEL_NAME : Js.str := Js.lit "gemma3n.litertlm".
Definition MODELS_PATH : Js.str := DocumentDirectoryPath E ++ Js.lit "/models".
Definition MODEL_PATH : Js.str := MODELS_PATH ++ Js.lit "/" ++ MODEL_NAME.

Definition checkModelExists : M bool :=
  try_catch
    (exists_ <- RNFS.exists_ E MODEL_PATH ;;
     ret exists_)
    (fun error => ret false).

(** [(res.bytesWritten / res.contentLength) * 100] *)
Definition progressOf (bytesWritten contentLength : Z) : Js.num :=
  Js.mul (Js.div (Js.ofZ bytesWritten) (Js.ofZ contentLength)) (Js.ofZ 100).

Definition downloadModel : M bool :=
  modApp (setDownloading true) ;;;
  setDownloadProgressM (Js.ofZ 0) ;;;
  setDownloadErrorM None ;;;
  try_catch
    (dirExists <- RNFS.exists_ E MODELS_PATH ;;
     when (negb dirExists) (RNFS.mkdir E MODELS_PATH) ;;;
     result <- RNFS.downloadFile E MODEL_PATH
                 (fun bytesWritten contentLength =>
                    let progress := progressOf bytesWritten contentLength in
                    setDownloadProgressM progress) ;;
     let statusCode := fst result in
     if (statusCode =? 200)%Z then
       modApp (setDownloading false) ;;;
       ret true
     else
       throw (JsError (Js.lit "Download failed with status: "
                         ++ Js.toStringZ statusCode)))
    (fun error =>
       let errorMessage := message_or (Js.lit "Download failed") error in
       setDownloadErrorM (Some errorMessage) ;;;
       modApp (setDownloading false) ;;;
       ret false).

Definition initModel : M unit :=
  try_catch
    (emit CallCheckModelExists ;;;
     modelExists <- checkModelExists ;;
     proceed <-
       (if negb modelExists then
          emit CallDownload ;;;
          downloaded <- downloadModel ;;
          ret downloaded
        else ret true) ;;
     if negb proceed then ret tt
     else
       (if negb (Js.truthy MODEL_PATH)
        then throw (JsError (Js.lit "MODEL_PATH is null")) else ret tt) ;;;
       emit (CallInitialize MODEL_PATH) ;;;
       GemmaInference.initialize E MODEL_PATH ;;;
       setModelReadyM true)
    (fun error =>
       setDownloadErrorM
         (Some (message_or (Js.lit "Initialization failed") error))).

End WithEnv.
End InlineApp.

(** ** messageUtils.ts

    [AsyncStorage] is a dependency of the application; what its
    [getItem] and [setItem] do on the key ['messages'] is a parameter,
    and either may reject.  The JSON text kept under the key is
    represented by the log it encodes, so a text that [JSON.parse]
    refuses counts as a rejection: both end in the same [catch]. *)

Module MessageUtils.
Section WithStorage.
Variable getItem :
  option (list Message)
  -> outcome (option (list Message)) * option (list Message).
Variable setItem :
  list Message -> option (list Message) -> outcome unit * option (list Message).

Definition loadMessages (s : option (list Message))
  : outcome (list Message) * option (list Message) :=
  match getItem s with
  | (Ok stored, s') =>
      match stored with
      | Some parsed => (Ok parsed, s')
      | None => (Ok [], s')
      end
  | (Throw error, s') => (Ok [], s')
  end.

Definition saveMessages (messages : list Message) (s : option (list Message))
  : outcome unit * option (list Message) :=
  match setItem messages s with
  | (Ok _, s') => (Ok tt, s')
  | (Throw error, s') => (Ok tt, s')
  end.

End WithStorage.
End MessageUtils.

(** ** App.tsx *)

Module App.
Section WithImports.
Variable E : Env.

(** The component is written against its imports, which are parameters
    here.  [downloadModel] and [handleNetworkError] come from
    [./src/utils/modelUtils], which is not among the sources.
    [loadStoredMessages] and [saveStoredMessages] are [loadMessages] and
    [saveMessages] of [./src/utils/messageUtils], given above as
    [MessageUtils.loadMessages] and [MessageUtils.saveMessages]; those
    two never throw.  An imported function cannot reach the hooks of the
    component: [downloadModel] runs on the device and answers with the
    progress values it hands to its callback, in order, and with its
    result; the message store functions run on the persisted log. *)
Variable downloadModel : Device -> list DownloadProgress * outcome unit * Device.
Variable handleNetworkError : exn -> Js.str.
Variable loadStoredMessages :
  option (list Message) -> outcome (list Message) * option (list Message).
Variable saveStoredMessages :
  list Message -> option (list Message) -> outcome unit * option (list Message).

(** [MODEL_PATH] and [checkModelExists] are those of the inline
    component. *)
Definition MODEL_PATH : Js.str := InlineApp.MODEL_PATH E.
Definition checkModelExists : M bool := InlineApp.checkModelExists E.

(** [await downloadModel(onProgress)] *)
Definition awaitDownloadModel (onProgress : DownloadProgress -> M unit) : M unit :=
  d <- getDev ;;
  let '(ps, r, d') := downloadModel d in
  modDev (fun _ => d') ;;;
  fold_right (fun p k => onProgress p ;;; k) (ret tt) ps ;;;
  match r with
  | Ok _ => ret tt
  | Throw e => throw e
  end.

Definition handleDownload : M bool :=
  modApp (setDownloading true) ;;;
  setDownloadProgressM (Js.ofZ 0) ;;;
  modApp (setBytesWritten 0) ;;;
  modApp (setTotalBytes 0) ;;;
  setDownloadErrorM None ;;;
  try_catch
    (emit CallDownload ;;;
     awaitDownloadModel
       (fun p =>
          setDownloadProgressM (progress p) ;;;
          modApp (setBytesWritten (p_bytesWritten p)) ;;;
          modApp (setTotalBytes (p_totalBytes p))) ;;;
     modApp (setDownloading false) ;;;
     ret true)
    (fun error =>
       let errorMessage := handleNetworkError error in
       setDownloadErrorM (Some errorMessage) ;;;
       modApp (setDownloading false) ;;;
       ret false).

Definition initModel : M unit :=
  try_catch
    (emit CallCheckModelExists ;;;
     modelExists <- checkModelExists ;;
     proceed <-
       (if negb modelExists then
          downloaded <- handleDownload ;;
          ret downloaded
        else ret true) ;;
     if negb proceed then ret tt
     else
       (if negb (Js.truthy MODEL_PATH)
        then throw (JsError (Js.lit "MODEL_PATH is null")) else ret tt) ;;;
       emit (CallInitialize MODEL_PATH) ;;;
       GemmaInference.initialize E MODEL_PATH ;;;
       setModelReadyM true)
    (fun error =>
       let errorMessage := handleNetworkError error in
       setDownloadErrorM (Some errorMessage) ;;;
       setModelReadyM false).

Definition loadMessages : M unit :=
  stored <- onStorage loadStoredMessages ;;
  modApp (setMessages stored).

Definition saveMessages (newMessages : list Message) : M unit :=
  onStorage (saveStoredMessages newMessages).

(** Truthiness of a [string | null] value. *)
Definition truthyOpt (s : option Js.str) : bool :=
  match s with Some s => Js.truthy s | None => false end.

(** [selectedImage || undefined] *)
Definition orUndefined (s : option Js.str) : option Js.str :=
  if truthyOpt s then s else None.

Definition sendMessage : M unit :=
  a <- getApp ;;
  if negb (Js.truthy (Js.trim (input a))) && negb (truthyOpt (selectedImage a))
  then ret tt
  else if negb (modelReady a) then ret tt
  else
    t <- dateNow E ;;
    let userMsg :=
      mkMessage (Js.toString t) (input a) user (orUndefined (selectedImage a)) in
    let updatedMessages := messages a ++ [userMsg] in
    modApp (setMessages updatedMessages) ;;;
    saveMessages updatedMessages ;;;
    modApp (setInput []) ;;;
    modApp (setSelectedImage None) ;;;
    modApp (setLoading true) ;;;
    try_finally
      (try_catch
         (response <- GemmaInference.generate E (input a) (selectedImage a) ;;
          t' <- dateNow E ;;
          let aiMsg := mkMessage (Js.toString (t' + 1)) response ai None in
          let finalMessages := updatedMessages ++ [aiMsg] in
          modApp (setMessages finalMessages) ;;;
          saveMessages finalMessages)
         (fun error => ret tt))
      (modApp (setLoading false)).

Definition retryDownload : M unit :=
  setDownloadErrorM None ;;;
  initModel.

End WithImports.
End App.

(** ** The readiness states of the specification, read off the event log *)

Inductive ReadinessState :=
| Uninitialized
| CheckingArtifact
| Downloading
| Activating
| Ready
| Failed (reason : Js.str).

(** The orchestrator is [Uninitialized] before it starts; it is checking
    from the call of the prober, downloading from the call of
    [downloadModel], activating from the call of
    [GemmaInference.initialize], ready once [modelReady] is set, and
    failed once an error message is set. *)
Definition phase_of (ev : event) : option ReadinessState :=
  match ev with
  | CallCheckModelExists => Some CheckingArtifact
  | CallDownload => Some Downloading
  | CallInitialize _ => Some Activating
  | SetModelReady true => Some Ready
  | SetDownloadError (Some reason) => Some (Failed reason)
  | _ => None
  end.

Definition phases (t : list event) : list ReadinessState :=
  Uninitialized :: omap phase_of t.

(** ** Concrete surroundings for running the program *)

Module Sample.

Definition docs : Js.str := Js.lit "/data/user/0/com.lai/files".

(** A well-behaved environment: nothing faults, the transfer delivers the
    1000 bytes it declares, the clock advances by one second per reading. *)
Definition env : Env :=
  mkEnv docs
        (fun _ => None) (fun _ => None) 4096
        (fun _ => mkTransfer 200 1000 [400; 600] Resolves)
        (fun n => 1700000000000 + 1000 * N.of_nat n)
        (fun _ => None)
        (fun _ => Reply (Js.lit "Hello!"))
        (fun _ => VReply (Js.lit "A cat."))
        (fun _ => true)
        None.

(** Behaviours of the imported functions, for running the component: a
    download attempted without connectivity, the error message taken from
    the error, and a store that keeps the log it is given. *)
Definition offline (d : Device)
  : list DownloadProgress * outcome unit * Device :=
  ([], Throw (JsError (Js.lit "Network request failed")), d).

Definition errorText (e : exn) : Js.str := message_of e.

Definition loadLog (s : option (list Message))
  : outcome (list Message) * option (list Message) :=
  (Ok (default [] s), s).

Definition saveLog (l : list Message) (s : option (list Message))
  : outcome unit * option (list Message) :=
  (Ok tt, Some l).

Definition app0 : AppState :=
  mkApp [] [] None false false false (Js.ofZ 0) 0 0 None.

Definition dev0 (files : gmap (list N) node) : Device :=
  mkDevice files [] false None 0 ∅ 0 0 0 None.

Definition world0 (files : gmap (list N) node) : World :=
  mkWorld app0 (dev0 files).

(** Variations of [env] in the transfer, the clock and the engine. *)
Definition envWith (tr : transfer) (clock : nat -> N)
           (text : Js.str -> reply) (vision : Js.str -> vreply) : Env :=
  mkEnv docs
        (fun _ => None) (fun _ => None) 4096
        (fun _ => tr) clock (fun _ => None) text vision (fun _ => true) None.

(** The connection is lost after 400 of the 1000 declared bytes. *)
Definition brokenTransfer : transfer :=
  mkTransfer 200 1000 [400]
             (Rejects (JsError (Js.lit "Network request failed"))).

Definition envBroken : Env :=
  envWith brokenTransfer (now env) (engineText env) (engineVision env).


(** The remote source rejects the credentials. *)
Definition envUnauthorized : Env :=
  envWith (mkTransfer 401 0 [] Resolves)
          (now env) (engineText env) (engineVision env).

(** The engine throws on every request. *)
Definition envEngineFault : Env :=
  envWith (transferOf env 0%nat) (now env)
          (fun _ => Fault (Js.lit "Failed to run inference"))
          (fun _ => VGenerateFault (Js.lit "Failed to run inference")).


(** A reply arrives four seconds after the first message; the second
    message is sent one millisecond after that. *)
Definition envQuickTyping : Env :=
  envWith (transferOf env 0%nat)
          (fun n => nth n [1700000000000; 1700000004000; 1700000004001]
                        1700000009000)
          (engineText env) (engineVision env).

Definition modelFile : Js.str := InlineApp.MODEL_PATH env.
Definition picture : Js.str := Js.lit "/sdcard/Pictures/cat.png".

(** The model is downloaded and loaded, a picture is on the device. *)
Definition files : gmap (list N) node :=
  <[picture := File 2048]> (<[modelFile := File 1000]> ∅).

Definition readyWorld : World :=
  mkWorld (setModelReady true app0)
          (with_km_model (Some 0%nat)
             (with_gi_isInitialized true
                (with_gi_modelPath modelFile (dev0 files)))).

(** The user types [s] and presses Send. *)
Definition typeAndSend (E : Env) (s : string) : M unit :=
  modApp (setInput (Js.lit s)) ;;;
  App.sendMessage E saveLog.

End Sample.

(** ** The chat list of the inline component

    The inline component keeps a list of chats and the id of the active
    one.  These are the list expressions of its [sendMessage], its
    [activeMessages], and its [saveChats] and [createNewChat] on that
    state. *)

Module Chats.

Record Chat := mkChat {
  chatId : Js.str;               (* [id] *)
  title : Js.str;
  chatMessages : list Message    (* [messages] *)
}.

(** [chat.id === activeChat] *)
Definition isActive (activeChat : Js.str) (chat : Chat) : bool :=
  bool_decide (chatId chat = activeChat).

(** [chats.map(chat => chat.id === activeChat
       ? {...chat, messages: [...chat.messages, userMsg],
          title: chat.messages.length === 0 ? input.slice(0, 30) : chat.title}
       : chat)] *)
Definition updatedChats (chats : list Chat) (activeChat input : Js.str)
           (userMsg : Message) : list Chat :=
  map (fun chat =>
         if isActive activeChat chat then
           mkChat (chatId chat)
                  (if (length (chatMessages chat) =? 0)%nat
                   then firstn 30 input else title chat)
                  (chatMessages chat ++ [userMsg])
         else chat)
      chats.

(** [updatedChats.map(chat => chat.id === activeChat
       ? {...chat, messages: [...chat.messages, aiMsg]} : chat)] *)
Definition finalChats (updatedChats : list Chat) (activeChat : Js.str)
           (aiMsg : Message) : list Chat :=
  map (fun chat =>
         if isActive activeChat chat then
           mkChat (chatId chat) (title chat) (chatMessages chat ++ [aiMsg])
         else chat)
      updatedChats.

(** [chats.find(c => c.id === activeChat)?.messages || []], for
    [activeChat] a string or [null]. *)
Definition activeMessages (chats : list Chat) (activeChat : option Js.str)
  : list Message :=
  match activeChat with
  | None => []
  | Some a =>
      match find (isActive a) chats with
      | Some c => chatMessages c
      | None => []
      end
  end.

(** The list of chats and the id of the active one. *)
Record State := mkState {
  chats : list Chat;
  activeChat : option Js.str
}.

(** [saveChats(newChats)]: [await AsyncStorage.setItem('chats', ...)] and
    then [setChats(newChats)].  [stored] tells whether the storage
    resolved; when it rejects, [setChats] is not reached. *)
Definition saveChats (stored : bool) (newChats : list Chat) (s : State)
  : State :=
  if stored then mkState newChats (activeChat s) else s.

(** [createNewChat], for the clock reading [t] of its [Date.now()].  It
    calls [saveChats(updated)] without awaiting it or catching its
    rejection, and [setActiveChat(newChat.id)] in any case.  The result is
    the state once the storage has settled; until then the list is the
    previous one, as it stays when the storage rejects. *)
Definition createNewChat (t : N) (stored : bool) (s : State) : State :=
  let newChat := mkChat (Js.toString t) (Js.lit "New Chat") [] in
  let updated := newChat :: chats s in
  saveChats stored updated (mkState (chats s) (Some (chatId newChat))).

End Chats.

(** ** Further surroundings *)

Module Scenario.

(** The engine refuses to load the model. *)
Definition envLoadFault : Env :=
  mkEnv Sample.docs
        (fun _ => None) (fun _ => None) 4096
        (transferOf Sample.env) (now Sample.env)
        (fun _ => Some (Js.lit "Failed to create engine"))
        (engineText Sample.env) (engineVision Sample.env)
        (decodes Sample.env) None.

(** Closing the engine throws. *)
Definition envCloseFault : Env :=
  mkEnv Sample.docs
        (fun _ => None) (fun _ => None) 4096
        (transferOf Sample.env) (now Sample.env) (engineLoad Sample.env)
        (engineText Sample.env) (engineVision Sample.env)
        (decodes Sample.env) (Some (Js.lit "close failed")).

(** The picture cannot be decoded. *)
Definition envNoDecode : Env :=
  mkEnv Sample.docs
        (fun _ => None) (fun _ => None) 4096
        (transferOf Sample.env) (now Sample.env) (engineLoad Sample.env)
        (engineText Sample.env) (engineVision Sample.env)
        (fun _ => false) None.

(** The models directory cannot be created. *)
Definition envNoMkdir : Env :=
  mkEnv Sample.docs
        (fun _ => None) (fun _ => Some (JsError (Js.lit "ENOSPC"))) 4096
        (transferOf Sample.env) (now Sample.env) (engineLoad Sample.env)
        (engineText Sample.env) (engineVision Sample.env)
        (decodes Sample.env) None.

(** A download that reports two progress values and then succeeds,
    writing the model file. *)
Definition download1000 (d : Device)
  : list DownloadProgress * outcome unit * Device :=
  ([mkProgress (Js.ofZ 40) 400 1000; mkProgress (Js.ofZ 100) 1000 1000],
   Ok tt,
   with_fs (fun m => <[Sample.modelFile := File 1000]> m) d).

(** The user has typed a question. *)
Definition asking (s : string) (w : World) : World :=
  mkWorld (setInput (Js.lit s) (app w)) (dev w).

(** The user has picked a picture and typed nothing. *)
Definition pictureOnly (w : World) : World :=
  mkWorld (setSelectedImage (Some Sample.picture) (app w)) (dev w).

(** A storage that rejects every write. *)
Definition storeFull (l : list Message) (s : option (list Message))
  : outcome unit * option (list Message) :=
  (Throw (JsError (Js.lit "database or disk is full")), s).

(** The reply to [hello] below. *)
Definition answer : Message :=
  mkMessage (Js.lit "1700000064001") (Js.lit "Hello!") ai None.

Definition chatA : Chats.Chat :=
  Chats.mkChat (Js.lit "1700000000000") (Js.lit "New Chat") [].

Definition chatB : Chats.Chat :=
  Chats.mkChat (Js.lit "1700000050000") (Js.lit "Earlier")
               [mkMessage (Js.lit "1700000050100") (Js.lit "Hi") user None].

Definition hello : Message :=
  mkMessage (Js.lit "1700000060000") (Js.lit "Hello") user None.

End Scenario.

(** * Vocabulary of the statements *)

(** [m] leaves the observation [f] of the world as it found it. *)
Definition preserves {A X} (f : World -> X) (m : M A) : Prop :=
  forall w, f (m w).1.2 = f w.

(** Every event [m] logs satisfies [P]. *)
Definition logs {A} (P : event -> Prop) (m : M A) : Prop :=
  forall w, Forall P (m w).2.

(** No engine instance is constructed in the log [t]. *)
Definition engineUntouched (t : list event) : Prop :=
  Forall (fun ev => forall p, ev <> CreateFromOptions p) t.

(** The native method, awaited from JavaScript. *)
Definition awaitUnloadModel (E : Env) : M Js.str :=
  native NativeUnloadModel (GemmaModule.unloadModel E).

Definition neverRecycles (t : list event) : Prop :=
  Forall (fun ev => forall b, ev <> BitmapRecycle b) t.

(** An event that marks no readiness transition. *)
Definition noPhase (ev : event) : Prop := phase_of ev = None.

(** The guards of [sendMessage] let the call through. *)
Definition accepted (w : World) : bool :=
  (Js.truthy (Js.trim (input (app w))) || App.truthyOpt (selectedImage (app w)))
  && modelReady (app w).

(** The user message [sendMessage] creates in world [w]. *)
Definition userMessage (E : Env) (w : World) : Message :=
  mkMessage (Js.toString (now E (clockReads (dev w))))
            (input (app w)) user (App.orUndefined (selectedImage (app w))).

(** The world in which [sendMessage], called in [w], calls
    [GemmaInference.generate]: the user message is appended, the input
    cleared, [loading] set, the clock read once and the log stored as
    [s]. *)
Definition atGenerate (E : Env) (w : World) (s : option (list Message)) : World :=
  mkWorld
    (setLoading true
       (setSelectedImage None
          (setInput []
             (setMessages (messages (app w) ++ [userMessage E w]) (app w)))))
    (with_stored s (with_clock_read (dev w))).

(** The ids of the log are the decimal renderings of the numbers [ks],
    in order. *)
Definition idsAre (log : list Message) (ks : list N) : Prop :=
  map id log = map Js.toString ks.

(** The number of bytes a list of chunks carries. *)
Definition received (cs : list N) : N := fold_right N.add 0 cs.

(** The progress callback of the inline [downloadModel]. *)
Definition reportProgress (bytesWritten contentLength : Z) : M unit :=
  setDownloadProgressM (InlineApp.progressOf bytesWritten contentLength).




(** The bridge says it is initialized only when the native module holds
    an engine. *)
Definition bridgeLoaded (w : World) : Prop :=
  gi_isInitialized (dev w) = true -> is_Some (km_model (dev w)).

(** No engine is closed in the log [t]. *)
Definition neverCloses (t : list event) : Prop :=
  Forall (fun ev => forall h, ev <> ModelClose h) t.

(** The log [t] holds no call of the engine, of a session or of the
    bitmap decoder. *)
Definition engineIdle (t : list event) : Prop :=
  Forall (fun ev =>
            match ev with
            | CreateFromOptions _ | GenerateResponse _ | SessionCreate
            | SessionAddQueryChunk _ | SessionAddImage _
            | SessionGenerateResponse | SessionClose | DecodeFile _
            | BitmapRecycle _ => False
            | _ => True
            end) t.

(** A file of at least one byte lies at [p]. *)
Definition nonEmptyFile (w : World) (p : Js.str) : Prop :=
  exists n, fs (dev w) !! p = Some (File n) /\ n <> 0.

(** The progress cells of the component after the progress values [ps]
    have been handed to the callback of [handleDownload], in order. *)
Definition applyProgress (ps : list DownloadProgress) (a : AppState) : AppState :=
  fold_left
    (fun a p =>
       setTotalBytes (p_totalBytes p)
         (setBytesWritten (p_bytesWritten p)
            (setDownloadProgress (progress p) a)))
    ps a.

(** The cells [handleDownload] resets before it starts the download. *)
Definition downloadStarted (a : AppState) : AppState :=
  setDownloadError None
    (setTotalBytes 0
       (setBytesWritten 0
          (setDownloadProgress (Js.ofZ 0) (setDownloading true a)))).

(** * Properties *)

(** ** Strings *)

Example trim_example :
  Js.trim (Js.lit "  what is this? ") = Js.lit "what is this?".
Proof. reflexivity. Qed.

Example trim_no_break_space : Js.trim [0xA0; 0x2003; 0x0A] = [].
Proof. reflexivity. Qed.

Example toString_example : Js.toString 1700000004001 = Js.lit "1700000004001".
Proof. reflexivity. Qed.

Example normalizePath_example :
  GemmaInference.normalizePath (Js.lit "file:///sdcard/Pictures/cat.png")
  = Js.lit "/sdcard/Pictures/cat.png".
Proof. reflexivity. Qed.

Lemma trimStart_blank (s : Js.str) :
  forallb Js.isWhiteSpace s = true -> Js.trimStart s = [].
Proof.
  induction s as [|c s IH]; simpl; [reflexivity|].
  intros H. apply andb_true_iff in H as [Hc Hs].
  rewrite Hc. auto.
Qed.

Lemma trimStart_head (s : Js.str) :
  Js.trimStart s = [] \/
  exists c r, Js.trimStart s = c :: r /\ Js.isWhiteSpace c = false.
Proof.
  induction s as [|c s IH]; simpl; [now left|].
  destruct (Js.isWhiteSpace c) eqn:Hc; [exact IH|].
  right. exists c, s. split; [reflexivity | exact Hc].
Qed.

Lemma trimStart_nil_blank (s : Js.str) :
  Js.trimStart s = [] -> forallb Js.isWhiteSpace s = true.
Proof.
  induction s as [|c s IH]; simpl; [reflexivity|].
  destruct (Js.isWhiteSpace c); [exact IH | discriminate].
Qed.

Lemma forallb_rev_ws (s : Js.str) :
  forallb Js.isWhiteSpace (rev s) = forallb Js.isWhiteSpace s.
Proof.
  induction s as [|c s IH]; simpl; [reflexivity|].
  rewrite forallb_app, IH. simpl. rewrite andb_true_r. apply andb_comm.
Qed.

(** A string trims to the empty string exactly when it is empty or made
    of white space only. *)
Lemma trim_blank_iff (s : Js.str) :
  Js.trim s = [] <-> forallb Js.isWhiteSpace s = true.
Proof.
  unfold Js.trim, Js.trimEnd. split.
  - intros H.
    assert (Hr : Js.trimStart (rev (Js.trimStart s)) = []).
    { rewrite <- (rev_involutive (Js.trimStart _)). rewrite H. reflexivity. }
    apply trimStart_nil_blank in Hr. rewrite forallb_rev_ws in Hr.
    destruct (trimStart_head s) as [Hs | (c & r & Hs & Hc)].
    + now apply trimStart_nil_blank.
    + rewrite Hs in Hr. simpl in Hr. rewrite Hc in Hr. discriminate.
  - intros H. rewrite (trimStart_blank s H). reflexivity.
Qed.

Lemma lit_inj (s1 s2 : string) : Js.lit s1 = Js.lit s2 -> s1 = s2.
Proof.
  revert s2. induction s1 as [|c s1 IH]; intros [|c2 s2]; simpl;
    try discriminate; [reflexivity|].
  intros H. injection H as Hc Hs.
  apply (f_equal ascii_of_N) in Hc. rewrite !ascii_N_embedding in Hc.
  f_equal; auto.
Qed.

(** Distinct numbers have distinct decimal renderings. *)
Lemma toString_inj (m n : N) : Js.toString m = Js.toString n -> m = n.
Proof.
  unfold Js.toString. intros H. apply lit_inj in H.
  apply DecimalN.Unsigned.to_uint_inj.
  apply (f_equal NilEmpty.uint_of_string) in H.
  rewrite !NilEmpty.usu in H. now injection H.
Qed.

(** ** Frame and log reasoning for the monad *)

Section Frames.
Context {X : Type} (f : World -> X) (P : event -> Prop).

Lemma preserves_ret {A} (a : A) : preserves f (ret a).
Proof. intros w. reflexivity. Qed.

Lemma preserves_throw {A} e : preserves f (@throw A e).
Proof. intros w. reflexivity. Qed.

Lemma preserves_emit ev : preserves f (emit ev).
Proof. intros w. reflexivity. Qed.

Lemma preserves_getDev : preserves f getDev.
Proof. intros w. reflexivity. Qed.

Lemma preserves_getApp : preserves f getApp.
Proof. intros w. reflexivity. Qed.

Lemma preserves_bind {A B} (m : M A) (k : A -> M B) :
  preserves f m -> (forall a, preserves f (k a)) -> preserves f (bind m k).
Proof.
  intros Hm Hk w. unfold bind. specialize (Hm w).
  destruct (m w) as [[[a|e] w1] t1]; simpl in *; [|exact Hm].
  specialize (Hk a w1). destruct (k a w1) as [[r w2] t2]. simpl in *.
  congruence.
Qed.

Lemma preserves_try_catch {A} (m : M A) (h : exn -> M A) :
  preserves f m -> (forall e, preserves f (h e)) -> preserves f (try_catch m h).
Proof.
  intros Hm Hh w. unfold try_catch. specialize (Hm w).
  destruct (m w) as [[[a|e] w1] t1]; simpl in *; [exact Hm|].
  specialize (Hh e w1). destruct (h e w1) as [[r w2] t2]. simpl in *.
  congruence.
Qed.

Lemma preserves_try_finally {A} (m : M A) (fin : M unit) :
  preserves f m -> preserves f fin -> preserves f (try_finally m fin).
Proof.
  intros Hm Hf w. unfold try_finally. specialize (Hm w).
  destruct (m w) as [[r w1] t1]. simpl in *.
  specialize (Hf w1). destruct (fin w1) as [[[u|e] w2] t2]; simpl in *;
    congruence.
Qed.

Lemma logs_ret {A} (a : A) : logs P (ret a).
Proof. intros w. constructor. Qed.

Lemma logs_throw {A} e : logs P (@throw A e).
Proof. intros w. constructor. Qed.

Lemma logs_emit ev : P ev -> logs P (emit ev).
Proof. intros H w. simpl. repeat constructor. exact H. Qed.

Lemma logs_getDev : logs P getDev.
Proof. intros w. constructor. Qed.

Lemma logs_getApp : logs P getApp.
Proof. intros w. constructor. Qed.

Lemma logs_modDev g : logs P (modDev g).
Proof. intros w. constructor. Qed.

Lemma logs_modApp g : logs P (modApp g).
Proof. intros w. constructor. Qed.

Lemma logs_bind {A B} (m : M A) (k : A -> M B) :
  logs P m -> (forall a, logs P (k a)) -> logs P (bind m k).
Proof.
  intros Hm Hk w. unfold bind. specialize (Hm w).
  destruct (m w) as [[[a|e] w1] t1]; simpl in *; [|exact Hm].
  specialize (Hk a w1). destruct (k a w1) as [[r w2] t2]. simpl in *.
  apply Forall_app; auto.
Qed.

Lemma logs_try_catch {A} (m : M A) (h : exn -> M A) :
  logs P m -> (forall e, logs P (h e)) -> logs P (try_catch m h).
Proof.
  intros Hm Hh w. unfold try_catch. specialize (Hm w).
  destruct (m w) as [[[a|e] w1] t1]; simpl in *; [exact Hm|].
  specialize (Hh e w1). destruct (h e w1) as [[r w2] t2]. simpl in *.
  apply Forall_app; auto.
Qed.

Lemma logs_try_finally {A} (m : M A) (fin : M unit) :
  logs P m -> logs P fin -> logs P (try_finally m fin).
Proof.
  intros Hm Hf w. unfold try_finally. specialize (Hm w).
  destruct (m w) as [[r w1] t1]. simpl in *.
  specialize (Hf w1). destruct (fin w1) as [[[u|e] w2] t2]; simpl in *;
    apply Forall_app; auto.
Qed.

End Frames.

Lemma preserves_modDev {X} (f : World -> X) g :
  (forall a d, f (mkWorld a (g d)) = f (mkWorld a d)) -> preserves f (modDev g).
Proof. intros H [a d]. simpl. apply H. Qed.

Lemma preserves_modApp {X} (f : World -> X) g :
  (forall a d, f (mkWorld (g a) d) = f (mkWorld a d)) -> preserves f (modApp g).
Proof. intros H [a d]. simpl. apply H. Qed.

Lemma preserves_onStorage {X A} (f : World -> X)
      (g : option (list Message) -> outcome A * option (list Message)) :
  (forall a d s, f (mkWorld a (with_stored s d)) = f (mkWorld a d)) ->
  preserves f (onStorage g).
Proof.
  intros H [a d]. unfold onStorage. simpl.
  destruct (g (stored d)) as [r s]. simpl. apply H.
Qed.

Lemma logs_onStorage {A} P
      (g : option (list Message) -> outcome A * option (list Message)) :
  logs P (onStorage g).
Proof.
  intros w. unfold onStorage. destruct (g (stored (dev w))). constructor.
Qed.

Create HintDb frame discriminated.

#[export] Hint Resolve
  preserves_ret preserves_throw preserves_emit preserves_getDev
  preserves_getApp logs_ret logs_throw logs_getDev logs_getApp logs_modDev
  logs_modApp logs_onStorage : frame.

(** Break a program down along its combinators and branches. *)
Ltac frame_step :=
  first
    [ apply preserves_bind; [|intros ?]
    | apply preserves_try_catch; [|intros ?]
    | apply preserves_try_finally
    | apply logs_bind; [|intros ?]
    | apply logs_try_catch; [|intros ?]
    | apply logs_try_finally
    | apply preserves_modDev; intros ? []; reflexivity
    | apply preserves_modApp; intros [] ?; reflexivity
    | apply preserves_onStorage; intros ? [] ?; reflexivity
    | apply logs_emit; simpl; try reflexivity; try discriminate
    | solve [auto with frame]
    | match goal with
      | |- context [match ?x with _ => _ end] => destruct x eqn:?
      end ].

Ltac frame := repeat frame_step.

(** Run the monadic combinators of a goal down to the calls they sequence. *)
Ltac mrun :=
  repeat (unfold native, bind, try_catch, try_finally, ret, throw, emit,
            getDev, getApp, modDev, modApp, when,
            setModelReadyM, setDownloadErrorM, setDownloadProgressM;
          cbn beta iota zeta).

Arguments Js.lit : simpl never.

(** ** Engine lifecycle bridge *)

Lemma world_eta (w : World) : mkWorld (app w) (dev w) = w.
Proof. now destruct w. Qed.

(** C3, the native side.  [GemmaModule.loadModel] on a missing or
    zero-byte file rejects with [LOAD_ERROR], changes nothing and never
    calls [LlmInference.createFromOptions]. *)
Lemma loadModel_invalid_artifact (E : Env) (w : World) (path : Js.str) :
  fs (dev w) !! path = None \/ fs (dev w) !! path = Some (File 0) ->
  exists msg,
    GemmaModule.loadModel E path w
      = (Ok (Reject (Js.lit "LOAD_ERROR") msg), w, [])
    /\ (fs (dev w) !! path = None ->
        msg = Js.lit "Model file not found at: " ++ path)
    /\ (fs (dev w) !! path = Some (File 0) ->
        msg = Js.lit "Model file is empty: " ++ path).
Proof.
  intros [H | H]; unfold GemmaModule.loadModel; mrun; rewrite H.
  - eexists. split; [reflexivity|]. split; [reflexivity | discriminate].
  - unfold GemmaModule.fileLength. rewrite H. cbn.
    eexists. split; [reflexivity|]. split; [discriminate | reflexivity].
Qed.

(** C3, the JavaScript side.  [GemmaInference.initialize] on a missing or
    zero-byte file throws, leaves [isInitialized] false and the native
    [model] untouched, and logs no call of
    [LlmInference.createFromOptions]. *)
Lemma initialize_invalid_artifact (E : Env) (w : World) (path : Js.str) :
  fs (dev w) !! path = None \/ fs (dev w) !! path = Some (File 0) ->
  exists msg w' t,
    GemmaInference.initialize E path w
      = (Throw (JsError (Js.lit "Failed to initialize Gemma model: " ++ msg)),
         w', t)
    /\ engineUntouched t
    /\ gi_isInitialized (dev w') = false
    /\ km_model (dev w') = km_model (dev w)
    /\ fs (dev w') = fs (dev w)
    /\ (existsFault E path = None ->
        (fs (dev w) !! path = None ->
         msg = Js.lit "Model file not found at: " ++ path)
        /\ (fs (dev w) !! path = Some (File 0) ->
            msg = Js.lit "Model file is empty: " ++ path)).
Proof.
  intros H.
  unfold GemmaInference.initialize, RNFS.exists_.
  destruct (existsFault E path) as [e|] eqn:He.
  - exists (message_of e). do 2 eexists.
    split; [reflexivity|]. cbn.
    repeat split; try constructor; discriminate.
  - destruct H as [H | H].
    + mrun. rewrite H. cbn.
      do 3 eexists. split; [reflexivity|]. cbn.
      repeat split; try constructor; try discriminate.
    + destruct (loadModel_invalid_artifact E
                  (mkWorld (app w) (with_gi_modelPath path (dev w))) path)
        as (msg & Hl & _ & Hmsg); [right; exact H|].
      mrun. rewrite H. cbn -[GemmaModule.loadModel]. rewrite Hl. cbn.
      do 3 eexists. split; [reflexivity|]. cbn.
      repeat split.
      * repeat constructor. discriminate.
      * discriminate.
      * intros. rewrite Hmsg; [reflexivity | exact H].
Qed.

(** C3.  For every path that names a missing file or a zero-byte file,
    activation fails and the engine constructor is never invoked:
    [GemmaModule.loadModel] rejects with [LOAD_ERROR] and a message naming
    the missing or empty file, without any effect;
    [GemmaInference.initialize] throws an error wrapping that message (the
    "not found" one for a missing file, the native "is empty" one for a
    zero-byte file, when the existence check itself does not fail), leaves
    [isInitialized] false, and its log contains no
    [LlmInference.createFromOptions]. *)
Theorem activate_invalid_artifact (E : Env) (w : World) (path : Js.str) :
  fs (dev w) !! path = None \/ fs (dev w) !! path = Some (File 0) ->
  (exists msg,
     GemmaModule.loadModel E path w
       = (Ok (Reject (Js.lit "LOAD_ERROR") msg), w, [])
     /\ (fs (dev w) !! path = None ->
         msg = Js.lit "Model file not found at: " ++ path)
     /\ (fs (dev w) !! path = Some (File 0) ->
         msg = Js.lit "Model file is empty: " ++ path))
  /\
  (exists msg w' t,
     GemmaInference.initialize E path w
       = (Throw (JsError (Js.lit "Failed to initialize Gemma model: " ++ msg)),
          w', t)
     /\ engineUntouched t
     /\ gi_isInitialized (dev w') = false
     /\ km_model (dev w') = km_model (dev w)
     /\ fs (dev w') = fs (dev w)
     /\ (existsFault E path = None ->
         (fs (dev w) !! path = None ->
          msg = Js.lit "Model file not found at: " ++ path)
         /\ (fs (dev w) !! path = Some (File 0) ->
             msg = Js.lit "Model file is empty: " ++ path))).
Proof.
  intros H. split.
  - now apply loadModel_invalid_artifact.
  - now apply initialize_invalid_artifact.
Qed.

(** C4.  On an initialized bridge, a prompt that is empty or consists of
    white space only makes [GemmaInference.generate] throw
    "Prompt cannot be empty", whatever the image argument is; the world
    is unchanged and the log is empty, so neither the native module nor
    the engine is called. *)
Theorem generate_empty_prompt
        (E : Env) (w : World) (prompt : Js.str) (imagePath : option Js.str) :
  gi_isInitialized (dev w) = true ->
  forallb Js.isWhiteSpace prompt = true ->
  GemmaInference.generate E prompt imagePath w
    = (Throw (JsError (Js.lit "Prompt cannot be empty")), w, []).
Proof.
  intros Hinit Hblank. apply trim_blank_iff in Hblank.
  unfold GemmaInference.generate. mrun.
  rewrite Hinit, Hblank. reflexivity.
Qed.

(** Before initialization the first guard of [generate] answers instead,
    also without any effect. *)
Lemma generate_not_initialized
      (E : Env) (w : World) (prompt : Js.str) (imagePath : option Js.str) :
  gi_isInitialized (dev w) = false ->
  GemmaInference.generate E prompt imagePath w
    = (Throw (JsError (Js.lit "Model not initialized. Call initialize() first.")),
       w, []).
Proof.
  intros Hinit. unfold GemmaInference.generate. mrun.
  rewrite Hinit. reflexivity.
Qed.

(** ** Deactivation *)

Lemma with_km_model_None (d : Device) :
  km_model d = None -> with_km_model None d = d.
Proof. destruct d. simpl. now intros ->. Qed.

Lemma unloadModel_null (E : Env) (w : World) :
  km_model (dev w) = None ->
  GemmaModule.unloadModel E w = (Ok (Resolve (Js.lit "Model unloaded")), w, []).
Proof.
  intros H. unfold GemmaModule.unloadModel. mrun. rewrite H. cbn.
  rewrite with_km_model_None by exact H. now rewrite world_eta.
Qed.

Lemma unload_not_loaded (E : Env) (w : World) :
  gi_isInitialized (dev w) = false ->
  GemmaInference.unload E w = (Ok tt, w, []).
Proof.
  intros H. unfold GemmaInference.unload. mrun. now rewrite H.
Qed.

Lemma unload_twice (E : Env) (w : World) :
  (GemmaInference.unload E ;;; GemmaInference.unload E) w
  = GemmaInference.unload E w.
Proof.
  destruct (gi_isInitialized (dev w)) eqn:Hinit.
  - unfold bind at 1.
    destruct (GemmaInference.unload E w) as [[[[]|e] w1] t1] eqn:Hu;
      [|reflexivity].
    assert (Hoff : gi_isInitialized (dev w1) = false).
    { revert Hu. unfold GemmaInference.unload, GemmaModule.unloadModel.
      mrun. rewrite Hinit. cbn.
      destruct (km_model (dev w)); [destruct (closeFault E)|]; cbn;
        intros Hu; inversion Hu; subst; reflexivity. }
    rewrite (unload_not_loaded E w1 Hoff). now rewrite app_nil_r.
  - unfold bind. rewrite (unload_not_loaded E w Hinit).
    rewrite (unload_not_loaded E w Hinit). reflexivity.
Qed.

Lemma unloadModel_twice (E : Env) (w : World) :
  let once := awaitUnloadModel E w in
  let twice := (awaitUnloadModel E ;;; awaitUnloadModel E) w in
  twice.1.1 = once.1.1 /\ twice.1.2 = once.1.2
  /\ Forall (fun ev => forall h, ev <> ModelClose h) (drop (length once.2) twice.2).
Proof.
  unfold awaitUnloadModel, GemmaModule.unloadModel. mrun.
  destruct (km_model (dev w)) as [h|] eqn:Hm; cbn.
  - destruct (closeFault E); cbn.
    + repeat split. constructor.
    + repeat split. repeat constructor. discriminate.
  - repeat split. repeat constructor. discriminate.
Qed.

(** C9.  Deactivation is idempotent.  [GemmaInference.unload] on a bridge
    that is not initialized, and the native [unloadModel] on a null
    [model], succeed without any effect and without logging a call;
    [unload] followed by [unload] is the same computation as one [unload];
    and awaiting the native [unloadModel] twice gives the outcome and the
    world of awaiting it once, the second call closing no engine. *)
Theorem unload_idempotent (E : Env) (w : World) :
  (gi_isInitialized (dev w) = false ->
   GemmaInference.unload E w = (Ok tt, w, []))
  /\ (km_model (dev w) = None ->
      GemmaModule.unloadModel E w
        = (Ok (Resolve (Js.lit "Model unloaded")), w, []))
  /\ (GemmaInference.unload E ;;; GemmaInference.unload E) w
     = GemmaInference.unload E w
  /\ (let once := awaitUnloadModel E w in
      let twice := (awaitUnloadModel E ;;; awaitUnloadModel E) w in
      twice.1.1 = once.1.1 /\ twice.1.2 = once.1.2
      /\ Forall (fun ev => forall h, ev <> ModelClose h)
                (drop (length once.2) twice.2)).
Proof.
  split; [apply unload_not_loaded|].
  split; [apply unloadModel_null|].
  split; [apply unload_twice | apply unloadModel_twice].
Qed.

(** ** Image generation and the decoded bitmap *)

(** When the engine answers, the bitmap decoded for the call is recycled
    before the promise resolves. *)
Lemma generateWithImage_success_recycles
      (E : Env) (w : World) (prompt imagePath response : Js.str) :
  is_Some (km_model (dev w)) ->
  is_Some (fs (dev w) !! imagePath) ->
  decodes E imagePath = true ->
  engineVision E prompt = VReply response ->
  exists w' t,
    GemmaModule.generateWithImage E prompt imagePath w
      = (Ok (Resolve response), w', t)
    /\ (nextBitmap (dev w) ∉ liveBitmaps (dev w'))
    /\ (BitmapRecycle (nextBitmap (dev w)) ∈ t).
Proof.
  intros [h Hm] [n Hf] Hd Hv.
  unfold GemmaModule.generateWithImage, GemmaModule.decodeFile,
    GemmaModule.visionSession, GemmaModule.recycle.
  mrun. rewrite Hm. cbn. rewrite Hf, Hd. cbn. rewrite Hv. cbn.
  do 2 eexists. split; [reflexivity|]. cbn.
  split; [|repeat constructor].
  intros Hin. apply elem_of_difference in Hin as [_ Hn].
  apply Hn. now apply elem_of_singleton.
Qed.

(** When the engine throws after the bitmap has been decoded, the call
    rejects with [GENERATE_ERROR] and the bitmap is still live: no
    [recycle] is logged. *)
Lemma generateWithImage_failure_keeps_bitmap
      (E : Env) (w : World) (prompt imagePath : Js.str) :
  is_Some (km_model (dev w)) ->
  is_Some (fs (dev w) !! imagePath) ->
  decodes E imagePath = true ->
  (forall response, engineVision E prompt <> VReply response) ->
  exists m w' t,
    GemmaModule.generateWithImage E prompt imagePath w
      = (Ok (Reject (Js.lit "GENERATE_ERROR") m), w', t)
    /\ (nextBitmap (dev w) ∈ liveBitmaps (dev w'))
    /\ neverRecycles t.
Proof.
  intros [h Hm] [n Hf] Hd Hv.
  unfold GemmaModule.generateWithImage, GemmaModule.decodeFile,
    GemmaModule.visionSession, GemmaModule.recycle.
  mrun. rewrite Hm. cbn. rewrite Hf, Hd. cbn.
  destruct (engineVision E prompt) as [r|m|m] eqn:Hr; [now destruct (Hv r)| |];
    cbn; do 3 eexists; (split; [reflexivity|]); cbn;
    (split; [set_solver | repeat constructor; discriminate]).
Qed.

(** ** What the bridge leaves alone *)

Lemma omap_noPhase (t : list event) : Forall noPhase t -> omap phase_of t = [].
Proof.
  induction 1 as [|ev t Hev _ IH]; [reflexivity|].
  cbn. unfold noPhase in Hev. now rewrite Hev.
Qed.

Ltac unfold_bridge :=
  unfold GemmaInference.initialize, GemmaInference.generate,
    GemmaInference.unload, GemmaInference.normalizePath,
    GemmaModule.loadModel, GemmaModule.generate,
    GemmaModule.generateWithImage, GemmaModule.unloadModel,
    GemmaModule.visionSession, GemmaModule.decodeFile, GemmaModule.recycle,
    RNFS.exists_, native, when.

(** [GemmaInference.generate] does not touch the hooks of the component. *)
Lemma generate_preserves_app (E : Env) prompt imagePath :
  preserves app (GemmaInference.generate E prompt imagePath).
Proof. unfold_bridge. frame. Qed.

(** It reads no clock. *)
Lemma generate_preserves_clock (E : Env) prompt imagePath :
  preserves (fun w => clockReads (dev w))
            (GemmaInference.generate E prompt imagePath).
Proof. unfold_bridge. frame. Qed.

(** It leaves the bridge initialized or not, as it was. *)
Lemma generate_preserves_initialized (E : Env) prompt imagePath :
  preserves (fun w => gi_isInitialized (dev w))
            (GemmaInference.generate E prompt imagePath).
Proof. unfold_bridge. frame. Qed.

Lemma generate_logs_noPhase (E : Env) prompt imagePath :
  logs noPhase (GemmaInference.generate E prompt imagePath).
Proof. unfold_bridge. frame. Qed.

Lemma initialize_preserves_app (E : Env) path :
  preserves app (GemmaInference.initialize E path).
Proof. unfold_bridge. frame. Qed.

Lemma initialize_logs_noPhase (E : Env) path :
  logs noPhase (GemmaInference.initialize E path).
Proof. unfold_bridge. frame. Qed.

(** ** The existence prober *)

Lemma checkModelExists_run (E : Env) (w : World) :
  InlineApp.checkModelExists E w
  = (Ok (match existsFault E (InlineApp.MODEL_PATH E) with
         | Some _ => false
         | None => match fs (dev w) !! InlineApp.MODEL_PATH E with
                   | Some _ => true
                   | None => false
                   end
         end), w, []).
Proof.
  unfold InlineApp.checkModelExists, RNFS.exists_.
  destruct (existsFault E (InlineApp.MODEL_PATH E)); reflexivity.
Qed.

Lemma truthy_app_r (x y : Js.str) : Js.truthy y = true -> Js.truthy (x ++ y) = true.
Proof. destruct x; [auto | reflexivity]. Qed.

Lemma MODEL_PATH_truthy (E : Env) : Js.truthy (InlineApp.MODEL_PATH E) = true.
Proof. unfold InlineApp.MODEL_PATH. now apply truthy_app_r. Qed.

(** ** The session orchestrator *)

Section Orchestrator.
Variable E : Env.
Variable downloadModel : Device -> list DownloadProgress * outcome unit * Device.
Variable handleNetworkError : exn -> Js.str.

Let initModel := App.initModel E downloadModel handleNetworkError.

Lemma initialize_never_downloads path :
  logs (fun ev => ev <> CallDownload) (GemmaInference.initialize E path).
Proof. unfold_bridge. frame. Qed.

(** C7.  When the prober reports that the artifact exists, [initModel]
    goes from checking straight to activating and [downloadModel] is not
    called.  The run ends [Ready], with [modelReady] set, when
    [GemmaInference.initialize] succeeds on the artifact; when it throws,
    the run ends [Failed] with the message made from the error, and
    [modelReady] is false. *)
Theorem initModel_artifact_present (w : World) :
  (App.checkModelExists E w).1.1 = Ok true ->
  let activation := GemmaInference.initialize E (App.MODEL_PATH E) w in
  let run := initModel w in
  run.1.1 = Ok tt
  /\ Forall (fun ev => ev <> CallDownload) run.2
  /\ match activation.1.1 with
     | Ok _ =>
         phases run.2 = [Uninitialized; CheckingArtifact; Activating; Ready]
         /\ modelReady (app run.1.2) = true
     | Throw e =>
         phases run.2
         = [Uninitialized; CheckingArtifact; Activating;
            Failed (handleNetworkError e)]
         /\ modelReady (app run.1.2) = false
     end.
Proof.
  unfold initModel, App.initModel, App.checkModelExists, App.MODEL_PATH.
  rewrite checkModelExists_run. cbn [fst]. intros Hc. injection Hc as Hc.
  mrun. rewrite checkModelExists_run, Hc. cbn [negb].
  rewrite MODEL_PATH_truthy. cbn [negb].
  pose proof (initialize_never_downloads (InlineApp.MODEL_PATH E) w) as Hd.
  pose proof (initialize_logs_noPhase E (InlineApp.MODEL_PATH E) w) as Hp.
  destruct (GemmaInference.initialize E (InlineApp.MODEL_PATH E) w)
    as [[[[]|e] w1] t1]; cbn in *.
  - split; [reflexivity|]. split.
    + constructor; [discriminate|]. constructor; [discriminate|].
      apply Forall_app. split; [exact Hd|].
      repeat constructor. discriminate.
    + split; [|reflexivity]. unfold phases. cbn.
      rewrite omap_app, (omap_noPhase _ Hp). reflexivity.
  - split; [reflexivity|]. split.
    + constructor; [discriminate|]. constructor; [discriminate|].
      apply Forall_app. split; [exact Hd|].
      repeat constructor; discriminate.
    + split; [|reflexivity]. unfold phases. cbn.
      rewrite omap_app, (omap_noPhase _ Hp). reflexivity.
Qed.


End Orchestrator.

(** ** Sending a message *)

Lemma StronglySorted_snoc (ks : list N) (x : N) :
  StronglySorted N.lt ks -> Forall (fun k => k < x) ks ->
  StronglySorted N.lt (ks ++ [x]).
Proof.
  induction 1 as [|k ks Hs IH Hk]; intros Hx; cbn.
  - repeat constructor.
  - inversion Hx; subst. constructor; [auto|].
    apply Forall_app. split; [exact Hk | repeat constructor; assumption].
Qed.

Lemma StronglySorted_lt_NoDup (ks : list N) :
  StronglySorted N.lt ks -> NoDup ks.
Proof.
  induction 1 as [|k ks Hs IH Hk]; constructor; [|exact IH].
  intros Hin. rewrite Forall_forall in Hk.
  specialize (Hk k Hin). lia.
Qed.

Lemma idsAre_NoDup (log : list Message) (ks : list N) :
  idsAre log ks -> StronglySorted N.lt ks -> NoDup (map id log).
Proof.
  intros Hids Hs. rewrite Hids.
  apply StronglySorted_lt_NoDup in Hs. clear Hids.
  induction Hs as [|k ks Hk _ IH]; cbn; [constructor|].
  constructor; [|exact IH].
  intros Hin. apply list_elem_of_In, in_map_iff in Hin as (k' & Heq & Hin).
  apply toString_inj in Heq. subst. now apply list_elem_of_In in Hin.
Qed.

Section Chat.
Variable E : Env.
Variable saveStoredMessages :
  list Message -> option (list Message) -> outcome unit * option (list Message).

Let sendMessage := App.sendMessage E saveStoredMessages.

Ltac unfold_send :=
  unfold sendMessage, App.sendMessage, App.saveMessages, dateNow.

Lemma sendMessage_preserves_modelReady :
  preserves (fun w => modelReady (app w)) sendMessage.
Proof. unfold_send. unfold_bridge. frame. Qed.

Lemma sendMessage_preserves_download_state :
  preserves (fun w => (downloading (app w), downloadError (app w),
                       downloadProgress (app w)))
            sendMessage.
Proof. unfold_send. unfold_bridge. frame. Qed.

Lemma sendMessage_preserves_initialized :
  preserves (fun w => (gi_isInitialized (dev w), km_model (dev w)))
            sendMessage.
Proof. unfold_send. unfold_bridge. frame. Qed.

Lemma sendMessage_logs_noPhase : logs noPhase sendMessage.
Proof. unfold_send. unfold_bridge. frame. Qed.

(** A generation request that fails leaves exactly the user message
    appended, and [sendMessage] itself returns normally. *)
Lemma sendMessage_generation_fails (w : World) s e w3 t3 :
  accepted w = true ->
  saveStoredMessages (messages (app w) ++ [userMessage E w]) (stored (dev w))
    = (Ok tt, s) ->
  GemmaInference.generate E (input (app w)) (selectedImage (app w))
                          (atGenerate E w s)
    = (Throw e, w3, t3) ->
  sendMessage w
    = (Ok tt, mkWorld (setLoading false (app (atGenerate E w s))) (dev w3), t3).
Proof.
  unfold accepted. intros Hacc Hsave Hgen.
  apply andb_true_iff in Hacc as [Hin Hready].
  pose proof (generate_preserves_app E (input (app w)) (selectedImage (app w))
                (atGenerate E w s)) as Happ.
  rewrite Hgen in Happ. cbn [fst snd] in Happ.
  unfold_send. unfold onStorage. mrun.
  replace (negb (Js.truthy (Js.trim (input (app w))))
           && negb (App.truthyOpt (selectedImage (app w)))) with false
    by (rewrite <- negb_orb, Hin; reflexivity).
  rewrite Hready. cbn [negb app dev stored with_clock_read].
  unfold userMessage in Hsave. rewrite Hsave.
  cbn [app dev].
  unfold atGenerate, userMessage in Hgen. rewrite Hgen.
  cbn. rewrite Happ, !app_nil_r. reflexivity.
Qed.

(** C8.  A generation request that fails once the session is ready is
    confined to its message: [sendMessage] returns normally, [modelReady]
    is still true, the message log is the previous log followed by the
    user message just appended, the download flags and the error channel
    are as before, the bridge is still initialized as before, and the log
    of the call marks no readiness transition. *)
Theorem sendMessage_failure_keeps_ready (w : World) s e w3 t3 :
  accepted w = true ->
  saveStoredMessages (messages (app w) ++ [userMessage E w]) (stored (dev w))
    = (Ok tt, s) ->
  GemmaInference.generate E (input (app w)) (selectedImage (app w))
                          (atGenerate E w s)
    = (Throw e, w3, t3) ->
  let run := sendMessage w in
  run.1.1 = Ok tt
  /\ modelReady (app run.1.2) = true
  /\ messages (app run.1.2) = messages (app w) ++ [userMessage E w]
  /\ downloading (app run.1.2) = downloading (app w)
  /\ downloadError (app run.1.2) = downloadError (app w)
  /\ gi_isInitialized (dev run.1.2) = gi_isInitialized (dev w)
  /\ omap phase_of run.2 = [].
Proof.
  intros Hacc Hsave Hgen run.
  pose proof (sendMessage_preserves_modelReady w) as Hready.
  pose proof (sendMessage_preserves_download_state w) as Hdl.
  pose proof (sendMessage_preserves_initialized w) as Hinit.
  pose proof (sendMessage_logs_noPhase w) as Hlog.
  fold run in Hready, Hdl, Hinit, Hlog.
  cbn beta in Hready, Hdl, Hinit.
  injection Hdl as Hdl1 Hdl2 _. injection Hinit as Hinit _.
  assert (Hrun : run = (Ok tt,
                        mkWorld (setLoading false (app (atGenerate E w s)))
                                (dev w3), t3))
    by (apply (sendMessage_generation_fails w s e w3 t3); assumption).
  unfold accepted in Hacc. apply andb_true_iff in Hacc as [_ Hacc].
  repeat split; try assumption.
  - now rewrite Hrun.
  - congruence.
  - now rewrite Hrun.
  - exact (omap_noPhase _ Hlog).
Qed.

(** *** Message ids *)

(** What [sendMessage] does to the message log: nothing, or the user
    message is appended, or the user message and the reply are; the
    reply's id is made from the second clock reading of the call. *)
Lemma sendMessage_messages (w : World) :
  let log := messages (app (sendMessage w).1.2) in
  log = messages (app w)
  \/ log = messages (app w) ++ [userMessage E w]
  \/ exists response,
       log = messages (app w)
             ++ [userMessage E w;
                 mkMessage (Js.toString (now E (S (clockReads (dev w))) + 1))
                           response ai None].
Proof.
  unfold_send. unfold onStorage. mrun.
  destruct (negb (Js.truthy (Js.trim (input (app w))))
            && negb (App.truthyOpt (selectedImage (app w))));
    [now left|].
  destruct (negb (modelReady (app w))); [now left|].
  cbn [app dev stored with_clock_read].
  destruct (saveStoredMessages _ (stored (dev w))) as [[[]|e] s];
    [|right; left; reflexivity].
  cbn [app dev].
  match goal with
  | |- context [GemmaInference.generate ?E0 ?p ?i ?w0] =>
      pose proof (generate_preserves_app E0 p i w0) as Happ;
      pose proof (generate_preserves_clock E0 p i w0) as Hclock;
      destruct (GemmaInference.generate E0 p i w0) as [[[response|e] w3] t3]
  end; cbn in Happ, Hclock.
  - right; right. exists response. cbn [app dev].
    destruct (saveStoredMessages _ _) as [[[]|e] s'];
      cbn; rewrite Hclock, <- app_assoc; reflexivity.
  - right; left. cbn. rewrite Happ. reflexivity.
Qed.

(** C6, as the code has it.  Ids are made from the clock: the user
    message gets the decimal rendering of the reading at send time, the
    reply that of the reading at reply time plus one.  If the ids in the
    log are increasing numbers, all below the clock reading at which
    [sendMessage] is called, and the clock does not go backwards during
    the call, then the ids of the log after the call are again increasing
    numbers in creation order, and so pairwise distinct. *)
Theorem sendMessage_ids_increasing (w : World) (ks : list N) :
  idsAre (messages (app w)) ks ->
  StronglySorted N.lt ks ->
  Forall (fun k => k < now E (clockReads (dev w))) ks ->
  now E (clockReads (dev w)) <= now E (S (clockReads (dev w))) ->
  let log := messages (app (sendMessage w).1.2) in
  exists ks',
    idsAre log (ks ++ ks')
    /\ StronglySorted N.lt (ks ++ ks')
    /\ NoDup (map id log)
    /\ (ks' = []
        \/ ks' = [now E (clockReads (dev w))]
        \/ ks' = [now E (clockReads (dev w));
                  now E (S (clockReads (dev w))) + 1]).
Proof.
  intros Hids Hs Hbelow Hclock log.
  set (t := now E (clockReads (dev w))) in *.
  set (t' := now E (S (clockReads (dev w)))) in *.
  assert (Hone : StronglySorted N.lt (ks ++ [t]))
    by now apply StronglySorted_snoc.
  assert (Htwo : StronglySorted N.lt (ks ++ [t; t' + 1])).
  { change [t; t' + 1] with ([t] ++ [t' + 1]). rewrite app_assoc.
    apply StronglySorted_snoc; [exact Hone|].
    apply Forall_app. split.
    - eapply Forall_impl; [exact Hbelow|]. cbn. intros k Hk. lia.
    - repeat constructor. lia. }
  unfold idsAre in *.
  destruct (sendMessage_messages w) as [Hl | [Hl | [response Hl]]];
    fold log in Hl.
  - exists []. rewrite app_nil_r, Hl.
    repeat split; auto. now apply (idsAre_NoDup _ ks).
  - assert (Hi : map id log = map Js.toString (ks ++ [t])).
    { rewrite Hl, !map_app, Hids. reflexivity. }
    exists [t]. repeat split; auto. now apply (idsAre_NoDup _ (ks ++ [t])).
  - assert (Hi : map id log = map Js.toString (ks ++ [t; t' + 1])).
    { rewrite Hl, !map_app, Hids. reflexivity. }
    exists [t; t' + 1]. repeat split; auto.
    now apply (idsAre_NoDup _ (ks ++ [t; t' + 1])).
Qed.

End Chat.

(** ** Acquisition *)

Lemma reportProgress_run (bw cl : Z) (w : World) :
  reportProgress bw cl w
  = (Ok tt,
     mkWorld (setDownloadProgress (InlineApp.progressOf bw cl) (app w)) (dev w),
     [SetDownloadProgress (InlineApp.progressOf bw cl)]).
Proof. reflexivity. Qed.

Lemma stream_run (toFile : Js.str) (len : Z) (cs : list N) :
  forall (total : N) (w : World),
    let run := RNFS.stream toFile len reportProgress total cs w in
    run.1.1 = Ok (total + received cs)
    /\ (fs (dev w) !! toFile = Some (File total) ->
        fs (dev run.1.2) !! toFile = Some (File (total + received cs)))
    /\ Forall (fun ev => exists bw,
                   total <= bw <= total + received cs
                   /\ ev = SetDownloadProgress
                             (InlineApp.progressOf (Z.of_N bw) len))
              run.2.
Proof.
  induction cs as [|c cs IH]; intros total w.
  - cbn. rewrite N.add_0_r. repeat split; auto.
  - cbn [RNFS.stream received fold_right]. fold (received cs).
    unfold bind. rewrite reportProgress_run. unfold modDev. cbn [app dev].
    specialize (IH (total + c)
                   (mkWorld
                      (setDownloadProgress
                         (InlineApp.progressOf (Z.of_N (total + c)) len)
                         (app w))
                      (with_fs (fun m => <[toFile := File (total + c)]> m)
                               (dev w)))).
    cbn zeta in IH.
    destruct (RNFS.stream toFile len reportProgress (total + c) cs _)
      as [[r w'] t]. cbn [fst snd] in *.
    destruct IH as (Hr & Hfs & Hlog). subst r. cbn.
    rewrite N.add_assoc. split; [reflexivity|]. split.
    + intros _. apply Hfs. cbn. apply lookup_insert_eq.
    + constructor.
      * exists (total + c). split; [lia | reflexivity].
      * eapply Forall_impl; [exact Hlog|]. cbn.
        intros ev (bw & Hbw & ->). exists bw. split; [lia | reflexivity].
Qed.

Lemma downloadFile_run (E : Env) (toFile : Js.str) (w : World) :
  let tr := transferOf E (transfers (dev w)) in
  let run := RNFS.downloadFile E toFile reportProgress w in
  run.1.1 = match ending tr with
            | Resolves =>
                Ok (status tr,
                    if RNFS.is2xx (status tr) then received (chunks tr) else 0)
            | Rejects e => Throw e
            end
  /\ (RNFS.is2xx (status tr) = true ->
      fs (dev run.1.2) !! toFile = Some (File (received (chunks tr))))
  /\ (RNFS.is2xx (status tr) = false -> fs (dev run.1.2) = fs (dev w))
  /\ Forall (fun ev =>
               ev = RnfsDownloadFile toFile
               \/ exists bw,
                    bw <= received (chunks tr)
                    /\ ev = SetDownloadProgress
                              (InlineApp.progressOf (Z.of_N bw)
                                                    (contentLength tr)))
            run.2.
Proof.
  unfold RNFS.downloadFile. mrun. cbn [app dev].
  set (tr := transferOf E (transfers (dev w))).
  destruct (RNFS.is2xx (status tr)) eqn:H2.
  - cbn [app dev].
    pose proof (stream_run toFile (contentLength tr) (chunks tr) 0
                  (mkWorld (app w)
                     (with_fs (fun m => <[toFile := File 0]> m)
                        (with_transfer_started (dev w))))) as Hs.
    cbn zeta in Hs.
    destruct (RNFS.stream toFile (contentLength tr) reportProgress 0
                          (chunks tr) _) as [[r w'] t].
    cbn [fst snd] in Hs. destruct Hs as (Hr & Hfs & Hlog). subst r.
    rewrite N.add_0_l in *.
    assert (Hlog' : Forall (fun ev =>
               ev = RnfsDownloadFile toFile
               \/ exists bw,
                    bw <= received (chunks tr)
                    /\ ev = SetDownloadProgress
                              (InlineApp.progressOf (Z.of_N bw)
                                                    (contentLength tr))) t).
    { eapply Forall_impl; [exact Hlog|]. cbn.
      intros ev (bw & Hbw & ->). right. exists bw. split; [lia | reflexivity]. }
    assert (Hfs' : fs (dev w') !! toFile = Some (File (received (chunks tr))))
      by (apply Hfs; cbn; apply lookup_insert_eq).
    destruct (ending tr); cbn; (split; [reflexivity|]);
      (split; [intros _; exact Hfs'|]); (split; [discriminate|]);
      (constructor; [now left|]); rewrite ?app_nil_r; exact Hlog'.
  - destruct (ending tr); cbn; (split; [reflexivity|]);
      (split; [discriminate|]); (split; [reflexivity|]);
      repeat constructor.
Qed.

(** *** Rounding to binary64 *)







(** The inline [downloadModel] hands [reportProgress] to the library. *)
Lemma downloadModel_unfold (E : Env) :
  InlineApp.downloadModel E
  = (modApp (setDownloading true) ;;;
     setDownloadProgressM (Js.ofZ 0) ;;;
     setDownloadErrorM None ;;;
     try_catch
       (dirExists <- RNFS.exists_ E (InlineApp.MODELS_PATH E) ;;
        when (negb dirExists) (RNFS.mkdir E (InlineApp.MODELS_PATH E)) ;;;
        result <- RNFS.downloadFile E (InlineApp.MODEL_PATH E) reportProgress ;;
        if (fst result =? 200)%Z then
          modApp (setDownloading false) ;;; ret true
        else
          throw (JsError (Js.lit "Download failed with status: "
                            ++ Js.toStringZ (fst result))))
       (fun error =>
          setDownloadErrorM (Some (message_or (Js.lit "Download failed") error)) ;;;
          modApp (setDownloading false) ;;;
          ret false))%prog.
Proof. reflexivity. Qed.

(** C1, as the code has it.  [downloadModel] has the library write
    straight to the canonical path.  When the directory can be prepared
    and the response status is 2xx, the canonical path afterwards holds a
    file with exactly the bytes received, and the prober reports it
    present, whether [downloadModel] answered [true] or [false]; it
    answers [true] exactly when the transfer completed with status 200. *)
Theorem downloadModel_writes_destination (E : Env) (w : World) :
  let tr := transferOf E (transfers (dev w)) in
  existsFault E (InlineApp.MODELS_PATH E) = None ->
  mkdirFault E (InlineApp.MODELS_PATH E) = None ->
  existsFault E (InlineApp.MODEL_PATH E) = None ->
  RNFS.is2xx (status tr) = true ->
  let run := InlineApp.downloadModel E w in
  fs (dev run.1.2) !! InlineApp.MODEL_PATH E
    = Some (File (received (chunks tr)))
  /\ (InlineApp.checkModelExists E run.1.2).1.1 = Ok true
  /\ (run.1.1 = Ok true \/ run.1.1 = Ok false)
  /\ (run.1.1 = Ok true <-> status tr = 200%Z /\ ending tr = Resolves).
Proof.
  intros tr Hdir Hmk Hfile H2 run.
  assert (Hfs : fs (dev run.1.2) !! InlineApp.MODEL_PATH E
                = Some (File (received (chunks tr)))
                /\ (run.1.1 = Ok true \/ run.1.1 = Ok false)
                /\ (run.1.1 = Ok true
                    <-> status tr = 200%Z /\ ending tr = Resolves)).
  { subst run. rewrite downloadModel_unfold.
    unfold RNFS.exists_, RNFS.mkdir. rewrite Hdir, Hmk. mrun. cbn [app dev].
    destruct (fs (dev w) !! InlineApp.MODELS_PATH E); cbn [negb app dev];
    match goal with
    | |- context [RNFS.downloadFile E ?p reportProgress ?w0] =>
        pose proof (downloadFile_run E p w0) as Hrun;
        cbn zeta in Hrun;
        change (transferOf E (transfers (dev w0))) with tr in Hrun;
        destruct (RNFS.downloadFile E p reportProgress w0) as [[r w1] t1]
    end;
    cbn [fst snd] in Hrun; destruct Hrun as (Hr & Hw & _ & _);
    specialize (Hw H2); subst r; rewrite H2;
    (destruct (ending tr) as [|e]; cbn;
     [ destruct (status tr =? 200)%Z eqn:Hs; cbn;
       [ apply Z.eqb_eq in Hs; repeat split; auto
       | apply Z.eqb_neq in Hs; repeat split; auto; try discriminate;
         intros []; contradiction ]
     | repeat split; auto; try discriminate; intros []; discriminate ]). }
  destruct Hfs as (Hfs & Hres & Hiff).
  split; [exact Hfs|]. split; [|split; assumption].
  rewrite checkModelExists_run, Hfile, Hfs. reflexivity.
Qed.










(** [div] and [mul] are the binary64 operations: on these byte counts
    and lengths, among them thirds, sevenths and tenths, the largest safe
    integer, two products that lie halfway between two binary64 values,
    the subnormal range and the overflow threshold,
    [(bytesWritten / contentLength) * 100] as computed here is what the
    Standard Library's IEEE 754 division and multiplication give. *)
Example progressOf_binary64 :
  let samples :=
    [(1, 3); (2, 3); (1, 7); (1, 10); (3, 10); (400, 1000); (1000, 1000);
     (0, 5); (0, 0); (5, 0); (-5, 0); (-1, 3); (1, -3);
     (123456789, 987654321); (9007199254740991, 3);
     (1, 9007199254740991); (9007199254740991, 9007199254740992);
     (4503599627370504, 1); (4503599627370520, 1);
     (1, 2 ^ 1000); (1, 2 ^ 1022); (1, 2 ^ 1023 + 2 ^ 1022);
     (7, 2 ^ 1023 + 2 ^ 1022); (2 ^ 1000, 1); (2 ^ 1023, 1)]%Z in
  map (fun p => InlineApp.progressOf p.1 p.2) samples
  = map (fun p =>
           Js.ofBinary64
             (SFmul 53 1024
                (SFdiv 53 1024 (Js.binary64 p.1) (Js.binary64 p.2))
                (Js.binary64 100)))
        samples.
Proof. vm_compute. reflexivity. Qed.

(** The two roundings show: a third of the way through, the percentage
    is 33.33333333333333 and not the binary64 value of 100/3. *)
Example progressOf_third :
  InlineApp.progressOf 1 3 = Js.Fin (2345624805922133 # 70368744177664)
  /\ Js.round (100 # 3) = Js.Fin (4691249611844267 # 140737488355328).
Proof. split; vm_compute; reflexivity. Qed.


(** ** The prober when the file system cannot be asked *)


(** * The claims at concrete inputs *)

(** C1 as stated fails.  The connection is lost after 400 of 1000 bytes:
    [downloadModel] answers [false], the 400 bytes stay at the canonical
    path, and the prober reports the artifact present. *)
Lemma interrupted_download_passes_probe :
  let run := InlineApp.downloadModel Sample.envBroken (Sample.world0 ∅) in
  run.1.1 = Ok false
  /\ ending (transferOf Sample.envBroken 0)
     = Rejects (JsError (Js.lit "Network request failed"))
  /\ contentLength (transferOf Sample.envBroken 0) = 1000%Z
  /\ fs (dev run.1.2) !! InlineApp.MODEL_PATH Sample.envBroken
     = Some (File 400)
  /\ (InlineApp.checkModelExists Sample.envBroken run.1.2).1.1 = Ok true.
Proof. vm_compute. repeat split. Qed.

Lemma downloadModel_writes_destination_witness :
  RNFS.is2xx (status (transferOf Sample.envBroken 0)) = true
  /\ (let run := InlineApp.downloadModel Sample.envBroken (Sample.world0 ∅) in
      fs (dev run.1.2) !! InlineApp.MODEL_PATH Sample.envBroken
        = Some (File 400)
      /\ (InlineApp.checkModelExists Sample.envBroken run.1.2).1.1 = Ok true).
Proof.
  split; [reflexivity|].
  destruct (downloadModel_writes_destination
              Sample.envBroken (Sample.world0 ∅)
              eq_refl eq_refl eq_refl eq_refl) as (Hfs & Hprobe & _).
  split; [exact Hfs | exact Hprobe].
Defined.




Lemma activate_invalid_artifact_witness :
  fs (dev (Sample.world0 ∅)) !! Sample.modelFile = None
  /\ exists msg w' t,
       GemmaInference.initialize Sample.env Sample.modelFile (Sample.world0 ∅)
       = (Throw (JsError (Js.lit "Failed to initialize Gemma model: " ++ msg)),
          w', t)
       /\ engineUntouched t.
Proof.
  assert (Hmissing : fs (dev (Sample.world0 ∅)) !! Sample.modelFile = None)
    by reflexivity.
  split; [exact Hmissing|].
  destruct (activate_invalid_artifact
              Sample.env (Sample.world0 ∅) Sample.modelFile
              (or_introl Hmissing))
    as [_ (msg & w' & t & Hrun & Hlog & _)].
  exists msg, w', t. split; [exact Hrun | exact Hlog].
Defined.

Lemma generate_empty_prompt_witness :
  gi_isInitialized (dev Sample.readyWorld) = true
  /\ forallb Js.isWhiteSpace (Js.lit "  ") = true
  /\ GemmaInference.generate Sample.env (Js.lit "  ") (Some Sample.picture)
                             Sample.readyWorld
     = (Throw (JsError (Js.lit "Prompt cannot be empty")),
        Sample.readyWorld, []).
Proof.
  split; [reflexivity|]. split; [reflexivity|].
  apply (generate_empty_prompt Sample.env Sample.readyWorld (Js.lit "  ")
           (Some Sample.picture)); reflexivity.
Defined.

(** C5 fails on the code.  The model is loaded and the picture decodes;
    the engine throws while generating.  The call rejects with
    [GENERATE_ERROR], the session has been closed, and the decoded bitmap
    is still live: [recycle] was never called. *)
Theorem generateWithImage_engine_failure_leaks_bitmap :
  let run := GemmaModule.generateWithImage
               Sample.envEngineFault (Js.lit "What is this?") Sample.picture
               Sample.readyWorld in
  run.1.1 = Ok (Reject (Js.lit "GENERATE_ERROR")
                       (Js.lit "Failed to run inference"))
  /\ run.2 = [DecodeFile Sample.picture; SessionCreate;
              SessionAddQueryChunk (Js.lit "What is this?");
              SessionAddImage 0; SessionGenerateResponse; SessionClose]
  /\ elements (liveBitmaps (dev run.1.2)) = [0%nat]
  /\ neverRecycles run.2.
Proof.
  vm_compute. repeat split. repeat constructor; discriminate.
Qed.

(** C6 as stated fails.  The clock never goes backwards; the reply to the
    first message is created at ...4000 and gets the id ...4001; the
    second message is sent at ...4001 and gets the same id. *)
Lemma consecutive_sends_share_an_id :
  let E := Sample.envQuickTyping in
  let run := (Sample.typeAndSend E "Hi" ;;; Sample.typeAndSend E "And?")
               Sample.readyWorld in
  let log := messages (app run.1.2) in
  (now E 0%nat <= now E 1%nat /\ now E 1%nat <= now E 2%nat
   /\ now E 2%nat <= now E 3%nat)
  /\ map sender log = [user; ai; user; ai]
  /\ map id log = [Js.lit "1700000000000"; Js.lit "1700000004001";
                   Js.lit "1700000004001"; Js.lit "1700000009001"]
  /\ ~ NoDup (map id log).
Proof.
  cbn zeta.
  assert (Hids :
    map id (messages (app ((Sample.typeAndSend Sample.envQuickTyping "Hi" ;;;
                            Sample.typeAndSend Sample.envQuickTyping "And?")
                             Sample.readyWorld).1.2))
    = [Js.lit "1700000000000"; Js.lit "1700000004001";
       Js.lit "1700000004001"; Js.lit "1700000009001"])
    by (vm_compute; reflexivity).
  split; [cbn; lia|]. split; [vm_compute; reflexivity|].
  split; [exact Hids|]. rewrite Hids. intros Hnd.
  apply NoDup_cons in Hnd as [_ Hnd]. apply NoDup_cons in Hnd as [Hnot _].
  apply Hnot. constructor.
Qed.

Lemma sendMessage_ids_increasing_witness :
  let w := mkWorld (setInput (Js.lit "Hi") (app Sample.readyWorld))
                   (dev Sample.readyWorld) in
  now Sample.env (clockReads (dev w)) <= now Sample.env (S (clockReads (dev w)))
  /\ NoDup (map id (messages (app (App.sendMessage Sample.env Sample.saveLog w).1.2))).
Proof.
  cbn zeta.
  assert (Hclock : now Sample.env 0%nat <= now Sample.env 1%nat) by (cbn; lia).
  split; [exact Hclock|].
  destruct (sendMessage_ids_increasing
              Sample.env Sample.saveLog
              (mkWorld (setInput (Js.lit "Hi") (app Sample.readyWorld))
                       (dev Sample.readyWorld))
              [] eq_refl (SSorted_nil _) (Forall_nil_2 _) Hclock)
    as (ks' & _ & _ & Hnd & _).
  exact Hnd.
Defined.

(** C7 as stated fails.  A zero-byte file lies at the canonical path: the
    prober reports it present, the download is skipped, and activation
    rejects the empty file, so the run ends Failed instead of Ready. *)
Lemma present_but_empty_artifact_fails :
  let w := Sample.world0 {[ Sample.modelFile := File 0 ]} in
  let run := App.initModel Sample.env Sample.offline Sample.errorText w in
  (App.checkModelExists Sample.env w).1.1 = Ok true
  /\ phases run.2
     = [Uninitialized; CheckingArtifact; Activating;
        Failed (Js.lit "Failed to initialize Gemma model: Model file is empty: "
                  ++ Sample.modelFile)]
  /\ phases run.2 <> [Uninitialized; CheckingArtifact; Activating; Ready]
  /\ modelReady (app run.1.2) = false.
Proof.
  cbn zeta.
  assert (Hp :
    phases (App.initModel Sample.env Sample.offline Sample.errorText
              (Sample.world0 {[ Sample.modelFile := File 0 ]})).2
    = [Uninitialized; CheckingArtifact; Activating;
       Failed (Js.lit "Failed to initialize Gemma model: Model file is empty: "
                 ++ Sample.modelFile)])
    by (vm_compute; reflexivity).
  split; [vm_compute; reflexivity|]. split; [exact Hp|].
  split; [rewrite Hp; discriminate | vm_compute; reflexivity].
Qed.

Lemma initModel_artifact_present_witness :
  let w := Sample.world0 Sample.files in
  let run := App.initModel Sample.env Sample.offline Sample.errorText w in
  (App.checkModelExists Sample.env w).1.1 = Ok true
  /\ Forall (fun ev => ev <> CallDownload) run.2
  /\ phases run.2 = [Uninitialized; CheckingArtifact; Activating; Ready].
Proof.
  cbn zeta.
  assert (Hprobe : (App.checkModelExists Sample.env
                      (Sample.world0 Sample.files)).1.1 = Ok true)
    by (vm_compute; reflexivity).
  assert (Hact : (GemmaInference.initialize Sample.env
                    (App.MODEL_PATH Sample.env)
                    (Sample.world0 Sample.files)).1.1 = Ok tt)
    by (vm_compute; reflexivity).
  destruct (initModel_artifact_present
              Sample.env Sample.offline Sample.errorText
              (Sample.world0 Sample.files) Hprobe) as (_ & Hskip & Hend).
  rewrite Hact in Hend.
  split; [exact Hprobe|]. split; [exact Hskip | exact (proj1 Hend)].
Defined.

Lemma sendMessage_failure_keeps_ready_witness :
  let w := mkWorld (setInput (Js.lit "Hi") (app Sample.readyWorld))
                   (dev Sample.readyWorld) in
  let run := App.sendMessage Sample.envEngineFault Sample.saveLog w in
  accepted w = true
  /\ modelReady (app run.1.2) = true
  /\ messages (app run.1.2)
     = messages (app w) ++ [userMessage Sample.envEngineFault w].
Proof.
  cbn zeta.
  set (w := mkWorld (setInput (Js.lit "Hi") (app Sample.readyWorld))
                    (dev Sample.readyWorld)).
  set (E := Sample.envEngineFault).
  assert (Hacc : accepted w = true) by (vm_compute; reflexivity).
  split; [exact Hacc|].
  destruct (GemmaInference.generate E (input (app w)) (selectedImage (app w))
              (atGenerate E w (Some (messages (app w) ++ [userMessage E w]))))
    as [[[response|e] w3] t3] eqn:Hgen.
  - exfalso. vm_compute in Hgen. discriminate Hgen.
  - destruct (sendMessage_failure_keeps_ready
                E Sample.saveLog w
                (Some (messages (app w) ++ [userMessage E w])) e w3 t3
                Hacc eq_refl Hgen) as (_ & Hready & Hlog & _).
    split; [exact Hready | exact Hlog].
Defined.

Lemma unload_idempotent_witness :
  gi_isInitialized (dev (Sample.world0 ∅)) = false
  /\ GemmaInference.unload Sample.env (Sample.world0 ∅)
     = (Ok tt, Sample.world0 ∅, []).
Proof.
  split; [reflexivity|].
  apply (proj1 (unload_idempotent Sample.env (Sample.world0 ∅))).
  reflexivity.
Defined.


(** ** The scenarios of the specification, run on the inline component *)

(** Artifact absent, 200 with 1000 bytes declared and delivered. *)
Example scenario_download_then_ready :
  let run := InlineApp.initModel Sample.env (Sample.world0 ∅) in
  phases run.2
  = [Uninitialized; CheckingArtifact; Downloading; Activating; Ready]
  /\ fs (dev run.1.2) !! Sample.modelFile = Some (File 1000)
  /\ downloadProgress (app run.1.2) = InlineApp.progressOf 1000 1000.
Proof. vm_compute. repeat split. Qed.

(** The source answers 401: nothing is written and the run ends Failed. *)
Example scenario_unauthorized :
  let run := InlineApp.initModel Sample.envUnauthorized (Sample.world0 ∅) in
  phases run.2
  = [Uninitialized; CheckingArtifact; Downloading;
     Failed (Js.lit "Download failed with status: 401")]
  /\ fs (dev run.1.2) !! Sample.modelFile = None.
Proof. vm_compute. repeat split. Qed.

(** Artifact already present: the download is skipped. *)
Example scenario_present :
  phases (InlineApp.initModel Sample.env (Sample.world0 Sample.files)).2
  = [Uninitialized; CheckingArtifact; Activating; Ready].
Proof. vm_compute. reflexivity. Qed.

(** A retry after an interrupted download finds the partial file, skips
    the download and hands the 400 bytes to the engine. *)
Example scenario_retry_after_interruption :
  let first := InlineApp.initModel Sample.envBroken (Sample.world0 ∅) in
  let retry := InlineApp.initModel Sample.envBroken first.1.2 in
  phases first.2
  = [Uninitialized; CheckingArtifact; Downloading;
     Failed (Js.lit "Network request failed")]
  /\ phases retry.2
     = [Uninitialized; CheckingArtifact; Activating; Ready]
  /\ CreateFromOptions Sample.modelFile ∈ retry.2
  /\ fs (dev retry.1.2) !! Sample.modelFile = Some (File 400).
Proof. vm_compute. repeat split. repeat constructor. Qed.

(** A text request on a ready session does not touch the image path. *)
Example scenario_generate_text :
  GemmaInference.generate Sample.env (Js.lit "hello") None Sample.readyWorld
  = (Ok (Js.lit "Hello!"), Sample.readyWorld,
     [NativeGenerate (Js.lit "hello"); GenerateResponse (Js.lit "hello")]).
Proof. vm_compute. reflexivity. Qed.

(** * Further properties of the code *)

(** ** GemmaModule.kt *)

(** Split on every environment answer and state lookup a goal branches
    on. *)
Ltac envsplit :=
  repeat (cbn;
          match goal with
          | |- context [match km_model ?d with _ => _ end] =>
              destruct (km_model d) eqn:?
          | |- context [match fs ?d !! ?p with _ => _ end] =>
              destruct (fs d !! p) eqn:?
          | |- context [match existsFault ?E ?p with _ => _ end] =>
              destruct (existsFault E p) eqn:?
          | |- context [match mkdirFault ?E ?p with _ => _ end] =>
              destruct (mkdirFault E p) eqn:?
          | |- context [match engineLoad ?E ?p with _ => _ end] =>
              destruct (engineLoad E p) eqn:?
          | |- context [match engineText ?E ?p with _ => _ end] =>
              destruct (engineText E p) eqn:?
          | |- context [match engineVision ?E ?p with _ => _ end] =>
              destruct (engineVision E p) eqn:?
          | |- context [match closeFault ?E with _ => _ end] =>
              destruct (closeFault E) eqn:?
          | |- context [if decodes ?E ?p then _ else _] =>
              destruct (decodes E p) eqn:?
          | |- context [if gi_isInitialized ?d then _ else _] =>
              destruct (gi_isInitialized d) eqn:?
          | |- context [if negb (gi_isInitialized ?d) then _ else _] =>
              destruct (gi_isInitialized d) eqn:?
          end);
  cbn.

(** X2.  [generateWithImage] validates in order and gives up before any
    session exists: without a model it rejects [NO_MODEL]; with a model
    and no file at the path, [FILE_NOT_FOUND], before decoding; with a
    file that does not decode, [INVALID_IMAGE].  In all three cases the
    world is unchanged, so no bitmap is left allocated. *)
Theorem generateWithImage_rejects_early
        (E : Env) (w : World) (prompt path : Js.str) :
  (km_model (dev w) = None ->
   GemmaModule.generateWithImage E prompt path w
   = (Ok (Reject (Js.lit "NO_MODEL") (Js.lit "Model not loaded")), w, []))
  /\ (is_Some (km_model (dev w)) -> fs (dev w) !! path = None ->
      GemmaModule.generateWithImage E prompt path w
      = (Ok (Reject (Js.lit "FILE_NOT_FOUND")
                    (Js.lit "Image file does not exist at " ++ path)), w, []))
  /\ (is_Some (km_model (dev w)) -> is_Some (fs (dev w) !! path) ->
      decodes E path = false ->
      GemmaModule.generateWithImage E prompt path w
      = (Ok (Reject (Js.lit "INVALID_IMAGE") (Js.lit "Failed to decode image")),
         w, [DecodeFile path])).
Proof.
  unfold GemmaModule.generateWithImage, GemmaModule.decodeFile.
  repeat split.
  - intros Hm. mrun. now rewrite Hm.
  - intros [h Hm] Hf. mrun. rewrite Hm. cbn. now rewrite Hf.
  - intros [h Hm] [n Hf] Hd. mrun. rewrite Hm. cbn. rewrite Hf, Hd.
    reflexivity.
Qed.

(** X3.  Every image session that was created is closed again, whether the
    engine answers or throws. *)
Theorem generateWithImage_closes_session
        (E : Env) (w : World) (prompt path : Js.str) :
  let t := (GemmaModule.generateWithImage E prompt path w).2 in
  SessionCreate ∈ t ->
  (exists m, engineVision E prompt = VCreateFault m) \/ SessionClose ∈ t.
Proof.
  unfold GemmaModule.generateWithImage, GemmaModule.decodeFile,
    GemmaModule.visionSession, GemmaModule.recycle.
  mrun. envsplit; intros Hin;
    repeat (apply elem_of_cons in Hin as [Hin | Hin]; [try discriminate|]);
    try (now apply elem_of_nil in Hin);
    try (left; eexists; reflexivity);
    try (right; repeat constructor).
Qed.

(** ** GemmaInference.ts *)

Lemma startsWith_true (pre s : Js.str) :
  Js.startsWith pre s = true -> exists r, s = pre ++ r.
Proof.
  revert s. induction pre as [|a pre IH]; intros s; cbn.
  - intros _. now exists s.
  - destruct s as [|b s]; [discriminate|].
    intros H. apply andb_true_iff in H as [Hab Hs].
    apply N.eqb_eq in Hab. subst b.
    destruct (IH s Hs) as [r ->]. now exists r.
Qed.

(** X4.  [normalizePath] strips one [file://] scheme and keeps the slash that
    starts the path: its result never starts with [file:///], so applying
    it twice is the same as applying it once, and a path without the
    scheme is returned as it is. *)
Theorem normalizePath_idempotent (path : Js.str) :
  Js.startsWith (Js.lit "file:///") (GemmaInference.normalizePath path) = false
  /\ GemmaInference.normalizePath (GemmaInference.normalizePath path)
     = GemmaInference.normalizePath path
  /\ (Js.startsWith (Js.lit "file:///") path = false ->
      GemmaInference.normalizePath path = path)
  /\ (forall rest,
        GemmaInference.normalizePath (Js.lit "file:///" ++ rest)
        = Js.lit "/" ++ rest).
Proof.
  assert (Hstrip : forall rest,
             GemmaInference.normalizePath (Js.lit "file:///" ++ rest)
             = Js.lit "/" ++ rest).
  { intros rest. unfold GemmaInference.normalizePath.
    change (Js.lit "file:///") with [102; 105; 108; 101; 58; 47; 47; 47].
    reflexivity. }
  assert (Hnot : Js.startsWith (Js.lit "file:///")
                               (GemmaInference.normalizePath path) = false).
  { destruct (Js.startsWith (Js.lit "file:///") path) eqn:Hp.
    - destruct (startsWith_true _ _ Hp) as [rest ->]. rewrite Hstrip.
      reflexivity.
    - unfold GemmaInference.normalizePath. now rewrite Hp. }
  split; [exact Hnot|]. split; [|split; [|exact Hstrip]].
  - unfold GemmaInference.normalizePath at 1. now rewrite Hnot.
  - intros Hp. unfold GemmaInference.normalizePath. now rewrite Hp.
Qed.

Lemma fileLength_nonEmpty (E : Env) (w : World) (path : Js.str) :
  nonEmptyFile w path ->
  is_Some (fs (dev w) !! path)
  /\ (GemmaModule.fileLength E (dev w) path =? 0) = false.
Proof.
  intros (n & Hf & Hn). unfold GemmaModule.fileLength. rewrite Hf.
  split; [eauto | now apply N.eqb_neq].
Qed.

Lemma initialize_loads (E : Env) (w : World) (path : Js.str) :
  existsFault E path = None ->
  nonEmptyFile w path ->
  engineLoad E path = None ->
  GemmaInference.initialize E path w
  = (Ok tt,
     mkWorld (app w)
             (with_gi_isInitialized true
                (with_new_engine (with_gi_modelPath path (dev w)))),
     [NativeLoadModel path; CreateFromOptions path]).
Proof.
  intros He Hfile Hload.
  pose proof (fileLength_nonEmpty E
                (mkWorld (app w) (with_gi_modelPath path (dev w))) path)
    as Hlen.
  destruct Hfile as (n & Hf & Hn).
  destruct Hlen as [_ Hlen]; [exists n; split; [exact Hf | exact Hn]|].
  unfold GemmaInference.initialize, GemmaModule.loadModel, RNFS.exists_.
  rewrite He. mrun. rewrite Hf. cbn [negb app dev with_gi_modelPath fs].
  rewrite Hf. cbn [dev] in Hlen. rewrite Hlen, Hload. reflexivity.
Qed.

(** X5.  What [GemmaInference.initialize] does on a file of at least one byte,
    when the existence check does not fail: it records the path, has the
    native module construct the engine, and then either marks the bridge
    initialized, with a fresh engine in the native module, or, when the
    engine refuses the file, throws the engine's message behind
    "Failed to initialize Gemma model: " and marks the bridge
    uninitialized, leaving the native module's engine as it was.  The
    path is recorded in both cases. *)
Theorem initialize_on_file (E : Env) (w : World) (path : Js.str) :
  existsFault E path = None ->
  nonEmptyFile w path ->
  let run := GemmaInference.initialize E path w in
  run.2 = [NativeLoadModel path; CreateFromOptions path]
  /\ app run.1.2 = app w
  /\ fs (dev run.1.2) = fs (dev w)
  /\ gi_modelPath (dev run.1.2) = path
  /\ match engineLoad E path with
     | None =>
         run.1.1 = Ok tt
         /\ gi_isInitialized (dev run.1.2) = true
         /\ km_model (dev run.1.2) = Some (nextEngine (dev w))
     | Some m =>
         run.1.1
         = Throw (JsError (Js.lit "Failed to initialize Gemma model: " ++ m))
         /\ gi_isInitialized (dev run.1.2) = false
         /\ km_model (dev run.1.2) = km_model (dev w)
     end.
Proof.
  intros He Hfile.
  pose proof (fileLength_nonEmpty E
                (mkWorld (app w) (with_gi_modelPath path (dev w))) path)
    as Hlen.
  destruct Hfile as (n & Hf & Hn).
  destruct Hlen as [_ Hlen]; [exists n; split; [exact Hf | exact Hn]|].
  unfold GemmaInference.initialize, GemmaModule.loadModel, RNFS.exists_.
  rewrite He. mrun. rewrite Hf. cbn [negb app dev with_gi_modelPath fs].
  rewrite Hf. cbn [dev] in Hlen. rewrite Hlen.
  destruct (engineLoad E path); cbn; repeat split; reflexivity.
Qed.

(** X6.  [initialize] never closes an engine.  So initializing again while an
    engine is loaded replaces the handle in the native module and the old
    engine is left open; and when initialization fails on a missing or
    empty file while an engine is loaded, that engine stays in the native
    module, the bridge is marked uninitialized, and a following [unload]
    returns without calling the native module: the engine is not
    released. *)
Theorem initialize_strands_engine (E : Env) (w : World) (path : Js.str) (h : nat) :
  km_model (dev w) = Some h ->
  neverCloses (GemmaInference.initialize E path w).2
  /\ (existsFault E path = None -> nonEmptyFile w path ->
      engineLoad E path = None ->
      km_model (dev (GemmaInference.initialize E path w).1.2)
      = Some (nextEngine (dev w)))
  /\ (fs (dev w) !! path = None \/ fs (dev w) !! path = Some (File 0) ->
      let failed := (GemmaInference.initialize E path w).1.2 in
      km_model (dev failed) = Some h
      /\ GemmaInference.unload E failed = (Ok tt, failed, [])).
Proof.
  intros Hm. split; [|split].
  - assert (H : logs (fun ev => forall h, ev <> ModelClose h)
                     (GemmaInference.initialize E path))
      by (unfold_bridge; frame).
    apply H.
  - intros He Hfile Hload.
    now rewrite (initialize_loads E w path He Hfile Hload).
  - intros Hbad.
    destruct (initialize_invalid_artifact E w path Hbad)
      as (msg & w' & t & Hrun & _ & Hinit & Hk & _).
    rewrite Hrun. cbn. split; [congruence|].
    now apply unload_not_loaded.
Qed.

Lemma generate_preserves_model (E : Env) prompt imagePath :
  preserves (fun w => km_model (dev w))
            (GemmaInference.generate E prompt imagePath).
Proof. unfold_bridge. frame. Qed.

(** X7.  The bridge keeps its invariant: [isInitialized] is true only while
    the native module holds an engine.  [initialize], [generate] and
    [unload] each preserve it, whatever the environment does. *)
Theorem bridge_keeps_loaded
        (E : Env) (w : World) (path prompt : Js.str) (imagePath : option Js.str) :
  bridgeLoaded w ->
  bridgeLoaded (GemmaInference.initialize E path w).1.2
  /\ bridgeLoaded (GemmaInference.generate E prompt imagePath w).1.2
  /\ bridgeLoaded (GemmaInference.unload E w).1.2.
Proof.
  unfold bridgeLoaded. intros Hw. split; [|split].
  - unfold GemmaInference.initialize, GemmaModule.loadModel, RNFS.exists_.
    mrun. envsplit; try discriminate;
      repeat match goal with
             | |- context [if ?b then _ else _] => destruct b; cbn
             end;
      try discriminate; eauto.
  - rewrite (generate_preserves_initialized E prompt imagePath w).
    rewrite (generate_preserves_model E prompt imagePath w). exact Hw.
  - unfold GemmaInference.unload, GemmaModule.unloadModel.
    mrun. envsplit; try discriminate; auto; try (intros; congruence).
Qed.

Lemma awaitGenerate_run (E : Env) (w : World) (prompt : Js.str) :
  is_Some (km_model (dev w)) ->
  native (NativeGenerate prompt) (GemmaModule.generate E prompt) w
  = (match engineText E prompt with
     | Reply r => Ok r
     | Fault m => Throw (NativeError (Js.lit "GENERATE_ERROR") m)
     end,
     w, [NativeGenerate prompt; GenerateResponse prompt]).
Proof.
  intros [h Hm]. unfold GemmaModule.generate. mrun. rewrite Hm.
  destruct (engineText E prompt); reflexivity.
Qed.

(** X8.  A text request on an initialized bridge with a loaded engine: the
    prompt is handed to the engine as typed (not trimmed), and the call
    returns the engine's reply as it is, or throws the engine's message
    behind "Generation failed: ".  An image argument that is absent or
    blank makes no difference, and the world is unchanged either way. *)
Theorem generate_text (E : Env) (w : World) (prompt : Js.str)
        (imagePath : option Js.str) :
  gi_isInitialized (dev w) = true ->
  is_Some (km_model (dev w)) ->
  Js.truthy (Js.trim prompt) = true ->
  Js.truthyTrim imagePath = false ->
  GemmaInference.generate E prompt imagePath w
  = (match engineText E prompt with
     | Reply r => Ok r
     | Fault m => Throw (JsError (Js.lit "Generation failed: " ++ m))
     end,
     w, [NativeGenerate prompt; GenerateResponse prompt]).
Proof.
  intros Hinit Hm Hp Himg.
  unfold GemmaInference.generate, bind, getDev, try_catch. cbn beta iota.
  rewrite Hinit, Hp. cbn [negb].
  destruct imagePath as [path|]; cbn in Himg; [rewrite Himg|];
    rewrite (awaitGenerate_run E w prompt Hm);
    destruct (engineText E prompt); reflexivity.
Qed.

(** X9.  A request with an image whose file is missing throws
    "Generation failed: Image not found at: " and the path as given; the
    native module is not called and the world is unchanged. *)
Theorem generate_image_not_found (E : Env) (w : World) (prompt path : Js.str) :
  gi_isInitialized (dev w) = true ->
  Js.truthy (Js.trim prompt) = true ->
  Js.truthy (Js.trim path) = true ->
  existsFault E path = None ->
  fs (dev w) !! path = None ->
  GemmaInference.generate E prompt (Some path) w
  = (Throw (JsError (Js.lit "Generation failed: "
                       ++ Js.lit "Image not found at: " ++ path)),
     w, []).
Proof.
  intros Hinit Hp Hpath He Hf.
  unfold GemmaInference.generate, RNFS.exists_. rewrite He.
  unfold bind, getDev, try_catch, throw, ret. cbn beta iota.
  rewrite Hinit, Hp. cbn [negb]. rewrite Hpath. cbn beta iota.
  rewrite Hf. reflexivity.
Qed.

Lemma awaitGenerateWithImage_run (E : Env) (w : World) (prompt path r : Js.str) :
  is_Some (km_model (dev w)) ->
  is_Some (fs (dev w) !! path) ->
  decodes E path = true ->
  engineVision E prompt = VReply r ->
  native (NativeGenerateWithImage prompt path)
         (GemmaModule.generateWithImage E prompt path) w
  = (Ok r,
     mkWorld (app w)
             (with_recycled (nextBitmap (dev w)) (with_new_bitmap (dev w))),
     [NativeGenerateWithImage prompt path; DecodeFile path; SessionCreate;
      SessionAddQueryChunk prompt; SessionAddImage (nextBitmap (dev w));
      SessionGenerateResponse; SessionClose;
      BitmapRecycle (nextBitmap (dev w))]).
Proof.
  intros [h Hm] [n Hf] Hd Hv.
  unfold GemmaModule.generateWithImage, GemmaModule.decodeFile,
    GemmaModule.visionSession, GemmaModule.recycle.
  mrun. rewrite Hm. cbn. rewrite Hf, Hd. cbn. rewrite Hv. reflexivity.
Qed.

(** X10.  A request with an image that exists and decodes, on a loaded engine
    that answers: the native module gets the prompt and the normalized
    path, the reply is returned as it is, the session is closed and the
    bitmap decoded for the call is recycled, so that it is not among the
    live bitmaps afterwards; apart from the bitmap counter the world is
    unchanged. *)
Theorem generate_with_image (E : Env) (w : World) (prompt path r : Js.str) :
  gi_isInitialized (dev w) = true ->
  is_Some (km_model (dev w)) ->
  Js.truthy (Js.trim prompt) = true ->
  Js.truthy (Js.trim path) = true ->
  existsFault E path = None ->
  is_Some (fs (dev w) !! path) ->
  is_Some (fs (dev w) !! GemmaInference.normalizePath path) ->
  decodes E (GemmaInference.normalizePath path) = true ->
  engineVision E prompt = VReply r ->
  let run := GemmaInference.generate E prompt (Some path) w in
  run.1.1 = Ok r
  /\ run.2 = [NativeGenerateWithImage prompt (GemmaInference.normalizePath path);
              DecodeFile (GemmaInference.normalizePath path); SessionCreate;
              SessionAddQueryChunk prompt; SessionAddImage (nextBitmap (dev w));
              SessionGenerateResponse; SessionClose;
              BitmapRecycle (nextBitmap (dev w))]
  /\ (nextBitmap (dev w) ∉ liveBitmaps (dev run.1.2))
  /\ (forall b, b <> nextBitmap (dev w) ->
        b ∈ liveBitmaps (dev run.1.2) <-> b ∈ liveBitmaps (dev w))
  /\ app run.1.2 = app w
  /\ fs (dev run.1.2) = fs (dev w)
  /\ km_model (dev run.1.2) = km_model (dev w).
Proof.
  intros Hinit Hm Hp Hpath He [n Hf] Hclean Hd Hv.
  unfold GemmaInference.generate, RNFS.exists_. rewrite He.
  unfold bind, getDev, try_catch, throw, ret. cbn beta iota.
  rewrite Hinit, Hp. cbn [negb]. rewrite Hpath. cbn beta iota.
  rewrite Hf. cbn [negb].
  rewrite (awaitGenerateWithImage_run E w prompt _ r Hm Hclean Hd Hv).
  cbn. repeat split; try reflexivity.
  - intros Hin. apply elem_of_difference in Hin as [_ Hn].
    apply Hn. now apply elem_of_singleton.
  - intros Hin. apply elem_of_difference in Hin as [Hin _].
    apply elem_of_union in Hin as [Hin | Hin]; [|exact Hin].
    apply elem_of_singleton in Hin. contradiction.
  - intros Hin. apply elem_of_difference. split.
    + apply elem_of_union. now right.
    + intros Hs. apply elem_of_singleton in Hs. contradiction.
Qed.

(** X11.  When closing the engine throws, [unload] passes the native rejection
    on as it is, not wrapped, and the bridge stays initialized with the
    engine still in the native module. *)
Theorem unload_close_failure (E : Env) (w : World) (h : nat) (m : Js.str) :
  gi_isInitialized (dev w) = true ->
  km_model (dev w) = Some h ->
  closeFault E = Some m ->
  GemmaInference.unload E w
  = (Throw (NativeError (Js.lit "UNLOAD_ERROR") m), w,
     [NativeUnloadModel; ModelClose h]).
Proof.
  intros Hinit Hm Hc.
  unfold GemmaInference.unload, GemmaModule.unloadModel. mrun.
  rewrite Hinit. cbn. rewrite Hm, Hc. reflexivity.
Qed.

(** X12.  Loading and unloading compose: on a file of at least one byte, with
    an engine that loads and closes, [initialize] followed by [unload]
    constructs one engine and closes that same engine, and leaves the
    bridge uninitialized with no engine in the native module. *)
Theorem initialize_then_unload (E : Env) (w : World) (path : Js.str) :
  existsFault E path = None ->
  nonEmptyFile w path ->
  engineLoad E path = None ->
  closeFault E = None ->
  let run := (GemmaInference.initialize E path ;;; GemmaInference.unload E) w in
  run.1.1 = Ok tt
  /\ run.2 = [NativeLoadModel path; CreateFromOptions path;
              NativeUnloadModel; ModelClose (nextEngine (dev w))]
  /\ gi_isInitialized (dev run.1.2) = false
  /\ km_model (dev run.1.2) = None
  /\ app run.1.2 = app w
  /\ fs (dev run.1.2) = fs (dev w).
Proof.
  intros He Hfile Hload Hclose.
  unfold bind at 1. rewrite (initialize_loads E w path He Hfile Hload).
  unfold GemmaInference.unload, GemmaModule.unloadModel. mrun.
  cbn. rewrite Hclose. cbn. repeat split.
Qed.

(** ** The inline component: acquisition *)

Lemma stream_preserves {X} (f : World -> X) (toFile : Js.str) (len : Z)
      (cb : Z -> Z -> M unit) :
  (forall b c, preserves f (cb b c)) ->
  (forall a d v,
      f (mkWorld a (with_fs (fun m => <[toFile := v]> m) d)) = f (mkWorld a d)) ->
  forall cs total, preserves f (RNFS.stream toFile len cb total cs).
Proof.
  intros Hcb Hfs. induction cs as [|c cs IH]; intros total; cbn [RNFS.stream].
  - apply preserves_ret.
  - apply preserves_bind; [apply Hcb | intros _].
    apply preserves_bind; [|intros _; apply IH].
    apply preserves_modDev. intros a d. apply Hfs.
Qed.

Lemma downloadFile_preserves {X} (f : World -> X) (E : Env) (toFile : Js.str)
      (cb : Z -> Z -> M unit) :
  (forall b c, preserves f (cb b c)) ->
  (forall a d v,
      f (mkWorld a (with_fs (fun m => <[toFile := v]> m) d)) = f (mkWorld a d)) ->
  (forall a d, f (mkWorld a (with_transfer_started d)) = f (mkWorld a d)) ->
  preserves f (RNFS.downloadFile E toFile cb).
Proof.
  intros Hcb Hfs Htr. unfold RNFS.downloadFile.
  apply preserves_bind; [apply preserves_getDev | intros d].
  apply preserves_bind; [apply preserves_modDev; exact Htr | intros _].
  apply preserves_bind; [apply preserves_emit | intros _].
  apply preserves_bind.
  - destruct (RNFS.is2xx _); [|apply preserves_ret].
    apply preserves_bind; [|intros _; now apply stream_preserves].
    apply preserves_modDev. intros a d0. apply Hfs.
  - intros n. destruct (ending _); [apply preserves_ret | apply preserves_throw].
Qed.

Lemma reportProgress_preserves {X} (f : World -> X) (b c : Z) :
  (forall a d p, f (mkWorld (setDownloadProgress p a) d) = f (mkWorld a d)) ->
  preserves f (reportProgress b c).
Proof. intros H [a d]. apply H. Qed.

Lemma MODELS_PATH_neq_MODEL_PATH (E : Env) :
  InlineApp.MODELS_PATH E <> InlineApp.MODEL_PATH E.
Proof.
  unfold InlineApp.MODEL_PATH. intros H.
  apply (f_equal (@length N)) in H. rewrite length_app in H.
  assert (Hl : length (Js.lit "/" ++ InlineApp.MODEL_NAME) = 17%nat)
    by (vm_compute; reflexivity).
  rewrite Hl in H. lia.
Qed.

Lemma downloadModel_settles (E : Env) (w : World) :
  let run := InlineApp.downloadModel E w in
  downloading (app run.1.2) = false
  /\ ((run.1.1 = Ok true /\ downloadError (app run.1.2) = None)
      \/ (run.1.1 = Ok false /\ is_Some (downloadError (app run.1.2)))).
Proof.
  assert (Hdl : preserves (fun w => downloadError (app w))
                  (RNFS.downloadFile E (InlineApp.MODEL_PATH E) reportProgress)).
  { apply downloadFile_preserves;
      [ intros; apply reportProgress_preserves; intros [] ? ?; reflexivity
      | intros [] ? ?; reflexivity | intros [] ?; reflexivity ]. }
  rewrite downloadModel_unfold. unfold RNFS.exists_, RNFS.mkdir.
  mrun. cbn [app dev].
  destruct (existsFault E (InlineApp.MODELS_PATH E));
    [cbn; split; [reflexivity | right; split; [reflexivity | eauto]]|].
  cbn beta iota. cbn [app dev].
  destruct (fs (dev w) !! InlineApp.MODELS_PATH E); cbn [negb];
    [|destruct (mkdirFault E (InlineApp.MODELS_PATH E));
      [cbn; split; [reflexivity | right; split; [reflexivity | eauto]]|]];
    cbn beta iota; cbn [app dev];
    match goal with
    | |- context [RNFS.downloadFile E ?p reportProgress ?w0] =>
        pose proof (Hdl w0) as Hframe;
        destruct (RNFS.downloadFile E p reportProgress w0)
          as [[[result|e] w1] t1]
    end;
    cbn [fst snd app dev] in Hframe; cbn;
    try (split; [reflexivity | right; split; [reflexivity | eauto]]);
    (destruct (result.1 =? 200)%Z; cbn;
     [ split; [reflexivity | left; split; [reflexivity | exact Hframe]]
     | split; [reflexivity | right; split; [reflexivity | eauto]] ]).
Qed.

Lemma downloadModel_preserves {X} (E : Env) (f : World -> X) :
  (forall a d p, f (mkWorld (setDownloadProgress p a) d) = f (mkWorld a d)) ->
  (forall a d v, f (mkWorld (setDownloadError v a) d) = f (mkWorld a d)) ->
  (forall a d v, f (mkWorld (setDownloading v a) d) = f (mkWorld a d)) ->
  (forall a d g, f (mkWorld a (with_fs g d)) = f (mkWorld a d)) ->
  (forall a d, f (mkWorld a (with_transfer_started d)) = f (mkWorld a d)) ->
  preserves f (InlineApp.downloadModel E).
Proof.
  intros Hp He Hd Hfs Htr. rewrite downloadModel_unfold.
  unfold setDownloadProgressM, setDownloadErrorM, RNFS.exists_, RNFS.mkdir,
    when.
  repeat first
    [ apply downloadFile_preserves;
      [ intros; apply reportProgress_preserves; exact Hp
      | intros; apply Hfs | exact Htr ]
    | apply preserves_modApp; intros; first [apply Hp | apply He | apply Hd]
    | apply preserves_modDev; intros; apply Hfs
    | frame_step ].
Qed.

(** X13.  [downloadModel] never throws and always ends with [downloading]
    false.  It answers [true] with the error channel empty, or [false]
    with an error message set: the two always go together.  It leaves
    [modelReady], the message log, the input, the bridge and the message
    store as they were. *)
Theorem downloadModel_result (E : Env) (w : World) :
  let run := InlineApp.downloadModel E w in
  downloading (app run.1.2) = false
  /\ ((run.1.1 = Ok true /\ downloadError (app run.1.2) = None)
      \/ (run.1.1 = Ok false /\ is_Some (downloadError (app run.1.2))))
  /\ modelReady (app run.1.2) = modelReady (app w)
  /\ messages (app run.1.2) = messages (app w)
  /\ input (app run.1.2) = input (app w)
  /\ gi_isInitialized (dev run.1.2) = gi_isInitialized (dev w)
  /\ km_model (dev run.1.2) = km_model (dev w)
  /\ stored (dev run.1.2) = stored (dev w).
Proof.
  cbn zeta.
  destruct (downloadModel_settles E w) as [Hdl Hres].
  split; [exact Hdl|]. split; [exact Hres|].
  pose proof (downloadModel_preserves E
                (fun w => (modelReady (app w), messages (app w), input (app w),
                           gi_isInitialized (dev w), km_model (dev w),
                           stored (dev w)))) as Hframe.
  specialize (Hframe (fun _ _ _ => eq_refl) (fun _ _ _ => eq_refl)
                     (fun _ _ _ => eq_refl) (fun _ _ _ => eq_refl)
                     (fun _ _ => eq_refl) w).
  cbn beta in Hframe. injection Hframe as H1 H2 H3 H4 H5 H6.
  repeat split; assumption.
Qed.

(** X14.  [downloadModel] touches no file other than the models directory and
    the model file. *)
Theorem downloadModel_other_files (E : Env) (w : World) (p : Js.str) :
  p <> InlineApp.MODELS_PATH E ->
  p <> InlineApp.MODEL_PATH E ->
  fs (dev (InlineApp.downloadModel E w).1.2) !! p = fs (dev w) !! p.
Proof.
  intros Hdir Hfile.
  assert (Hdl : preserves (fun w => fs (dev w) !! p)
                  (RNFS.downloadFile E (InlineApp.MODEL_PATH E) reportProgress)).
  { apply downloadFile_preserves.
    - intros. apply reportProgress_preserves. reflexivity.
    - intros a d v. cbn [fs dev with_fs]. apply lookup_insert_ne. congruence.
    - reflexivity. }
  assert (Hmk : preserves (fun w => fs (dev w) !! p)
                  (RNFS.mkdir E (InlineApp.MODELS_PATH E))).
  { unfold RNFS.mkdir.
    apply preserves_bind; [apply preserves_emit | intros _].
    destruct (mkdirFault E _); [apply preserves_throw|].
    apply preserves_modDev. intros a d. cbn [fs dev with_fs].
    destruct (fs d !! InlineApp.MODELS_PATH E); [reflexivity|].
    apply lookup_insert_ne. congruence. }
  assert (H : preserves (fun w => fs (dev w) !! p) (InlineApp.downloadModel E)).
  { rewrite downloadModel_unfold.
    unfold setDownloadProgressM, setDownloadErrorM, RNFS.exists_, when.
    repeat first [ apply Hdl | apply Hmk | frame_step ]. }
  apply H.
Qed.

(** X15.  A response outside 2xx: nothing is written to the model file,
    [downloadModel] answers [false], and the error message names the
    status. *)
Theorem downloadModel_bad_status (E : Env) (w : World) :
  let tr := transferOf E (transfers (dev w)) in
  existsFault E (InlineApp.MODELS_PATH E) = None ->
  mkdirFault E (InlineApp.MODELS_PATH E) = None ->
  RNFS.is2xx (status tr) = false ->
  ending tr = Resolves ->
  let run := InlineApp.downloadModel E w in
  run.1.1 = Ok false
  /\ downloadError (app run.1.2)
     = Some (Js.lit "Download failed with status: " ++ Js.toStringZ (status tr))
  /\ fs (dev run.1.2) !! InlineApp.MODEL_PATH E
     = fs (dev w) !! InlineApp.MODEL_PATH E
  /\ transfers (dev run.1.2) = S (transfers (dev w)).
Proof.
  intros tr Hdir Hmk H2 Hend run. subst run.
  assert (Hne : (status tr =? 200)%Z = false).
  { apply Z.eqb_neq. intros H200. unfold RNFS.is2xx in H2.
    rewrite H200 in H2. discriminate. }
  rewrite downloadModel_unfold. unfold RNFS.exists_, RNFS.mkdir.
  rewrite Hdir, Hmk. unfold RNFS.downloadFile. mrun. cbn [app dev].
  destruct (fs (dev w) !! InlineApp.MODELS_PATH E) eqn:Hd;
    cbn [negb app dev transfers with_fs with_transfer_started];
    fold tr; rewrite H2, Hend; cbn [fst snd]; rewrite Hne; cbn;
    repeat split.
  rewrite Hd. apply lookup_insert_ne. apply MODELS_PATH_neq_MODEL_PATH.
Qed.

(** X16.  When the models directory is missing and cannot be created,
    [downloadModel] answers [false] with the message of the error, or
    "Download failed" when the thrown value is not an [Error]; no
    transfer is started and the file system is unchanged. *)
Theorem downloadModel_mkdir_failure (E : Env) (w : World) (e : exn) :
  existsFault E (InlineApp.MODELS_PATH E) = None ->
  fs (dev w) !! InlineApp.MODELS_PATH E = None ->
  mkdirFault E (InlineApp.MODELS_PATH E) = Some e ->
  let run := InlineApp.downloadModel E w in
  run.1.1 = Ok false
  /\ downloadError (app run.1.2)
     = Some (message_or (Js.lit "Download failed") e)
  /\ run.2 = [SetDownloadProgress (Js.ofZ 0); SetDownloadError None;
              RnfsMkdir (InlineApp.MODELS_PATH E);
              SetDownloadError (Some (message_or (Js.lit "Download failed") e))]
  /\ dev run.1.2 = dev w.
Proof.
  intros Hdir Hd Hmk run. subst run.
  rewrite downloadModel_unfold. unfold RNFS.exists_, RNFS.mkdir.
  rewrite Hdir, Hmk. mrun. cbn [app dev]. rewrite Hd. cbn.
  repeat split.
Qed.

(** ** Orchestration *)

Lemma initialize_outcome (E : Env) (path : Js.str) (w : World) :
  let run := GemmaInference.initialize E path w in
  match run.1.1 with
  | Ok _ =>
      gi_isInitialized (dev run.1.2) = true
      /\ is_Some (km_model (dev run.1.2))
  | Throw _ => gi_isInitialized (dev run.1.2) = false
  end.
Proof.
  unfold GemmaInference.initialize, GemmaModule.loadModel, RNFS.exists_.
  mrun. envsplit;
    repeat match goal with
           | |- context [if (?a =? 0) then _ else _] => destruct (a =? 0); cbn
           end;
    eauto.
Qed.

(** X17.  The inline [initModel], started with no error shown and the model not
    ready, never throws and never ends silently: afterwards either
    [modelReady] is set, no error is shown and the bridge is initialized
    with an engine loaded, or [modelReady] is still false and an error
    message is shown. *)
Theorem inline_initModel_outcome (E : Env) (w : World) :
  modelReady (app w) = false ->
  downloadError (app w) = None ->
  let run := InlineApp.initModel E w in
  run.1.1 = Ok tt
  /\ ((modelReady (app run.1.2) = true
       /\ downloadError (app run.1.2) = None
       /\ gi_isInitialized (dev run.1.2) = true
       /\ is_Some (km_model (dev run.1.2)))
      \/ (modelReady (app run.1.2) = false
          /\ is_Some (downloadError (app run.1.2)))).
Proof.
  intros Hready Herr.
  unfold InlineApp.initModel. mrun. rewrite checkModelExists_run.
  cbn [app dev].
  assert (Hact : forall w1,
    modelReady (app w1) = false -> downloadError (app w1) = None ->
    let '(r, w2, t2) := GemmaInference.initialize E (InlineApp.MODEL_PATH E) w1 in
    match r with
    | Ok _ => app w2 = app w1 /\ gi_isInitialized (dev w2) = true
              /\ is_Some (km_model (dev w2))
    | Throw _ => app w2 = app w1
    end).
  { intros w1 _ _.
    pose proof (initialize_outcome E (InlineApp.MODEL_PATH E) w1) as Ho.
    pose proof (initialize_preserves_app E (InlineApp.MODEL_PATH E) w1) as Ha.
    cbn zeta in Ho.
    destruct (GemmaInference.initialize E (InlineApp.MODEL_PATH E) w1)
      as [[[[]|e] w2] t2]; cbn in *; intuition. }
  match goal with
  | |- context [negb ?b] => destruct b
  end; cbn [negb].
  - rewrite MODEL_PATH_truthy. cbn [negb].
    specialize (Hact w Hready Herr).
    destruct (GemmaInference.initialize E (InlineApp.MODEL_PATH E) w)
      as [[[[]|e] w2] t2]; cbn.
    + destruct Hact as (Ha & Hi & Hm). rewrite Ha.
      split; [reflexivity|]. left. cbn. auto.
    + rewrite Hact. split; [reflexivity|]. right. cbn. split; [exact Hready|eauto].
  - destruct (downloadModel_settles E w) as [_ Hres].
    pose proof (downloadModel_preserves E (fun w => modelReady (app w))
                  (fun _ _ _ => eq_refl) (fun _ _ _ => eq_refl)
                  (fun _ _ _ => eq_refl) (fun _ _ _ => eq_refl)
                  (fun _ _ => eq_refl) w) as Hmr.
    cbn beta in Hmr. rewrite Hready in Hmr.
    destruct (InlineApp.downloadModel E w) as [[r w1] t1]. cbn [fst snd] in *.
    destruct Hres as [[-> He1] | [-> He1]]; cbn [negb].
    + rewrite MODEL_PATH_truthy. cbn [negb].
      specialize (Hact w1 Hmr He1).
      destruct (GemmaInference.initialize E (InlineApp.MODEL_PATH E) w1)
        as [[[[]|e] w2] t2]; cbn.
      * destruct Hact as (Ha & Hi & Hm). rewrite Ha.
        split; [reflexivity|]. left. cbn. auto.
      * rewrite Hact. split; [reflexivity|]. right. cbn.
        split; [exact Hmr | eauto].
    + cbn. split; [reflexivity|]. right. split; assumption.
Qed.

(** ** App.tsx: the download handler and the orchestrator *)

Lemma applyProgress_frame (ps : list DownloadProgress) (a : AppState) :
  modelReady (applyProgress ps a) = modelReady a
  /\ messages (applyProgress ps a) = messages a
  /\ input (applyProgress ps a) = input a
  /\ selectedImage (applyProgress ps a) = selectedImage a
  /\ loading (applyProgress ps a) = loading a
  /\ downloading (applyProgress ps a) = downloading a
  /\ downloadError (applyProgress ps a) = downloadError a.
Proof.
  revert a. induction ps as [|p ps IH]; intros a; cbn; [repeat split|].
  destruct (IH (setTotalBytes (p_totalBytes p)
                  (setBytesWritten (p_bytesWritten p)
                     (setDownloadProgress (progress p) a))))
    as (H1 & H2 & H3 & H4 & H5 & H6 & H7).
  unfold applyProgress in *. rewrite H1, H2, H3, H4, H5, H6, H7.
  repeat split.
Qed.

Lemma applyProgress_last (ps : list DownloadProgress) (a : AppState) :
  (downloadProgress (applyProgress ps a), bytesWritten (applyProgress ps a),
   totalBytes (applyProgress ps a))
  = match last ps with
    | Some p => (progress p, p_bytesWritten p, p_totalBytes p)
    | None => (downloadProgress a, bytesWritten a, totalBytes a)
    end.
Proof.
  revert a. induction ps as [|p ps IH]; intros a; [reflexivity|].
  cbn [applyProgress fold_left]. fold (applyProgress ps).
  rewrite IH. destruct ps as [|q ps]; [reflexivity|].
  change (last (p :: q :: ps)) with (last (q :: ps)).
  destruct (last (q :: ps)) eqn:Hl; [reflexivity|].
  apply last_None in Hl. discriminate.
Qed.

Section Download.
Variable E : Env.
Variable downloadModel : Device -> list DownloadProgress * outcome unit * Device.
Variable handleNetworkError : exn -> Js.str.

Let handleDownload := App.handleDownload downloadModel handleNetworkError.
Let initModel := App.initModel E downloadModel handleNetworkError.

Lemma callbacks_run (ps : list DownloadProgress) :
  forall w,
    fold_right
      (fun p k =>
         (setDownloadProgressM (progress p) ;;;
          modApp (setBytesWritten (p_bytesWritten p)) ;;;
          modApp (setTotalBytes (p_totalBytes p))) ;;; k)
      (ret tt) ps w
    = (Ok tt, mkWorld (applyProgress ps (app w)) (dev w),
       map (fun p => SetDownloadProgress (progress p)) ps).
Proof.
  induction ps as [|p ps IH]; intros w; cbn [fold_right].
  - cbn. now rewrite world_eta.
  - unfold bind at 1. unfold setDownloadProgressM. mrun. cbn [app dev].
    rewrite IH. reflexivity.
Qed.

Lemma handleDownload_run (w : World) :
  handleDownload w
  = (Ok (match (downloadModel (dev w)).1.2 with Ok _ => true | Throw _ => false end),
     mkWorld
       (setDownloading false
          (match (downloadModel (dev w)).1.2 with
           | Ok _ => applyProgress (downloadModel (dev w)).1.1
                                   (downloadStarted (app w))
           | Throw e =>
               setDownloadError (Some (handleNetworkError e))
                 (applyProgress (downloadModel (dev w)).1.1
                                (downloadStarted (app w)))
           end))
       (downloadModel (dev w)).2,
     [SetDownloadProgress (Js.ofZ 0); SetDownloadError None; CallDownload]
       ++ map (fun p => SetDownloadProgress (progress p))
              (downloadModel (dev w)).1.1
       ++ match (downloadModel (dev w)).1.2 with
          | Ok _ => []
          | Throw e => [SetDownloadError (Some (handleNetworkError e))]
          end).
Proof.
  unfold handleDownload, App.handleDownload, App.awaitDownloadModel.
  unfold setDownloadProgressM at 1, setDownloadErrorM.
  unfold try_catch.
  unfold bind at 1 2 3 4 5 6 7 8 9 10 11 12 13.
  unfold modApp at 1 2 3 4 5 6, emit at 1 2 3, getDev.
  cbn beta iota zeta. cbn [app dev].
  destruct (downloadModel (dev w)) as [[ps r] d']. cbn [fst snd].
  unfold bind at 1 2 3. unfold modDev. cbn beta iota zeta. cbn [app dev].
  rewrite callbacks_run. cbn [app dev].
  destruct r as [[]|e]; cbn; rewrite ?app_nil_r; reflexivity.
Qed.

(** X18.  [handleDownload] never throws.  It answers [true], with no error
    shown, exactly when the imported [downloadModel] returns, and
    [false], with the message [handleNetworkError] makes of the error,
    when it throws.  Either way [downloading] ends false, the device is
    as [downloadModel] left it, the three progress cells hold the last
    progress value reported (or 0 when none was), and [modelReady] and
    the message log are untouched. *)
Theorem handleDownload_result (w : World) :
  let dl := downloadModel (dev w) in
  let run := handleDownload w in
  match dl.1.2 with
  | Ok _ => run.1.1 = Ok true /\ downloadError (app run.1.2) = None
  | Throw e =>
      run.1.1 = Ok false
      /\ downloadError (app run.1.2) = Some (handleNetworkError e)
  end
  /\ downloading (app run.1.2) = false
  /\ dev run.1.2 = dl.2
  /\ (downloadProgress (app run.1.2), bytesWritten (app run.1.2),
      totalBytes (app run.1.2))
     = match last dl.1.1 with
       | Some p => (progress p, p_bytesWritten p, p_totalBytes p)
       | None => (Js.ofZ 0, 0%Z, 0%Z)
       end
  /\ modelReady (app run.1.2) = modelReady (app w)
  /\ messages (app run.1.2) = messages (app w).
Proof.
  cbn zeta. rewrite handleDownload_run. cbn [fst snd app dev].
  pose proof (applyProgress_frame (downloadModel (dev w)).1.1
                (downloadStarted (app w))) as (Hr & Hm & _ & _ & _ & _ & He).
  pose proof (applyProgress_last (downloadModel (dev w)).1.1
                (downloadStarted (app w))) as Hl.
  destruct (downloadModel (dev w)) as [[ps r] d']. cbn [fst snd] in *.
  destruct r as [[]|e]; cbn;
    (split; [split; [reflexivity | first [exact He | reflexivity]]|]);
    (split; [reflexivity|]); (split; [reflexivity|]);
    (split; [exact Hl|]); (split; [exact Hr | exact Hm]).
Qed.

(** X19.  [initModel], started with no error shown and the model not ready,
    never throws and never ends silently, whatever the imported functions
    do: afterwards either [modelReady] is set, no error is shown and the
    bridge is initialized with an engine loaded, or [modelReady] is false
    and an error message is shown. *)
Theorem initModel_outcome (w : World) :
  modelReady (app w) = false ->
  downloadError (app w) = None ->
  let run := initModel w in
  run.1.1 = Ok tt
  /\ ((modelReady (app run.1.2) = true
       /\ downloadError (app run.1.2) = None
       /\ gi_isInitialized (dev run.1.2) = true
       /\ is_Some (km_model (dev run.1.2)))
      \/ (modelReady (app run.1.2) = false
          /\ is_Some (downloadError (app run.1.2)))).
Proof.
  intros Hready Herr.
  assert (Hact : forall w1,
    let '(r, w2, t2) := GemmaInference.initialize E (InlineApp.MODEL_PATH E) w1 in
    match r with
    | Ok _ => app w2 = app w1 /\ gi_isInitialized (dev w2) = true
              /\ is_Some (km_model (dev w2))
    | Throw _ => app w2 = app w1
    end).
  { intros w1.
    pose proof (initialize_outcome E (InlineApp.MODEL_PATH E) w1) as Ho.
    pose proof (initialize_preserves_app E (InlineApp.MODEL_PATH E) w1) as Ha.
    cbn zeta in Ho.
    destruct (GemmaInference.initialize E (InlineApp.MODEL_PATH E) w1)
      as [[[[]|e] w2] t2]; cbn in *; intuition. }
  pose proof (handleDownload_run w) as Hhd.
  pose proof (applyProgress_frame (downloadModel (dev w)).1.1
                (downloadStarted (app w))) as (Hr & _ & _ & _ & _ & _ & He).
  unfold handleDownload in Hhd.
  unfold initModel, App.initModel, App.checkModelExists, App.MODEL_PATH.
  mrun. rewrite checkModelExists_run. cbn [app dev].
  match goal with
  | |- context [negb ?b] => destruct b
  end; cbn [negb].
  - rewrite MODEL_PATH_truthy. cbn [negb].
    specialize (Hact w).
    destruct (GemmaInference.initialize E (InlineApp.MODEL_PATH E) w)
      as [[[[]|e] w2] t2]; cbn.
    + destruct Hact as (Ha & Hi & Hm). rewrite Ha.
      split; [reflexivity|]. left. cbn. auto.
    + split; [reflexivity|]. right. cbn. eauto.
  - rewrite Hhd.
    destruct (downloadModel (dev w)) as [[ps r] d']. cbn [fst snd] in *.
    destruct r as [[]|e]; cbn [negb].
    + rewrite MODEL_PATH_truthy. cbn [negb].
      match goal with
      | |- context [GemmaInference.initialize E ?p ?w1] =>
          specialize (Hact w1);
          destruct (GemmaInference.initialize E p w1) as [[[[]|e] w2] t2]
      end; cbn.
      * destruct Hact as (Ha & Hi & Hm). rewrite Ha.
        split; [reflexivity|]. left. cbn. rewrite He. cbn. auto.
      * split; [reflexivity|]. right. cbn. eauto.
    + cbn. split; [reflexivity|]. right. rewrite Hr. cbn. eauto.
Qed.

(** X20.  When the artifact is absent and the download fails, [initModel]
    stops there: the run ends Failed with the message made from the
    error, [GemmaInference.initialize] is not called, no engine, session
    or decoder call is logged, and [modelReady] is as before. *)
Theorem initModel_download_failure (w : World) (e : exn) :
  (App.checkModelExists E w).1.1 = Ok false ->
  (downloadModel (dev w)).1.2 = Throw e ->
  let run := initModel w in
  run.1.1 = Ok tt
  /\ phases run.2
     = [Uninitialized; CheckingArtifact; Downloading;
        Failed (handleNetworkError e)]
  /\ Forall (fun ev => forall p, ev <> CallInitialize p) run.2
  /\ engineIdle run.2
  /\ modelReady (app run.1.2) = modelReady (app w)
  /\ downloadError (app run.1.2) = Some (handleNetworkError e)
  /\ dev run.1.2 = (downloadModel (dev w)).2.
Proof.
  unfold App.checkModelExists. rewrite checkModelExists_run. cbn [fst].
  intros [= Hc] Hdl.
  pose proof (handleDownload_run w) as Hhd. unfold handleDownload in Hhd.
  pose proof (applyProgress_frame (downloadModel (dev w)).1.1
                (downloadStarted (app w))) as (Hr & _).
  unfold initModel, App.initModel, App.checkModelExists, App.MODEL_PATH.
  mrun. rewrite checkModelExists_run, Hc. cbn [negb].
  rewrite Hhd, Hdl.
  destruct (downloadModel (dev w)) as [[ps r] d']. cbn [fst snd] in *.
  cbn. split; [reflexivity|]. split; [|split; [|split]].
  - unfold phases. rewrite !app_nil_r.
    assert (Hps : omap phase_of
                    (map (fun p => SetDownloadProgress (progress p)) ps) = []).
    { clear. induction ps as [|p ps IH]; [reflexivity | exact IH]. }
    cbn [omap list_omap phase_of]. rewrite omap_app, Hps. reflexivity.
  - rewrite !app_nil_r. repeat (constructor; [discriminate|]).
    apply Forall_app. split.
    + clear. induction ps; constructor; [discriminate | assumption].
    + repeat constructor; discriminate.
  - unfold engineIdle. rewrite !app_nil_r. repeat (constructor; [exact I|]).
    apply Forall_app. split.
    + clear. induction ps; constructor; [exact I | assumption].
    + repeat constructor.
  - rewrite Hr. repeat split.
Qed.

End Download.

(** ** App.tsx: sending *)

Lemma generate_blank_run (E : Env) (w : World) (prompt : Js.str)
      (imagePath : option Js.str) :
  Js.trim prompt = [] ->
  exists e, GemmaInference.generate E prompt imagePath w = (Throw e, w, []).
Proof.
  intros Hblank. unfold GemmaInference.generate. mrun. rewrite Hblank.
  destruct (gi_isInitialized (dev w)); eexists; reflexivity.
Qed.

Section Send.
Variable E : Env.
Variable saveStoredMessages :
  list Message -> option (list Message) -> outcome unit * option (list Message).

Let sendMessage := App.sendMessage E saveStoredMessages.

Ltac unfold_send :=
  unfold sendMessage, App.sendMessage, App.saveMessages, dateNow, onStorage.

Lemma accepted_guards (w : World) :
  accepted w = true ->
  negb (Js.truthy (Js.trim (input (app w))))
    && negb (App.truthyOpt (selectedImage (app w))) = false
  /\ modelReady (app w) = true.
Proof.
  unfold accepted. intros H. apply andb_true_iff in H as [Hin Hready].
  split; [|exact Hready]. rewrite <- negb_orb, Hin. reflexivity.
Qed.

(** X21.  [sendMessage] does nothing at all unless the model is ready and there
    is a non-blank text or a picture to send: the world is unchanged, no
    clock is read and nothing is logged. *)
Theorem sendMessage_rejected (w : World) :
  accepted w = false ->
  sendMessage w = (Ok tt, w, []).
Proof.
  unfold accepted. intros H. unfold_send. mrun.
  destruct (Js.truthy (Js.trim (input (app w))));
    destruct (App.truthyOpt (selectedImage (app w)));
    destruct (modelReady (app w)); try discriminate; reflexivity.
Qed.

(** X22.  A request the engine answers: [sendMessage] returns normally, the log
    of messages is the previous log followed by the user message and by
    the reply, whose text is the engine's answer and whose id is made
    from the second clock reading; the input and the picked image are
    cleared and [loading] is false again.  This holds even when storing
    the final log fails: that error is swallowed. *)
Theorem sendMessage_reply (w : World) s r w3 t3 :
  accepted w = true ->
  saveStoredMessages (messages (app w) ++ [userMessage E w]) (stored (dev w))
    = (Ok tt, s) ->
  GemmaInference.generate E (input (app w)) (selectedImage (app w))
                          (atGenerate E w s)
    = (Ok r, w3, t3) ->
  let run := sendMessage w in
  run.1.1 = Ok tt
  /\ messages (app run.1.2)
     = messages (app w)
       ++ [userMessage E w;
           mkMessage (Js.toString (now E (S (clockReads (dev w))) + 1))
                     r ai None]
  /\ input (app run.1.2) = []
  /\ selectedImage (app run.1.2) = None
  /\ loading (app run.1.2) = false
  /\ modelReady (app run.1.2) = true
  /\ run.2 = t3.
Proof.
  intros Hacc Hsave Hgen.
  destruct (accepted_guards w Hacc) as [Hguard Hready].
  pose proof (generate_preserves_app E (input (app w)) (selectedImage (app w))
                (atGenerate E w s)) as Happ.
  pose proof (generate_preserves_clock E (input (app w))
                (selectedImage (app w)) (atGenerate E w s)) as Hclock.
  rewrite Hgen in Happ, Hclock. cbn [fst snd] in Happ, Hclock.
  unfold_send. mrun. rewrite Hguard, Hready.
  cbn [negb app dev stored with_clock_read].
  unfold userMessage in Hsave. rewrite Hsave. cbn [app dev].
  unfold atGenerate, userMessage in Hgen. rewrite Hgen. cbn [app dev].
  match goal with
  | |- context [saveStoredMessages ?l ?st] =>
      destruct (saveStoredMessages l st) as [[[]|e] s']
  end;
    cbn; rewrite Happ; cbn; cbn in Hclock; rewrite Hclock, <- app_assoc,
    ?app_nil_r; cbn; repeat split; try reflexivity; assumption.
Qed.

(** X23.  A picture sent with blank text gets no answer.  The guards of
    [sendMessage] let it through, the user message with the picture is
    appended and stored, and [GemmaInference.generate] then refuses the
    blank prompt before calling the native module: nothing is logged, no
    reply is appended, and [loading] is false again. *)
Theorem sendMessage_picture_without_text (w : World) s :
  modelReady (app w) = true ->
  Js.trim (input (app w)) = [] ->
  App.truthyOpt (selectedImage (app w)) = true ->
  saveStoredMessages (messages (app w) ++ [userMessage E w]) (stored (dev w))
    = (Ok tt, s) ->
  sendMessage w
  = (Ok tt,
     mkWorld (setLoading false (app (atGenerate E w s)))
             (dev (atGenerate E w s)),
     [])
  /\ image (userMessage E w) = selectedImage (app w).
Proof.
  intros Hready Hblank Himg Hsave.
  destruct (generate_blank_run E (atGenerate E w s) (input (app w))
              (selectedImage (app w)) Hblank) as [e Hgen].
  split.
  - unfold_send. mrun. rewrite Hblank, Himg, Hready.
    cbn [negb andb Js.truthy app dev stored with_clock_read].
    unfold userMessage in Hsave. rewrite Hsave. cbn [app dev].
    unfold atGenerate, userMessage in Hgen. rewrite Hgen. reflexivity.
  - unfold userMessage, App.orUndefined. cbn. now rewrite Himg.
Qed.

End Send.

(** ** App.tsx with the message store of messageUtils.ts *)

Lemma saveMessages_run
      (setItem : list Message -> option (list Message)
                 -> outcome unit * option (list Message))
      (l : list Message) (st : option (list Message)) :
  MessageUtils.saveMessages setItem l st = (Ok tt, (setItem l st).2).
Proof.
  unfold MessageUtils.saveMessages.
  destruct (setItem l st) as [[[]|e] s']; reflexivity.
Qed.

Section Storage.
Variable E : Env.
Variable setItem :
  list Message -> option (list Message) -> outcome unit * option (list Message).

Let sendMessage := App.sendMessage E (MessageUtils.saveMessages setItem).

(** X24.  With the message store of [messageUtils.ts], a failing storage
    never disturbs [sendMessage]: whatever [AsyncStorage.setItem] does,
    [sendMessage] returns normally; when the guards pass, the engine is
    asked all the same, the message log afterwards is the previous log
    followed by the user message and, if the engine answered, by the
    reply, the input and the picked image are cleared and [loading] is
    false again. *)
Theorem sendMessage_storage_failure_ignored (w : World) :
  let log := messages (app w) ++ [userMessage E w] in
  let s := (setItem log (stored (dev w))).2 in
  let gen := GemmaInference.generate E (input (app w)) (selectedImage (app w))
                                     (atGenerate E w s) in
  let run := sendMessage w in
  run.1.1 = Ok tt
  /\ (accepted w = false -> run = (Ok tt, w, []))
  /\ (accepted w = true ->
      messages (app run.1.2)
      = match gen.1.1 with
        | Ok response =>
            log ++ [mkMessage
                      (Js.toString (now E (S (clockReads (dev w))) + 1))
                      response ai None]
        | Throw _ => log
        end
      /\ input (app run.1.2) = []
      /\ selectedImage (app run.1.2) = None
      /\ loading (app run.1.2) = false
      /\ run.2 = gen.2).
Proof.
  cbn zeta.
  set (s := (setItem (messages (app w) ++ [userMessage E w])
                     (stored (dev w))).2).
  assert (Hsave : MessageUtils.saveMessages setItem
                    (messages (app w) ++ [userMessage E w]) (stored (dev w))
                  = (Ok tt, s)) by apply saveMessages_run.
  destruct (accepted w) eqn:Hacc.
  - destruct (accepted_guards w Hacc) as [Hguard Hready].
    pose proof (generate_preserves_app E (input (app w))
                  (selectedImage (app w)) (atGenerate E w s)) as Happ.
    pose proof (generate_preserves_clock E (input (app w))
                  (selectedImage (app w)) (atGenerate E w s)) as Hclock.
    destruct (GemmaInference.generate E (input (app w))
                (selectedImage (app w)) (atGenerate E w s))
      as [[[response|e] w3] t3] eqn:Hgen; cbn [fst snd] in Happ, Hclock |- *.
    + assert (Hrun :
        sendMessage w
        = (Ok tt,
           mkWorld
             (setLoading false
                (setMessages
                   ((messages (app w) ++ [userMessage E w])
                      ++ [mkMessage
                            (Js.toString (now E (S (clockReads (dev w))) + 1))
                            response ai None])
                   (app (atGenerate E w s))))
             (with_stored
                (setItem
                   ((messages (app w) ++ [userMessage E w])
                      ++ [mkMessage
                            (Js.toString (now E (S (clockReads (dev w))) + 1))
                            response ai None])
                   (stored (dev w3))).2
                (with_clock_read (dev w3))),
           t3)).
      { unfold sendMessage, App.sendMessage, App.saveMessages, dateNow,
          onStorage.
        mrun. rewrite Hguard, Hready.
        cbn [negb app dev stored with_clock_read].
        unfold userMessage in Hsave. rewrite Hsave. cbn [app dev].
        unfold atGenerate, userMessage in Hgen. rewrite Hgen. cbn [app dev].
        rewrite saveMessages_run. cbn. cbn in Hclock.
        rewrite Happ, Hclock, ?app_nil_r. reflexivity. }
      rewrite Hrun. cbn. split; [reflexivity|]. split; [discriminate|].
      intros _. repeat split.
    + unfold sendMessage.
      rewrite (sendMessage_generation_fails
                 E (MessageUtils.saveMessages setItem) w s e w3 t3
                 Hacc Hsave Hgen).
      cbn. split; [reflexivity|]. split; [discriminate|].
      intros _. repeat split.
  - assert (Hrun : sendMessage w = (Ok tt, w, [])).
    { unfold accepted in Hacc.
      unfold sendMessage, App.sendMessage, App.saveMessages, dateNow,
        onStorage.
      mrun.
      destruct (Js.truthy (Js.trim (input (app w))));
        destruct (App.truthyOpt (selectedImage (app w)));
        destruct (modelReady (app w)); try discriminate; reflexivity. }
    rewrite Hrun. split; [reflexivity|]. split; [reflexivity | discriminate].
Qed.

End Storage.

(** ** The inline component: the chat list *)

Lemma find_map_keeping_id (a : Js.str) (f : Chats.Chat -> Chats.Chat)
      (chats : list Chats.Chat) :
  (forall c, Chats.chatId (f c) = Chats.chatId c) ->
  find (Chats.isActive a) (map f chats)
  = option_map f (find (Chats.isActive a) chats).
Proof.
  intros Hid. induction chats as [|c chats IH]; [reflexivity|].
  cbn. unfold Chats.isActive at 1 3. rewrite Hid.
  destruct (bool_decide (Chats.chatId c = a)); [reflexivity | exact IH].
Qed.

Lemma isActive_true (a : Js.str) (c : Chats.Chat) :
  Chats.isActive a c = true <-> Chats.chatId c = a.
Proof. unfold Chats.isActive. apply bool_decide_eq_true. Qed.

Lemma isActive_rebuilt (x : Js.str) (c : Chats.Chat) ttl ms :
  Chats.isActive x (Chats.mkChat (Chats.chatId c) ttl ms) = Chats.isActive x c.
Proof. reflexivity. Qed.

Lemma find_active_is_active (a : Js.str) (chats : list Chats.Chat) c :
  find (Chats.isActive a) chats = Some c -> Chats.isActive a c = true.
Proof. intros H. now apply find_some in H as [_ H]. Qed.

(** X25.  What the active chat shows after a message is sent.  After the user
    message is appended the active chat shows its previous messages
    followed by it, and after the reply is appended, followed by both, in
    that order.  When no chat has the active id, both updates change
    nothing and the messages are shown nowhere. *)
Theorem chats_send_shows_messages
        (chats : list Chats.Chat) (a input : Js.str) (userMsg aiMsg : Message) :
  let updated := Chats.updatedChats chats a input userMsg in
  let final := Chats.finalChats updated a aiMsg in
  Chats.activeMessages updated (Some a)
  = match find (Chats.isActive a) chats with
    | Some c => Chats.chatMessages c ++ [userMsg]
    | None => []
    end
  /\ Chats.activeMessages final (Some a)
     = match find (Chats.isActive a) chats with
       | Some c => Chats.chatMessages c ++ [userMsg; aiMsg]
       | None => []
       end
  /\ (find (Chats.isActive a) chats = None -> final = chats).
Proof.
  cbn zeta. unfold Chats.activeMessages, Chats.finalChats, Chats.updatedChats.
  rewrite !find_map_keeping_id
    by (intros c; destruct (Chats.isActive a c); reflexivity).
  destruct (find (Chats.isActive a) chats) as [c|] eqn:Hfind; cbn.
  - apply find_active_is_active in Hfind. rewrite Hfind.
    rewrite isActive_rebuilt, Hfind. cbn.
    rewrite <- app_assoc. repeat split. discriminate.
  - repeat split. intros _.
    assert (Hnone : forall c, In c chats -> Chats.isActive a c = false).
    { intros c Hin. destruct (Chats.isActive a c) eqn:Hc; [|reflexivity].
      now apply (find_none _ _ Hfind) in Hin; congruence. }
    clear Hfind. induction chats as [|c chats IH]; [reflexivity|].
    cbn. rewrite (Hnone c) by now left. cbn.
    rewrite (Hnone c) by now left. f_equal.
    apply IH. intros c' Hin. apply Hnone. now right.
Qed.

(** X26.  Sending a message keeps the chats in place, with their ids, and does
    not change what any other chat shows. *)
Theorem chats_send_keeps_others
        (chats : list Chats.Chat) (a b input : Js.str) (userMsg aiMsg : Message) :
  b <> a ->
  let final :=
    Chats.finalChats (Chats.updatedChats chats a input userMsg) a aiMsg in
  map Chats.chatId final = map Chats.chatId chats
  /\ Chats.activeMessages final (Some b) = Chats.activeMessages chats (Some b)
  /\ (forall c, In c chats -> Chats.chatId c <> a -> In c final).
Proof.
  intros Hne. cbn zeta. unfold Chats.finalChats, Chats.updatedChats.
  split; [|split].
  - rewrite !map_map. apply map_ext. intros c.
    destruct (Chats.isActive a c) eqn:Hc; [|now rewrite Hc].
    now rewrite isActive_rebuilt, Hc.
  - unfold Chats.activeMessages.
    rewrite !find_map_keeping_id
      by (intros c; destruct (Chats.isActive a c); reflexivity).
    destruct (find (Chats.isActive b) chats) as [c|] eqn:Hfind;
      [|reflexivity].
    apply find_active_is_active, isActive_true in Hfind.
    assert (Hf : Chats.isActive a c = false).
    { unfold Chats.isActive. apply bool_decide_eq_false_2. congruence. }
    cbn. rewrite Hf. now rewrite Hf.
  - intros c Hin Hc. apply in_map_iff. exists c. split.
    + destruct (Chats.isActive a c) eqn:Hf; [|reflexivity].
      apply isActive_true in Hf. contradiction.
    + apply in_map_iff. exists c. split; [|exact Hin].
      destruct (Chats.isActive a c) eqn:Hf; [|reflexivity].
      apply isActive_true in Hf. contradiction.
Qed.

(** X27.  Titles: the reply never changes a title; the user message changes
    the title only of an active chat that has no messages yet, and then
    to the first 30 code units of the input. *)
Theorem chats_send_titles
        (chats : list Chats.Chat) (a input : Js.str) (userMsg aiMsg : Message) :
  let updated := Chats.updatedChats chats a input userMsg in
  map Chats.title (Chats.finalChats updated a aiMsg) = map Chats.title updated
  /\ Forall2
       (fun c c' =>
          (Chats.title c' = Chats.title c
           \/ (Chats.chatId c = a /\ Chats.chatMessages c = []
               /\ Chats.title c' = firstn 30 input))
          /\ (length (Chats.title c') <= max 30 (length (Chats.title c)))%nat)
       chats updated.
Proof.
  cbn zeta. unfold Chats.finalChats, Chats.updatedChats. split.
  - rewrite map_map. apply map_ext. intros c.
    destruct (Chats.isActive a _); reflexivity.
  - induction chats as [|c chats IH]; cbn; constructor; [|exact IH].
    destruct (Chats.isActive a c) eqn:Hc; cbn; [|split; [now left | lia]].
    apply isActive_true in Hc.
    destruct (Chats.chatMessages c) as [|m ms] eqn:Hm; cbn.
    + split; [right; repeat split; assumption|].
      rewrite length_take. lia.
    + split; [now left | lia].
Qed.

Lemma updatedChats_inactive (chats : list Chats.Chat) (a input : Js.str)
      (userMsg : Message) :
  Forall (fun c => Chats.chatId c <> a) chats ->
  Chats.updatedChats chats a input userMsg = chats
  /\ find (Chats.isActive a) chats = None.
Proof.
  induction 1 as [|c chats Hc _ [IHu IHf]]; [split; reflexivity|].
  assert (Hf : Chats.isActive a c = false)
    by (unfold Chats.isActive; now apply bool_decide_eq_false_2).
  unfold Chats.updatedChats in *. cbn. rewrite Hf, IHu. split; [reflexivity|].
  exact IHf.
Qed.

(** X28.  [createNewChat] makes the new chat active at once, but puts it in
    the list only when the storage accepts the new list.  When it does,
    the new chat is first and shows nothing, and a message sent next
    lands in it: it shows exactly that message and is titled with the
    first 30 code units of the input, the chats that were there keeping
    their place after it.  When the storage rejects, or has not settled
    yet, the list is the previous one, and unless an earlier chat has the
    same id the message sent next changes no chat and is shown
    nowhere. *)
Theorem createNewChat_then_send
        (s : Chats.State) (t : N) (stored : bool) (input : Js.str)
        (userMsg : Message) :
  let s' := Chats.createNewChat t stored s in
  let a := Js.toString t in
  let updated := Chats.updatedChats (Chats.chats s') a input userMsg in
  Chats.activeChat s' = Some a
  /\ (stored = true ->
      Chats.activeMessages (Chats.chats s') (Chats.activeChat s') = []
      /\ Chats.activeMessages updated (Some a) = [userMsg]
      /\ exists rest,
           updated = Chats.mkChat a (firstn 30 input) [userMsg] :: rest
           /\ map Chats.chatId rest = map Chats.chatId (Chats.chats s))
  /\ (stored = false ->
      Chats.chats s' = Chats.chats s
      /\ (Forall (fun c => Chats.chatId c <> a) (Chats.chats s) ->
          updated = Chats.chats s
          /\ Chats.activeMessages updated (Chats.activeChat s') = [])).
Proof.
  cbn zeta. unfold Chats.createNewChat, Chats.saveChats.
  destruct stored; cbn [Chats.chats Chats.activeChat Chats.chatId].
  - split; [reflexivity|]. split; [intros _ | discriminate].
    unfold Chats.activeMessages.
    cbn [Chats.updatedChats map find Chats.chatId].
    assert (Hact : forall ttl ms,
               Chats.isActive (Js.toString t)
                 (Chats.mkChat (Js.toString t) ttl ms) = true)
      by (intros; apply isActive_true; reflexivity).
    rewrite !Hact.
    cbn [Chats.chatMessages Chats.chatId Chats.title length app].
    rewrite ?Hact. cbn. repeat split.
    eexists. split; [reflexivity|].
    rewrite map_map. apply map_ext. intros c.
    destruct (Chats.isActive (Js.toString t) c); reflexivity.
  - split; [reflexivity|]. split; [discriminate | intros _].
    split; [reflexivity|]. intros Hfresh.
    destruct (updatedChats_inactive (Chats.chats s) (Js.toString t) input
                userMsg Hfresh) as [Hu Hf].
    rewrite Hu. split; [reflexivity|].
    unfold Chats.activeMessages. now rewrite Hf.
Qed.

(** * The further properties at concrete inputs *)

Lemma generateWithImage_rejects_early_witness :
  km_model (dev (Sample.world0 Sample.files)) = None
  /\ GemmaModule.generateWithImage Sample.env (Js.lit "What is this?")
       Sample.picture (Sample.world0 Sample.files)
     = (Ok (Reject (Js.lit "NO_MODEL") (Js.lit "Model not loaded")),
        Sample.world0 Sample.files, []).
Proof.
  split; [reflexivity|].
  apply (proj1 (generateWithImage_rejects_early
                  Sample.env (Sample.world0 Sample.files)
                  (Js.lit "What is this?") Sample.picture)).
  reflexivity.
Defined.

Lemma generateWithImage_closes_session_witness :
  let t := (GemmaModule.generateWithImage
              Sample.envEngineFault (Js.lit "What is this?") Sample.picture
              Sample.readyWorld).2 in
  SessionCreate ∈ t /\ SessionClose ∈ t.
Proof.
  cbn zeta.
  assert (Hcreate :
    SessionCreate ∈ (GemmaModule.generateWithImage
                       Sample.envEngineFault (Js.lit "What is this?")
                       Sample.picture Sample.readyWorld).2)
    by (vm_compute; repeat constructor).
  split; [exact Hcreate|].
  destruct (generateWithImage_closes_session
              Sample.envEngineFault Sample.readyWorld
              (Js.lit "What is this?") Sample.picture Hcreate)
    as [[m Hm] | Hclose]; [|exact Hclose].
  exfalso. vm_compute in Hm. discriminate Hm.
Defined.

Lemma normalizePath_idempotent_witness :
  Js.startsWith (Js.lit "file:///") Sample.picture = false
  /\ GemmaInference.normalizePath Sample.picture = Sample.picture.
Proof.
  split; [reflexivity|].
  destruct (normalizePath_idempotent Sample.picture) as (_ & _ & Hplain & _).
  apply Hplain. reflexivity.
Defined.

Lemma modelFile_nonEmpty :
  nonEmptyFile (Sample.world0 Sample.files) Sample.modelFile.
Proof. exists 1000. split; [vm_compute; reflexivity | discriminate]. Qed.

Lemma initialize_on_file_witness :
  existsFault Sample.env Sample.modelFile = None
  /\ nonEmptyFile (Sample.world0 Sample.files) Sample.modelFile
  /\ (let run := GemmaInference.initialize Sample.env Sample.modelFile
                   (Sample.world0 Sample.files) in
      run.1.1 = Ok tt
      /\ gi_isInitialized (dev run.1.2) = true
      /\ km_model (dev run.1.2) = Some 0%nat).
Proof.
  split; [reflexivity|]. split; [exact modelFile_nonEmpty|].
  destruct (initialize_on_file
              Sample.env (Sample.world0 Sample.files) Sample.modelFile
              eq_refl modelFile_nonEmpty) as (_ & _ & _ & _ & Hloaded).
  exact Hloaded.
Defined.

Lemma initialize_strands_engine_witness :
  km_model (dev Sample.readyWorld) = Some 0%nat
  /\ neverCloses (GemmaInference.initialize Sample.env Sample.modelFile
                    Sample.readyWorld).2.
Proof.
  split; [reflexivity|].
  exact (proj1 (initialize_strands_engine
                  Sample.env Sample.readyWorld Sample.modelFile 0%nat eq_refl)).
Defined.

Lemma readyWorld_loaded : is_Some (km_model (dev Sample.readyWorld)).
Proof. exists 0%nat. reflexivity. Qed.

Lemma bridge_keeps_loaded_witness :
  bridgeLoaded Sample.readyWorld
  /\ bridgeLoaded (GemmaInference.unload Sample.env Sample.readyWorld).1.2.
Proof.
  assert (Hloaded : bridgeLoaded Sample.readyWorld)
    by (intros _; exact readyWorld_loaded).
  split; [exact Hloaded|].
  destruct (bridge_keeps_loaded
              Sample.env Sample.readyWorld Sample.modelFile (Js.lit "hello")
              None Hloaded) as (_ & _ & Hunload).
  exact Hunload.
Defined.

Lemma generate_text_witness :
  gi_isInitialized (dev Sample.readyWorld) = true
  /\ Js.truthy (Js.trim (Js.lit "hello")) = true
  /\ GemmaInference.generate Sample.env (Js.lit "hello") None Sample.readyWorld
     = (Ok (Js.lit "Hello!"), Sample.readyWorld,
        [NativeGenerate (Js.lit "hello"); GenerateResponse (Js.lit "hello")]).
Proof.
  split; [reflexivity|]. split; [reflexivity|].
  exact (generate_text Sample.env Sample.readyWorld (Js.lit "hello") None
           eq_refl readyWorld_loaded eq_refl eq_refl).
Defined.

Lemma generate_image_not_found_witness :
  let path := Js.lit "/sdcard/Pictures/dog.png" in
  fs (dev Sample.readyWorld) !! path = None
  /\ GemmaInference.generate Sample.env (Js.lit "What is this?") (Some path)
                             Sample.readyWorld
     = (Throw (JsError (Js.lit "Generation failed: "
                          ++ Js.lit "Image not found at: " ++ path)),
        Sample.readyWorld, []).
Proof.
  cbn zeta.
  assert (Hmissing :
    fs (dev Sample.readyWorld) !! Js.lit "/sdcard/Pictures/dog.png" = None)
    by (vm_compute; reflexivity).
  split; [exact Hmissing|].
  exact (generate_image_not_found
           Sample.env Sample.readyWorld (Js.lit "What is this?")
           (Js.lit "/sdcard/Pictures/dog.png")
           eq_refl eq_refl eq_refl eq_refl Hmissing).
Defined.

Lemma picture_on_device :
  is_Some (fs (dev Sample.readyWorld) !! Sample.picture).
Proof. exists (File 2048). vm_compute. reflexivity. Qed.

Lemma generate_with_image_witness :
  let run := GemmaInference.generate Sample.env (Js.lit "What is this?")
               (Some Sample.picture) Sample.readyWorld in
  gi_isInitialized (dev Sample.readyWorld) = true
  /\ is_Some (fs (dev Sample.readyWorld) !! Sample.picture)
  /\ engineVision Sample.env (Js.lit "What is this?") = VReply (Js.lit "A cat.")
  /\ run.1.1 = Ok (Js.lit "A cat.")
  /\ nextBitmap (dev Sample.readyWorld) ∉ liveBitmaps (dev run.1.2).
Proof.
  cbn zeta.
  split; [reflexivity|]. split; [exact picture_on_device|].
  split; [reflexivity|].
  destruct (generate_with_image
              Sample.env Sample.readyWorld (Js.lit "What is this?")
              Sample.picture (Js.lit "A cat.")
              eq_refl readyWorld_loaded eq_refl eq_refl eq_refl
              picture_on_device picture_on_device eq_refl eq_refl)
    as (Hreply & _ & Hfreed & _).
  split; [exact Hreply | exact Hfreed].
Defined.

Lemma unload_close_failure_witness :
  km_model (dev Sample.readyWorld) = Some 0%nat
  /\ closeFault Scenario.envCloseFault = Some (Js.lit "close failed")
  /\ GemmaInference.unload Scenario.envCloseFault Sample.readyWorld
     = (Throw (NativeError (Js.lit "UNLOAD_ERROR") (Js.lit "close failed")),
        Sample.readyWorld, [NativeUnloadModel; ModelClose 0]).
Proof.
  split; [reflexivity|]. split; [reflexivity|].
  exact (unload_close_failure
           Scenario.envCloseFault Sample.readyWorld 0%nat
           (Js.lit "close failed") eq_refl eq_refl eq_refl).
Defined.

Lemma initialize_then_unload_witness :
  let run := (GemmaInference.initialize Sample.env Sample.modelFile ;;;
              GemmaInference.unload Sample.env) (Sample.world0 Sample.files) in
  nonEmptyFile (Sample.world0 Sample.files) Sample.modelFile
  /\ run.1.1 = Ok tt
  /\ gi_isInitialized (dev run.1.2) = false
  /\ km_model (dev run.1.2) = None.
Proof.
  cbn zeta. split; [exact modelFile_nonEmpty|].
  destruct (initialize_then_unload
              Sample.env (Sample.world0 Sample.files) Sample.modelFile
              eq_refl modelFile_nonEmpty eq_refl eq_refl)
    as (Hok & _ & Hinit & Hmodel & _).
  split; [exact Hok|]. split; [exact Hinit | exact Hmodel].
Defined.

Lemma downloadModel_other_files_witness :
  Sample.picture <> InlineApp.MODELS_PATH Sample.env
  /\ Sample.picture <> InlineApp.MODEL_PATH Sample.env
  /\ fs (dev (InlineApp.downloadModel Sample.env
                (Sample.world0 Sample.files)).1.2) !! Sample.picture
     = Some (File 2048).
Proof.
  assert (Hdir : Sample.picture <> InlineApp.MODELS_PATH Sample.env)
    by (vm_compute; discriminate).
  assert (Hfile : Sample.picture <> InlineApp.MODEL_PATH Sample.env)
    by (vm_compute; discriminate).
  split; [exact Hdir|]. split; [exact Hfile|].
  etransitivity;
    [exact (downloadModel_other_files
              Sample.env (Sample.world0 Sample.files) Sample.picture
              Hdir Hfile)
    | vm_compute; reflexivity].
Defined.

Lemma downloadModel_bad_status_witness :
  let run := InlineApp.downloadModel Sample.envUnauthorized (Sample.world0 ∅) in
  status (transferOf Sample.envUnauthorized 0%nat) = 401%Z
  /\ run.1.1 = Ok false
  /\ fs (dev run.1.2) !! InlineApp.MODEL_PATH Sample.envUnauthorized = None
  /\ transfers (dev run.1.2) = 1%nat.
Proof.
  cbn zeta. split; [reflexivity|].
  destruct (downloadModel_bad_status
              Sample.envUnauthorized (Sample.world0 ∅)
              eq_refl eq_refl eq_refl eq_refl)
    as (Hret & _ & Hfs & Htransfers).
  split; [exact Hret|]. split; [exact Hfs | exact Htransfers].
Defined.

Lemma downloadModel_mkdir_failure_witness :
  let run := InlineApp.downloadModel Scenario.envNoMkdir (Sample.world0 ∅) in
  mkdirFault Scenario.envNoMkdir (InlineApp.MODELS_PATH Scenario.envNoMkdir)
    = Some (JsError (Js.lit "ENOSPC"))
  /\ run.1.1 = Ok false
  /\ downloadError (app run.1.2) = Some (Js.lit "ENOSPC")
  /\ dev run.1.2 = dev (Sample.world0 ∅).
Proof.
  cbn zeta. split; [reflexivity|].
  assert (Hnodir : fs (dev (Sample.world0 ∅))
                     !! InlineApp.MODELS_PATH Scenario.envNoMkdir = None)
    by reflexivity.
  destruct (downloadModel_mkdir_failure
              Scenario.envNoMkdir (Sample.world0 ∅)
              (JsError (Js.lit "ENOSPC")) eq_refl Hnodir eq_refl)
    as (Hret & Herr & _ & Hdev).
  split; [exact Hret|]. split; [exact Herr | exact Hdev].
Defined.

Lemma inline_initModel_outcome_witness :
  modelReady (app (Sample.world0 ∅)) = false
  /\ downloadError (app (Sample.world0 ∅)) = None
  /\ (InlineApp.initModel Sample.env (Sample.world0 ∅)).1.1 = Ok tt.
Proof.
  split; [reflexivity|]. split; [reflexivity|].
  exact (proj1 (inline_initModel_outcome
                  Sample.env (Sample.world0 ∅) eq_refl eq_refl)).
Defined.

Lemma initModel_outcome_witness :
  modelReady (app (Sample.world0 ∅)) = false
  /\ downloadError (app (Sample.world0 ∅)) = None
  /\ (App.initModel Sample.env Scenario.download1000 Sample.errorText
        (Sample.world0 ∅)).1.1 = Ok tt.
Proof.
  split; [reflexivity|]. split; [reflexivity|].
  exact (proj1 (initModel_outcome
                  Sample.env Scenario.download1000 Sample.errorText
                  (Sample.world0 ∅) eq_refl eq_refl)).
Defined.

Lemma initModel_download_failure_witness :
  let run := App.initModel Sample.env Sample.offline Sample.errorText
               (Sample.world0 ∅) in
  (App.checkModelExists Sample.env (Sample.world0 ∅)).1.1 = Ok false
  /\ phases run.2
     = [Uninitialized; CheckingArtifact; Downloading;
        Failed (Js.lit "Network request failed")]
  /\ engineIdle run.2.
Proof.
  cbn zeta.
  assert (Hprobe : (App.checkModelExists Sample.env (Sample.world0 ∅)).1.1
                   = Ok false) by (vm_compute; reflexivity).
  split; [exact Hprobe|].
  destruct (initModel_download_failure
              Sample.env Sample.offline Sample.errorText (Sample.world0 ∅)
              (JsError (Js.lit "Network request failed")) Hprobe eq_refl)
    as (_ & Hphases & _ & Hidle & _).
  split; [exact Hphases | exact Hidle].
Defined.

Lemma sendMessage_rejected_witness :
  accepted (Scenario.asking "Hi" (Sample.world0 Sample.files)) = false
  /\ App.sendMessage Sample.env Sample.saveLog
       (Scenario.asking "Hi" (Sample.world0 Sample.files))
     = (Ok tt, Scenario.asking "Hi" (Sample.world0 Sample.files), []).
Proof.
  split; [reflexivity|].
  exact (sendMessage_rejected
           Sample.env Sample.saveLog
           (Scenario.asking "Hi" (Sample.world0 Sample.files)) eq_refl).
Defined.

Lemma sendMessage_reply_witness :
  let w := Scenario.asking "Hi" Sample.readyWorld in
  let run := App.sendMessage Sample.env Sample.saveLog w in
  accepted w = true
  /\ run.1.1 = Ok tt
  /\ map sender (messages (app run.1.2)) = [user; ai]
  /\ loading (app run.1.2) = false.
Proof.
  cbn zeta.
  set (w := Scenario.asking "Hi" Sample.readyWorld).
  set (E := Sample.env).
  assert (Hacc : accepted w = true) by (vm_compute; reflexivity).
  split; [exact Hacc|].
  destruct (GemmaInference.generate E (input (app w)) (selectedImage (app w))
              (atGenerate E w (Some (messages (app w) ++ [userMessage E w]))))
    as [[[r|e] w3] t3] eqn:Hgen.
  - destruct (sendMessage_reply
                E Sample.saveLog w
                (Some (messages (app w) ++ [userMessage E w])) r w3 t3
                Hacc eq_refl Hgen) as (Hok & Hlog & _ & _ & Hloading & _).
    split; [exact Hok|]. split; [rewrite Hlog; reflexivity | exact Hloading].
  - exfalso. vm_compute in Hgen. discriminate Hgen.
Defined.

Lemma sendMessage_picture_without_text_witness :
  let w := Scenario.pictureOnly Sample.readyWorld in
  let run := App.sendMessage Sample.env Sample.saveLog w in
  Js.trim (input (app w)) = []
  /\ App.truthyOpt (selectedImage (app w)) = true
  /\ run.1.1 = Ok tt
  /\ run.2 = [].
Proof.
  cbn zeta.
  set (w := Scenario.pictureOnly Sample.readyWorld).
  split; [reflexivity|]. split; [reflexivity|].
  destruct (sendMessage_picture_without_text
              Sample.env Sample.saveLog w
              (Some (messages (app w) ++ [userMessage Sample.env w]))
              eq_refl eq_refl eq_refl eq_refl) as [Hrun _].
  rewrite Hrun. split; reflexivity.
Defined.

(** The storage is full: the message is sent and answered all the
    same, and nothing has been stored. *)
Example scenario_storage_full :
  let w := Scenario.asking "Hi" Sample.readyWorld in
  let run := App.sendMessage Sample.env
               (MessageUtils.saveMessages Scenario.storeFull) w in
  run.1.1 = Ok tt
  /\ map sender (messages (app run.1.2)) = [user; ai]
  /\ stored (dev run.1.2) = None.
Proof. vm_compute. repeat split. Qed.

Lemma createNewChat_then_send_witness :
  let a := Js.toString 1700000000000 in
  let s := Chats.mkState [Scenario.chatB] (Some (Chats.chatId Scenario.chatB)) in
  let s' := Chats.createNewChat 1700000000000 false s in
  Forall (fun c => Chats.chatId c <> a) (Chats.chats s)
  /\ Chats.activeChat s' = Some a
  /\ Chats.updatedChats (Chats.chats s') a (Js.lit "Hello") Scenario.hello
     = [Scenario.chatB]
  /\ Chats.activeMessages (Chats.chats s') (Chats.activeChat s') = [].
Proof.
  cbn zeta.
  assert (Hfresh :
    Forall (fun c => Chats.chatId c <> Js.toString 1700000000000)
           [Scenario.chatB])
    by (repeat constructor; vm_compute; discriminate).
  split; [exact Hfresh|].
  destruct (createNewChat_then_send
              (Chats.mkState [Scenario.chatB]
                             (Some (Chats.chatId Scenario.chatB)))
              1700000000000 false (Js.lit "Hello") Scenario.hello)
    as (Hactive & _ & Hrejected).
  destruct (Hrejected eq_refl) as (_ & Hlost).
  destruct (Hlost Hfresh) as (Hsame & _).
  split; [exact Hactive|]. split; [exact Hsame|].
  vm_compute. reflexivity.
Defined.

Lemma chats_send_shows_messages_witness :
  let a := Chats.chatId Scenario.chatA in
  find (Chats.isActive a) [Scenario.chatB] = None
  /\ Chats.finalChats
       (Chats.updatedChats [Scenario.chatB] a (Js.lit "Hello") Scenario.hello)
       a Scenario.answer
     = [Scenario.chatB].
Proof.
  cbn zeta.
  assert (Hnone : find (Chats.isActive (Chats.chatId Scenario.chatA))
                       [Scenario.chatB] = None) by (vm_compute; reflexivity).
  split; [exact Hnone|].
  destruct (chats_send_shows_messages
              [Scenario.chatB] (Chats.chatId Scenario.chatA) (Js.lit "Hello")
              Scenario.hello Scenario.answer) as (_ & _ & Hsame).
  exact (Hsame Hnone).
Defined.

Lemma chats_send_keeps_others_witness :
  let a := Chats.chatId Scenario.chatA in
  let b := Chats.chatId Scenario.chatB in
  let final :=
    Chats.finalChats
      (Chats.updatedChats [Scenario.chatA; Scenario.chatB] a (Js.lit "Hello")
                          Scenario.hello)
      a Scenario.answer in
  b <> a
  /\ map Chats.chatId final = [a; b]
  /\ Chats.activeMessages final (Some b) = Chats.chatMessages Scenario.chatB.
Proof.
  cbn zeta.
  assert (Hne : Chats.chatId Scenario.chatB <> Chats.chatId Scenario.chatA)
    by (vm_compute; discriminate).
  split; [exact Hne|].
  destruct (chats_send_keeps_others
              [Scenario.chatA; Scenario.chatB] (Chats.chatId Scenario.chatA)
              (Chats.chatId Scenario.chatB) (Js.lit "Hello")
              Scenario.hello Scenario.answer Hne) as (Hids & Hshown & _).
  split; [exact Hids|].
  etransitivity; [exact Hshown | vm_compute; reflexivity].
Defined.
